(** * OmniNVENC: identifier registry, version utilities and encoder session

    A shallow embedding of [NVENCDefs.cpp] and [NVENCSession.cpp] of the
    OmniCapture plugin, in the configuration in which the session is live
    ([WITH_OMNI_NVENC] and [PLATFORM_WINDOWS] both set).

    - 32-bit and 64-bit unsigned integers are [Z] with the wrap-around written
      out ([u32], [u64]); pointers are [Z] with [nullptr = 0].
    - The process-wide identifier cache is a [gmap] from the 64-bit key to the
      interned identifier.
    - The vendor runtime is an interface ([Driver]) over an abstract runtime
      state; every call into it is recorded, in order, in a call log.
    - What the vendor header [nvEncodeAPI.h] defines (it is not part of the
      repository) is an interface as well ([Headers]).
    - The identifier accessors of [NVENCDefs.cpp] are given a second time as
      the build without the vendor SDK has them ([DefsFallback]).
    - [UE_LOG] lines have no effect on the session and are left out. *)

From Stdlib Require Import ZArith Lia Bool List String Ascii.
From Stdlib Require Import DecimalString HexadecimalString DecimalZ DecimalPos.
From stdpp Require Import gmap strings.
Import ListNotations.

Local Open Scope Z_scope.

(* ===================================================================== *)
(** * Part I: definitions                                                 *)
(* ===================================================================== *)

(** ** Machine integers and text *)

Definition u32 (z : Z) : Z := Z.land z 0xFFFFFFFF.
Definition u64 (z : Z) : Z := Z.land z 0xFFFFFFFFFFFFFFFF.

Definition nullptr : Z := 0.

(** [%d] and [%u] of a [Printf]. *)
Definition fmt_d (z : Z) : string :=
  DecimalString.NilZero.string_of_int (Z.to_int z).

(** [%x]: lower-case hexadecimal of an unsigned value. *)
Definition fmt_x (z : Z) : string :=
  HexadecimalString.NilZero.string_of_uint (N.to_hex_uint (Z.to_N z)).

Fixpoint zeros (n : nat) : string :=
  match n with
  | O => EmptyString
  | S k => String "0" (zeros k)
  end.

(** [%0Nx]: [fmt_x] padded with zeros on the left to at least [w] digits. *)
Definition fmt_0x (w : nat) (z : Z) : string :=
  let s := fmt_x z in
  (zeros (w - String.length s) ++ s)%string.

(** ** State passing

    [State S A] is a computation that reads and updates a state [S] and
    returns an [A]: the identifier cache for NVENCDefs.cpp, the whole machine
    (session object, cache, runtime, call log) for NVENCSession.cpp. *)

Definition State (S A : Type) : Type := S -> A * S.

Definition ret {S A : Type} (a : A) : State S A := fun s => (a, s).

Definition bind {S A B : Type} (c : State S A) (k : A -> State S B) : State S B :=
  fun s => let (a, s') := c s in k a s'.

Declare Scope state_scope.
Delimit Scope state_scope with state.
Notation "x <- c ;; k" := (bind c (fun x => k))
  (at level 20, c at level 99, k at level 200, only parsing) : state_scope.
Notation "' p <- c ;; k" := (bind c (fun x => let 'p := x in k))
  (at level 20, p pattern, c at level 99, k at level 200, only parsing)
  : state_scope.
Notation "c ;; k" := (bind c (fun _ => k))
  (at level 100, k at level 200, only parsing, right associativity)
  : state_scope.
Local Open Scope state_scope.

(** ** Engine and platform types *)

(** [FGuid]: four unsigned 32-bit components. *)
Record FGuid : Type := MkFGuid { GA : Z; GB : Z; GC : Z; GD : Z }.

Definition FGuid_eqb (x y : FGuid) : bool :=
  (GA x =? GA y) && (GB x =? GB y) && (GC x =? GC y) && (GD x =? GD y).

(** [FGuid::IsValid]: some component is not zero. *)
Definition FGuid_IsValid (g : FGuid) : bool :=
  negb ((Z.lor (Z.lor (GA g) (GB g)) (Z.lor (GC g) (GD g))) =? 0).

(** The Windows [GUID] struct: [Data4] holds eight bytes. *)
Record GUID : Type := MkGUID {
  Data1 : Z;
  Data2 : Z;
  Data3 : Z;
  Data4 : list Z
}.

Definition GUID_eqb (x y : GUID) : bool :=
  (Data1 x =? Data1 y) && (Data2 x =? Data2 y) && (Data3 x =? Data3 y)
  && bool_decide (Data4 x = Data4 y).

Definition byte_at (l : list Z) (i : nat) : Z := nth i l 0.

Definition ZeroGUID : GUID := MkGUID 0 0 0 [0; 0; 0; 0; 0; 0; 0; 0].

(** ** Enumerations of the vendor header used by name in the sources *)

Inductive NV_ENC_TUNING_INFO : Type :=
  | NV_ENC_TUNING_INFO_UNDEFINED
  | NV_ENC_TUNING_INFO_HIGH_QUALITY
  | NV_ENC_TUNING_INFO_LOW_LATENCY
  | NV_ENC_TUNING_INFO_ULTRA_LOW_LATENCY
  | NV_ENC_TUNING_INFO_LOSSLESS.

Inductive NV_ENC_BUFFER_FORMAT : Type :=
  | NV_ENC_BUFFER_FORMAT_UNDEFINED
  | NV_ENC_BUFFER_FORMAT_NV12
  | NV_ENC_BUFFER_FORMAT_YUV420_10BIT
  | NV_ENC_BUFFER_FORMAT_ARGB.

#[global] Instance NV_ENC_TUNING_INFO_eq_dec : EqDecision NV_ENC_TUNING_INFO.
Proof. solve_decision. Defined.

#[global] Instance NV_ENC_BUFFER_FORMAT_eq_dec : EqDecision NV_ENC_BUFFER_FORMAT.
Proof. solve_decision. Defined.

(** ** What the sources take from headers that are not in the repository

    The constants of [nvEncodeAPI.h], the build switch derived from it, and
    two text renderings of the engine's [FGuid]. *)

Class Headers : Type := {
  NVENCAPI_VERSION : Z;
  NV_ENCODE_API_FUNCTION_LIST_VER : Z;
  NV_ENC_OPEN_ENCODE_SESSION_EX_PARAMS_VER : Z;
  NV_ENC_PRESET_CONFIG_VER : Z;
  NV_ENC_CONFIG_VER : Z;
  NV_ENC_INITIALIZE_PARAMS_VER : Z;
  NV_ENC_RECONFIGURE_PARAMS_VER : Z;
  NV_ENC_SEQUENCE_PARAM_PAYLOAD_VER : Z;
  NV_ENC_DEVICE_TYPE_DIRECTX : Z;
  NVENC_INFINITE_GOPLENGTH : Z;
  NV_ENC_LEVEL_AUTOSELECT : Z;
  NV_ENC_TIER_HEVC_MAIN : Z;
  NV_ENC_HEVC_CUSIZE_AUTOSELECT : Z;
  NV_ENC_HEVC_CUSIZE_32x32 : Z;
  NV_ENC_BFRAME_REF_MODE_DISABLED : Z;
  NV_ENC_NUM_REF_FRAMES_AUTOSELECT : Z;
  NV_ENC_PARAMS_FRAME_FIELD_MODE_FRAME : Z;
  NV_ENC_MV_PRECISION_QUARTER_PEL : Z;
  NV_ENC_PARAMS_RC_CONSTQP : Z;
  NV_ENC_PARAMS_RC_VBR : Z;
  NV_ENC_PARAMS_RC_CBR : Z;
  NV_ENC_MULTI_PASS_DISABLED : Z;
  NV_ENC_TWO_PASS_QUARTER_RESOLUTION : Z;
  NV_ENC_TWO_PASS_FULL_RESOLUTION : Z;
  NV_ENC_BIT_DEPTH_8 : Z;
  NV_ENC_BIT_DEPTH_10 : Z;
  NV_ENC_CODEC_H264_GUID : GUID;
  NV_ENC_CODEC_HEVC_GUID : GUID;
  NV_ENC_PRESET_P1_GUID : GUID;
  NV_ENC_PRESET_P2_GUID : GUID;
  NV_ENC_PRESET_P3_GUID : GUID;
  NV_ENC_PRESET_P4_GUID : GUID;
  NV_ENC_PRESET_P5_GUID : GUID;
  NV_ENC_PRESET_P6_GUID : GUID;
  NV_ENC_PRESET_P7_GUID : GUID;
  NV_ENC_H264_PROFILE_BASELINE_GUID : GUID;
  NV_ENC_H264_PROFILE_MAIN_GUID : GUID;
  NV_ENC_H264_PROFILE_HIGH_GUID : GUID;
  NV_ENC_H264_PROFILE_HIGH_444_GUID : GUID;
  NV_ENC_HEVC_PROFILE_MAIN_GUID : GUID;
  NV_ENC_HEVC_PROFILE_MAIN10_GUID : GUID;
  NV_ENC_HEVC_PROFILE_FREXT_GUID : GUID;
  (** [UE_NVENC_HAS_FLUSH_FUNCTION]: set when [NVENCAPI_MAJOR_VERSION < 12]. *)
  UE_NVENC_HAS_FLUSH_FUNCTION : bool;
  (** [FGuid::ToString()] and [ToString(DigitsWithHyphensInBraces)]. *)
  FGuid_ToString : FGuid -> string;
  FGuid_ToStringBraces : FGuid -> string
}.

(* --------------------------------------------------------------------- *)
(** ** NVENCDefs.cpp                                                      *)
(* --------------------------------------------------------------------- *)

Module Defs.

(** The identifier cache: [static TMap<uint64, FGuid> Cache]. *)
Definition CacheKey (a d : Z) : Z :=
  Z.lor (u64 (Z.shiftl (u64 a) 32)) d.

Definition GuidFromComponents (a b c d : Z) : State (gmap Z FGuid) FGuid :=
  fun Cache =>
    let Key := CacheKey a d in
    match Cache !! Key with
    | Some Existing => (Existing, Cache)
    | None =>
        let Guid := MkFGuid a b c d in
        (Guid, <[Key := Guid]> Cache)
    end.

Definition GuidFromNative (InGuid : GUID) : State (gmap Z FGuid) FGuid :=
  let b := Z.lor (u32 (Z.shiftl (Data2 InGuid) 16)) (Data3 InGuid) in
  let c := Z.lor (Z.lor (Z.lor
             (u32 (Z.shiftl (byte_at (Data4 InGuid) 0) 24))
             (u32 (Z.shiftl (byte_at (Data4 InGuid) 1) 16)))
             (u32 (Z.shiftl (byte_at (Data4 InGuid) 2) 8)))
             (byte_at (Data4 InGuid) 3) in
  let d := Z.lor (Z.lor (Z.lor
             (u32 (Z.shiftl (byte_at (Data4 InGuid) 4) 24))
             (u32 (Z.shiftl (byte_at (Data4 InGuid) 5) 16)))
             (u32 (Z.shiftl (byte_at (Data4 InGuid) 6) 8)))
             (byte_at (Data4 InGuid) 7) in
  GuidFromComponents (Data1 InGuid) b c d.

(** The two preset identifiers the file defines itself when the header does
    not ([#ifndef NV_ENC_PRESET_DEFAULT_GUID] and the next block). *)
Definition NV_ENC_PRESET_DEFAULT_GUID : GUID :=
  MkGUID 0x60e4c05a 0x5333 0x4e09 [0x9a; 0xb5; 0x00; 0xa3; 0x1e; 0x99; 0x75; 0x6f].

Definition NV_ENC_PRESET_LOW_LATENCY_HQ_GUID : GUID :=
  MkGUID 0xb3d9dc6f 0x9f9a 0x4ff2 [0xb2; 0xea; 0xef; 0x0c; 0xde; 0x24; 0x82; 0x5b].

(** The two tuning identifiers, local statics of their accessors. *)
Definition LowLatencyTuningGuid : GUID :=
  MkGUID 0xd7363f6f 0x84f0 0x4176 [0xa0; 0xe0; 0x0d; 0xa5; 0x46; 0x46; 0x0b; 0x7d].

Definition HighQualityTuningGuid : GUID :=
  MkGUID 0x1d69c67f 0x0f3c 0x4f25 [0x9f; 0xa4; 0xdf; 0x7b; 0xfb; 0xb0; 0x2e; 0x59].

Inductive ENVENCCodec : Type := H264 | HEVC.
Inductive ENVENCBufferFormat : Type := NV12 | P010 | BGRA.

Definition BufferFormatToString (Format : ENVENCBufferFormat) : string :=
  match Format with
  | P010 => "P010"
  | BGRA => "BGRA"
  | NV12 => "NV12"
  end.

Definition CodecToString (Codec : ENVENCCodec) : string :=
  match Codec with
  | HEVC => "HEVC"
  | H264 => "H.264"
  end.

Section Accessors.
Context `{Headers}.

Definition CodecGuid (Codec : ENVENCCodec) : State (gmap Z FGuid) FGuid :=
  match Codec with
  | HEVC => GuidFromNative NV_ENC_CODEC_HEVC_GUID
  | H264 => GuidFromNative NV_ENC_CODEC_H264_GUID
  end.

Definition PresetDefaultGuid : State (gmap Z FGuid) FGuid :=
  GuidFromNative NV_ENC_PRESET_DEFAULT_GUID.
Definition PresetP1Guid : State (gmap Z FGuid) FGuid :=
  GuidFromNative NV_ENC_PRESET_P1_GUID.
Definition PresetP2Guid : State (gmap Z FGuid) FGuid :=
  GuidFromNative NV_ENC_PRESET_P2_GUID.
Definition PresetP3Guid : State (gmap Z FGuid) FGuid :=
  GuidFromNative NV_ENC_PRESET_P3_GUID.
Definition PresetP4Guid : State (gmap Z FGuid) FGuid :=
  GuidFromNative NV_ENC_PRESET_P4_GUID.
Definition PresetP5Guid : State (gmap Z FGuid) FGuid :=
  GuidFromNative NV_ENC_PRESET_P5_GUID.
Definition PresetP6Guid : State (gmap Z FGuid) FGuid :=
  GuidFromNative NV_ENC_PRESET_P6_GUID.
Definition PresetP7Guid : State (gmap Z FGuid) FGuid :=
  GuidFromNative NV_ENC_PRESET_P7_GUID.
Definition PresetLowLatencyHighQualityGuid : State (gmap Z FGuid) FGuid :=
  GuidFromNative NV_ENC_PRESET_LOW_LATENCY_HQ_GUID.

(** The linear reverse lookup: each comparison interns the known identifier
    it compares with, and the first match ends the lookup. *)
Definition PresetGuidToString (Guid : FGuid) : State (gmap Z FGuid) string :=
  g <- PresetDefaultGuid ;;
  if FGuid_eqb Guid g then ret "NV_ENC_PRESET_DEFAULT"%string else
  g <- PresetP1Guid ;;
  if FGuid_eqb Guid g then ret "NV_ENC_PRESET_P1"%string else
  g <- PresetP2Guid ;;
  if FGuid_eqb Guid g then ret "NV_ENC_PRESET_P2"%string else
  g <- PresetP3Guid ;;
  if FGuid_eqb Guid g then ret "NV_ENC_PRESET_P3"%string else
  g <- PresetP4Guid ;;
  if FGuid_eqb Guid g then ret "NV_ENC_PRESET_P4"%string else
  g <- PresetP5Guid ;;
  if FGuid_eqb Guid g then ret "NV_ENC_PRESET_P5"%string else
  g <- PresetP6Guid ;;
  if FGuid_eqb Guid g then ret "NV_ENC_PRESET_P6"%string else
  g <- PresetP7Guid ;;
  if FGuid_eqb Guid g then ret "NV_ENC_PRESET_P7"%string else
  g <- PresetLowLatencyHighQualityGuid ;;
  if FGuid_eqb Guid g then ret "NV_ENC_PRESET_LOW_LATENCY_HQ"%string else
  ret (FGuid_ToString Guid).

(** The legacy names: high-performance is P1, high-quality is P5. *)
Definition PresetHighPerformanceApproxGuid : State (gmap Z FGuid) FGuid :=
  PresetP1Guid.
Definition PresetHighQualityApproxGuid : State (gmap Z FGuid) FGuid :=
  PresetP5Guid.

Definition TuningLatencyGuid : State (gmap Z FGuid) FGuid :=
  GuidFromNative LowLatencyTuningGuid.
Definition TuningQualityGuid : State (gmap Z FGuid) FGuid :=
  GuidFromNative HighQualityTuningGuid.

End Accessors.

(** Status codes, numbered as [StatusToString] numbers them. *)
Definition NV_ENC_SUCCESS : Z := 0.
Definition NV_ENC_ERR_NO_ENCODE_DEVICE : Z := 1.
Definition NV_ENC_ERR_INVALID_ENCODERDEVICE : Z := 3.
Definition NV_ENC_ERR_INVALID_PTR : Z := 6.
Definition NV_ENC_ERR_INVALID_PARAM : Z := 8.
Definition NV_ENC_ERR_UNSUPPORTED_PARAM : Z := 12.
Definition NV_ENC_ERR_NOT_ENOUGH_BUFFER : Z := 14.
Definition NV_ENC_ERR_NEED_MORE_INPUT : Z := 0x18.

Definition StatusToString (StatusCode : Z) : string :=
  if StatusCode =? 0 then "NV_ENC_SUCCESS"
  else if StatusCode =? 1 then "NV_ENC_ERR_NO_ENCODE_DEVICE"
  else if StatusCode =? 2 then "NV_ENC_ERR_UNSUPPORTED_DEVICE"
  else if StatusCode =? 3 then "NV_ENC_ERR_INVALID_ENCODERDEVICE"
  else if StatusCode =? 4 then "NV_ENC_ERR_INVALID_DEVICE"
  else if StatusCode =? 5 then "NV_ENC_ERR_DEVICE_NOT_EXIST"
  else if StatusCode =? 6 then "NV_ENC_ERR_INVALID_PTR"
  else if StatusCode =? 7 then "NV_ENC_ERR_INVALID_EVENT"
  else if StatusCode =? 8 then "NV_ENC_ERR_INVALID_PARAM"
  else if StatusCode =? 9 then "NV_ENC_ERR_INVALID_CALL"
  else if StatusCode =? 10 then "NV_ENC_ERR_OUT_OF_MEMORY"
  else if StatusCode =? 11 then "NV_ENC_ERR_ENCODER_NOT_INITIALIZED"
  else if StatusCode =? 12 then "NV_ENC_ERR_UNSUPPORTED_PARAM"
  else if StatusCode =? 13 then "NV_ENC_ERR_LOCK_BUSY"
  else if StatusCode =? 14 then "NV_ENC_ERR_NOT_ENOUGH_BUFFER"
  else if StatusCode =? 0x18 then "NV_ENC_ERR_NEED_MORE_INPUT"
  else ("NVENC_STATUS_" ++ fmt_d StatusCode)%string.

(** [FNVENCAPIVersion]: two unsigned 32-bit fields, zero by default. *)
Record FNVENCAPIVersion : Type := MkVersion { Major : Z; Minor : Z }.

Definition GetMinimumAPIVersion : FNVENCAPIVersion := MkVersion 1 0.

Definition EncodeApiVersion (Version : FNVENCAPIVersion) : Z :=
  Z.lor (Z.land (Major Version) 0xFF)
        (u32 (Z.shiftl (Z.land (Minor Version) 0xFF) 24)).

Definition DecodeApiVersion (EncodedVersion : Z) : FNVENCAPIVersion :=
  MkVersion (Z.land EncodedVersion 0xFF)
            (Z.land (Z.shiftr EncodedVersion 24) 0xFF).

Definition DecodeRuntimeVersion (RuntimeVersion : Z) : FNVENCAPIVersion :=
  if RuntimeVersion =? 0 then MkVersion 0 0
  else if 0x0FFF <? RuntimeVersion then DecodeApiVersion RuntimeVersion
  else MkVersion (Z.land (Z.shiftr RuntimeVersion 4) 0x0FFF)
                 (Z.land RuntimeVersion 0x0F).

Definition VersionToString (Version : FNVENCAPIVersion) : string :=
  (fmt_d (Major Version) ++ "." ++ fmt_d (Minor Version))%string.

Definition IsVersionOlder (Lhs Rhs : FNVENCAPIVersion) : bool :=
  if negb (Major Lhs =? Major Rhs) then Major Lhs <? Major Rhs
  else Minor Lhs <? Minor Rhs.

Definition PatchStructVersion (StructVersion ApiVersion : Z) : Z :=
  let Flags := Z.land StructVersion 0xF0000000 in
  let StructId := Z.land (Z.shiftr StructVersion 16) 0x0FFF in
  Z.lor (Z.lor (Z.land ApiVersion 0x0FFFFFFF) (u32 (Z.shiftl StructId 16))) Flags.

(** The two fields of a struct-version token the specification names: the
    struct-id (bits 16 to 27) and the flags (the top four bits). *)
Definition StructIdField (Token : Z) : Z := Z.land (Z.shiftr Token 16) 0x0FFF.
Definition FlagsField (Token : Z) : Z := Z.land Token 0xF0000000.

End Defs.

(* --------------------------------------------------------------------- *)
(** ** NVENCDefs.cpp without the vendor SDK                               *)
(* --------------------------------------------------------------------- *)

(** The [#else] branches of the accessors ([WITH_OMNI_NVENC] not set): the
    identifiers are spelled out as four components each.  The cache is the
    same one. *)
Module DefsFallback.
Import Defs.

Definition CodecGuid (Codec : ENVENCCodec) : State (gmap Z FGuid) FGuid :=
  match Codec with
  | HEVC => GuidFromComponents 0x790CDC88 0x45224D7B 0x9425BDA9 0x975F7603
  | H264 => GuidFromComponents 0x6BC82762 0x4E634CA4 0xAA851E50 0xF321F6BF
  end.

Definition PresetDefaultGuid : State (gmap Z FGuid) FGuid :=
  GuidFromComponents 0x60E4C05A 0x53334E09 0x9AB500A3 0x1E99756F.
Definition PresetP1Guid : State (gmap Z FGuid) FGuid :=
  GuidFromComponents 0xFC0A8D3E 0x45F84CF8 0x80C72988 0x71590EBF.
Definition PresetP2Guid : State (gmap Z FGuid) FGuid :=
  GuidFromComponents 0xF581CFB8 0x88D64381 0x93F0DF13 0xF9C27DAB.
Definition PresetP3Guid : State (gmap Z FGuid) FGuid :=
  GuidFromComponents 0x36850110 0x3A07441F 0x94D53670 0x631F91F6.
Definition PresetP4Guid : State (gmap Z FGuid) FGuid :=
  GuidFromComponents 0x90A7B826 0xDF064862 0xB9D2CD6D 0x73A08681.
Definition PresetP5Guid : State (gmap Z FGuid) FGuid :=
  GuidFromComponents 0x21C6E6B4 0x297A4CBA 0x998FB6CB 0xDE72ADE3.
Definition PresetP6Guid : State (gmap Z FGuid) FGuid :=
  GuidFromComponents 0x8E75C279 0x62994AB6 0x83020B21 0x5A335CF5.
Definition PresetP7Guid : State (gmap Z FGuid) FGuid :=
  GuidFromComponents 0x84848C12 0x6F714C13 0x931B53E2 0x83F57974.
Definition PresetHighPerformanceApproxGuid : State (gmap Z FGuid) FGuid :=
  PresetP1Guid.
Definition PresetHighQualityApproxGuid : State (gmap Z FGuid) FGuid :=
  PresetP5Guid.
Definition PresetLowLatencyHighQualityGuid : State (gmap Z FGuid) FGuid :=
  GuidFromComponents 0xB3D9DC6F 0x9F9A4FF2 0xB2EAEF0C 0xDE24825B.
Definition TuningLatencyGuid : State (gmap Z FGuid) FGuid :=
  GuidFromComponents 0xD7363F6F 0x84F04176 0xA0E00DA5 0x46460B7D.
Definition TuningQualityGuid : State (gmap Z FGuid) FGuid :=
  GuidFromComponents 0x1D69C67F 0x0F3C4F25 0x9FA4DF7B 0xFBB02E59.

(** [PresetGuidToString] is the same code in both builds; [ToString] is the
    engine's rendering of an identifier no comparison matched. *)
Definition PresetGuidToString (ToString : FGuid -> string) (Guid : FGuid)
  : State (gmap Z FGuid) string :=
  g <- PresetDefaultGuid ;;
  if FGuid_eqb Guid g then ret "NV_ENC_PRESET_DEFAULT"%string else
  g <- PresetP1Guid ;;
  if FGuid_eqb Guid g then ret "NV_ENC_PRESET_P1"%string else
  g <- PresetP2Guid ;;
  if FGuid_eqb Guid g then ret "NV_ENC_PRESET_P2"%string else
  g <- PresetP3Guid ;;
  if FGuid_eqb Guid g then ret "NV_ENC_PRESET_P3"%string else
  g <- PresetP4Guid ;;
  if FGuid_eqb Guid g then ret "NV_ENC_PRESET_P4"%string else
  g <- PresetP5Guid ;;
  if FGuid_eqb Guid g then ret "NV_ENC_PRESET_P5"%string else
  g <- PresetP6Guid ;;
  if FGuid_eqb Guid g then ret "NV_ENC_PRESET_P6"%string else
  g <- PresetP7Guid ;;
  if FGuid_eqb Guid g then ret "NV_ENC_PRESET_P7"%string else
  g <- PresetLowLatencyHighQualityGuid ;;
  if FGuid_eqb Guid g then ret "NV_ENC_PRESET_LOW_LATENCY_HQ"%string else
  ret (ToString Guid).

End DefsFallback.

(* --------------------------------------------------------------------- *)
(** ** NVENCParameters.h, as NVENCSession.cpp and NVENCParameters.cpp use it *)
(* --------------------------------------------------------------------- *)

Inductive ENVENCPreset : Type :=
  | Preset_Default
  | Preset_LowLatencyHighQuality
  | Preset_P1 | Preset_P2 | Preset_P3 | Preset_P4
  | Preset_P5 | Preset_P6 | Preset_P7
  | Preset_Other.   (* any enumerator [PresetEnumToGuid] sends to [default:] *)

Inductive ENVENCTuningMode : Type :=
  | Tuning_Automatic
  | Tuning_HighQuality
  | Tuning_LowLatency
  | Tuning_UltraLowLatency
  | Tuning_Lossless.

Inductive ENVENCRateControlMode : Type := RC_CONSTQP | RC_VBR | RC_CBR.
Inductive ENVENCMultipassMode : Type := MP_DISABLED | MP_QUARTER | MP_FULL.

Record FNVENCParameters : Type := MkParameters {
  Codec : Defs.ENVENCCodec;
  BufferFormat : Defs.ENVENCBufferFormat;
  Width : Z;
  Height : Z;
  Framerate : Z;
  TargetBitrate : Z;
  MaxBitrate : Z;
  QPMin : Z;
  QPMax : Z;
  RateControlMode : ENVENCRateControlMode;
  MultipassMode : ENVENCMultipassMode;
  GOPLength : Z;
  bEnableLookahead : bool;
  bEnableAdaptiveQuantization : bool;
  bEnableIntraRefresh : bool;
  bIntraRefreshOnSceneChange : bool;
  RequestedPreset : ENVENCPreset;
  RequestedTuning : ENVENCTuningMode;
  ActivePresetGuid : FGuid;
  ActiveTuning : ENVENCTuningMode
}.

(* --------------------------------------------------------------------- *)
(** ** The vendor structs, with the fields the session reads or writes     *)
(* --------------------------------------------------------------------- *)

(** Every struct carries one more field, [.._rest], that stands for all the
    fields the session never names: they travel with the struct when it is
    copied.  The two members of the [encodeCodecConfig] union are kept as two
    fields; their overlap in memory is not modelled. *)

Record NV_ENC_RC_PARAMS : Type := MkRcParams {
  rateControlMode : Z;
  averageBitRate : Z;
  maxBitRate : Z;
  enableLookahead : Z;
  enableAQ : Z;
  enableTemporalAQ : Z;
  enableInitialRCQP : Z;
  qpInterB : Z;
  qpInterP : Z;
  qpIntra : Z;
  multiPass : Z;
  rc_rest : Z
}.

Record NV_ENC_CONFIG_H264 : Type := MkH264Config {
  h264_idrPeriod : Z;
  h264_chromaFormatIDC : Z;
  h264_inputBitDepth : Z;
  h264_outputBitDepth : Z;
  h264_level : Z;
  h264_rest : Z
}.

Record NV_ENC_CONFIG_HEVC : Type := MkHevcConfig {
  hevc_level : Z;
  hevc_tier : Z;
  hevc_minCUSize : Z;
  hevc_maxCUSize : Z;
  hevc_chromaFormatIDC : Z;
  hevc_inputBitDepth : Z;
  hevc_outputBitDepth : Z;
  hevc_idrPeriod : Z;
  hevc_useBFramesAsRef : Z;
  hevc_numRefL0 : Z;
  hevc_numRefL1 : Z;
  hevc_rest : Z
}.

Record NV_ENC_CONFIG : Type := MkConfig {
  cfg_version : Z;
  profileGUID : GUID;
  gopLength : Z;
  frameIntervalP : Z;
  frameFieldMode : Z;
  mvPrecision : Z;
  rcParams : NV_ENC_RC_PARAMS;
  h264Config : NV_ENC_CONFIG_H264;
  hevcConfig : NV_ENC_CONFIG_HEVC;
  cfg_rest : Z
}.

Record NV_ENC_PRESET_CONFIG : Type := MkPresetConfig {
  pc_version : Z;
  presetCfg : NV_ENC_CONFIG
}.

(** Where [NV_ENC_INITIALIZE_PARAMS::encodeConfig] points. *)
Inductive ConfigPointer : Type :=
  | ConfigNull
  | ToSessionEncodeConfig     (* [&EncodeConfig], the session's member *)
  | ToLocalNewConfig.         (* [&NewConfig], a local of [Reconfigure] *)

Record NV_ENC_INITIALIZE_PARAMS : Type := MkInitializeParams {
  ip_version : Z;
  encodeGUID : GUID;
  presetGUID : GUID;
  tuningInfo : NV_ENC_TUNING_INFO;
  encodeWidth : Z;
  encodeHeight : Z;
  darWidth : Z;
  darHeight : Z;
  frameRateNum : Z;
  frameRateDen : Z;
  enablePTD : Z;
  encodeConfig : ConfigPointer;
  maxEncodeWidth : Z;
  maxEncodeHeight : Z;
  bufferFormat : NV_ENC_BUFFER_FORMAT;
  enableEncodeAsync : Z;
  ip_rest : Z
}.

Record NV_ENC_RECONFIGURE_PARAMS : Type := MkReconfigureParams {
  rp_version : Z;
  reInitEncodeParams : NV_ENC_INITIALIZE_PARAMS;
  forceIDR : Z;
  resetEncoder : Z
}.

Record NV_ENC_OPEN_ENCODE_SESSION_EX_PARAMS : Type := MkOpenParams {
  op_version : Z;
  op_apiVersion : Z;
  op_device : Z;
  op_deviceType : Z
}.

(** [NV_ENCODE_API_FUNCTION_LIST]: for each entry point the session uses,
    whether the pointer is non-null.  What a present entry point does is the
    [Driver]'s. *)
Record NV_ENCODE_API_FUNCTION_LIST : Type := MkFunctionList {
  fl_version : Z;
  nvEncOpenEncodeSessionEx : bool;
  nvEncGetEncodePresetGUIDs : bool;
  nvEncGetEncodePresetConfig : bool;
  nvEncGetEncodePresetConfigEx : bool;
  nvEncInitializeEncoder : bool;
  nvEncReconfigureEncoder : bool;
  nvEncFlushEncoderQueue : bool;
  nvEncDestroyEncoder : bool;
  nvEncGetSequenceParams : bool
}.

(** Value initialisation [= {}] and [Memzero]. *)
Definition ZeroRcParams : NV_ENC_RC_PARAMS := MkRcParams 0 0 0 0 0 0 0 0 0 0 0 0.
Definition ZeroH264Config : NV_ENC_CONFIG_H264 := MkH264Config 0 0 0 0 0 0.
Definition ZeroHevcConfig : NV_ENC_CONFIG_HEVC :=
  MkHevcConfig 0 0 0 0 0 0 0 0 0 0 0 0.
Definition ZeroConfig : NV_ENC_CONFIG :=
  MkConfig 0 ZeroGUID 0 0 0 0 ZeroRcParams ZeroH264Config ZeroHevcConfig 0.
Definition ZeroPresetConfig : NV_ENC_PRESET_CONFIG := MkPresetConfig 0 ZeroConfig.
Definition ZeroInitializeParams : NV_ENC_INITIALIZE_PARAMS :=
  MkInitializeParams 0 ZeroGUID ZeroGUID NV_ENC_TUNING_INFO_UNDEFINED
    0 0 0 0 0 0 0 ConfigNull 0 0 NV_ENC_BUFFER_FORMAT_UNDEFINED 0 0.
Definition ZeroFunctionList : NV_ENCODE_API_FUNCTION_LIST :=
  MkFunctionList 0 false false false false false false false false false.

(* --------------------------------------------------------------------- *)
(** ** The runtime behind the function table                              *)
(* --------------------------------------------------------------------- *)

(** One method per entry point the session calls, each a step of the
    runtime's own state [W].  A status is the [NVENCSTATUS] number; an
    out-parameter is part of the result.  In-parameters are read only. *)
Class Driver (W : Type) : Type := {
  (** [FNVEncodeAPILoader::Get().Load()] *)
  drvLoad : W -> bool * W;
  (** [FNVENCCommon::GetHandle()] is non-null *)
  drvHasRuntimeHandle : W -> bool;
  (** [GetDllExport(.., "NvEncodeAPIGetMaxSupportedVersion")] is non-null *)
  drvHasMaxSupportedVersion : W -> bool;
  (** status, and the value left in [RuntimeApiVersionRaw] (0 before) *)
  drvGetMaxSupportedVersion : W -> (Z * Z) * W;
  (** [Loader.GetFunctions().NvEncodeAPICreateInstance] is non-null *)
  drvHasCreateInstance : W -> bool;
  (** status, and the function list as the runtime leaves it *)
  drvCreateInstance :
    NV_ENCODE_API_FUNCTION_LIST -> W -> (Z * NV_ENCODE_API_FUNCTION_LIST) * W;
  (** status, and the value left in [CandidateEncoder] (null before) *)
  drvOpenEncodeSessionEx :
    NV_ENC_OPEN_ENCODE_SESSION_EX_PARAMS -> W -> (Z * Z) * W;
  (** encoder, codec, the array size passed (0 with a null array); status,
      the identifiers written and the count reported *)
  drvGetEncodePresetGUIDs : Z -> GUID -> Z -> W -> (Z * list GUID * Z) * W;
  (** encoder, codec, preset, the struct passed; status and the struct as the
      runtime leaves it *)
  drvGetEncodePresetConfig :
    Z -> GUID -> GUID -> NV_ENC_PRESET_CONFIG -> W -> (Z * NV_ENC_PRESET_CONFIG) * W;
  drvGetEncodePresetConfigEx :
    Z -> GUID -> GUID -> NV_ENC_TUNING_INFO -> NV_ENC_PRESET_CONFIG -> W ->
    (Z * NV_ENC_PRESET_CONFIG) * W;
  (** encoder, the parameters and the configuration they point to *)
  drvInitializeEncoder :
    Z -> NV_ENC_INITIALIZE_PARAMS -> NV_ENC_CONFIG -> W -> Z * W;
  drvReconfigureEncoder :
    Z -> NV_ENC_RECONFIGURE_PARAMS -> NV_ENC_CONFIG -> W -> Z * W;
  drvFlushEncoderQueue : Z -> W -> Z * W;
  drvDestroyEncoder : Z -> W -> Z * W;
  (** encoder, payload version, [inBufferSize], the value of [OutputSize]
      before the call; status, the value of [OutputSize] after it and the
      bytes written to the buffer *)
  drvGetSequenceParams : Z -> Z -> Z -> Z -> W -> (Z * Z * list Z) * W
}.

(** The call log: one entry per call into the runtime, with what identifies
    the call and the status it returned. *)
Inductive Call : Type :=
  | CallLoad (ok : bool)
  | CallGetMaxSupportedVersion (status raw : Z)
  | CallCreateInstance (version status : Z)
  | CallOpenEncodeSessionEx (deviceType status encoder : Z)
  | CallGetEncodePresetGUIDs (encoder size status count : Z)
  | CallGetEncodePresetConfig (encoder : Z) (preset : GUID) (status : Z)
  | CallGetEncodePresetConfigEx
      (encoder : Z) (preset : GUID) (tuning : NV_ENC_TUNING_INFO) (status : Z)
  | CallInitializeEncoder (encoder status : Z)
  | CallReconfigureEncoder (encoder status : Z)
  | CallFlushEncoderQueue (encoder status : Z)
  | CallDestroyEncoder (encoder status : Z)
  | CallGetSequenceParams (encoder inBufferSize status outSize : Z).

(** ** Arrays

    A [TArray] is the list of its elements; a count the runtime reports is
    taken to fit the array's signed 32-bit count. *)

(** What a callee that is handed [Buffer] and writes [Written] leaves in it. *)
Definition WriteArray {A : Type} (Buffer Written : list A) : list A :=
  firstn (length Buffer) Written ++ skipn (length Written) Buffer.

(** [SetNum], [SetNumZeroed]: truncate, or extend with [Fill]. *)
Definition SetNum {A : Type} (Fill : A) (Buffer : list A) (NewNum : nat) : list A :=
  firstn NewNum Buffer ++ repeat Fill (NewNum - length Buffer).


(* --------------------------------------------------------------------- *)
(** ** NVENCSession.cpp                                                   *)
(* --------------------------------------------------------------------- *)

(** [FNVENCParameters()]: the member initialisers are in NVENCParameters.h. *)
Class ParametersHeader : Type := {
  DefaultParameters : FNVENCParameters
}.

Module Session.
Import Defs.

Record FNVENCSession : Type := MkSession {
  Encoder : Z;
  Device : Z;
  DeviceType : Z;
  FunctionList : NV_ENCODE_API_FUNCTION_LIST;
  EncodeConfig : NV_ENC_CONFIG;
  InitializeParams : NV_ENC_INITIALIZE_PARAMS;
  NvBufferFormat : NV_ENC_BUFFER_FORMAT;
  CurrentParameters : FNVENCParameters;
  ApiVersion : Z;
  bIsOpen : bool;
  bIsInitialised : bool;
  LastErrorMessage : string;
  LogContext : string
}.

(** Assignments to one member. *)
Definition set_Encoder (v : Z) (s : FNVENCSession) : FNVENCSession :=
  MkSession v (Device s) (DeviceType s) (FunctionList s) (EncodeConfig s)
    (InitializeParams s) (NvBufferFormat s) (CurrentParameters s)
    (ApiVersion s) (bIsOpen s) (bIsInitialised s) (LastErrorMessage s)
    (LogContext s).
Definition set_Device (v : Z) (s : FNVENCSession) : FNVENCSession :=
  MkSession (Encoder s) v (DeviceType s) (FunctionList s) (EncodeConfig s)
    (InitializeParams s) (NvBufferFormat s) (CurrentParameters s)
    (ApiVersion s) (bIsOpen s) (bIsInitialised s) (LastErrorMessage s)
    (LogContext s).
Definition set_DeviceType (v : Z) (s : FNVENCSession) : FNVENCSession :=
  MkSession (Encoder s) (Device s) v (FunctionList s) (EncodeConfig s)
    (InitializeParams s) (NvBufferFormat s) (CurrentParameters s)
    (ApiVersion s) (bIsOpen s) (bIsInitialised s) (LastErrorMessage s)
    (LogContext s).
Definition set_FunctionList (v : NV_ENCODE_API_FUNCTION_LIST) (s : FNVENCSession)
  : FNVENCSession :=
  MkSession (Encoder s) (Device s) (DeviceType s) v (EncodeConfig s)
    (InitializeParams s) (NvBufferFormat s) (CurrentParameters s)
    (ApiVersion s) (bIsOpen s) (bIsInitialised s) (LastErrorMessage s)
    (LogContext s).
Definition set_EncodeConfig (v : NV_ENC_CONFIG) (s : FNVENCSession)
  : FNVENCSession :=
  MkSession (Encoder s) (Device s) (DeviceType s) (FunctionList s) v
    (InitializeParams s) (NvBufferFormat s) (CurrentParameters s)
    (ApiVersion s) (bIsOpen s) (bIsInitialised s) (LastErrorMessage s)
    (LogContext s).
Definition set_InitializeParams (v : NV_ENC_INITIALIZE_PARAMS) (s : FNVENCSession)
  : FNVENCSession :=
  MkSession (Encoder s) (Device s) (DeviceType s) (FunctionList s)
    (EncodeConfig s) v (NvBufferFormat s) (CurrentParameters s)
    (ApiVersion s) (bIsOpen s) (bIsInitialised s) (LastErrorMessage s)
    (LogContext s).
Definition set_NvBufferFormat (v : NV_ENC_BUFFER_FORMAT) (s : FNVENCSession)
  : FNVENCSession :=
  MkSession (Encoder s) (Device s) (DeviceType s) (FunctionList s)
    (EncodeConfig s) (InitializeParams s) v (CurrentParameters s)
    (ApiVersion s) (bIsOpen s) (bIsInitialised s) (LastErrorMessage s)
    (LogContext s).
Definition set_CurrentParameters (v : FNVENCParameters) (s : FNVENCSession)
  : FNVENCSession :=
  MkSession (Encoder s) (Device s) (DeviceType s) (FunctionList s)
    (EncodeConfig s) (InitializeParams s) (NvBufferFormat s) v
    (ApiVersion s) (bIsOpen s) (bIsInitialised s) (LastErrorMessage s)
    (LogContext s).
Definition set_ApiVersion (v : Z) (s : FNVENCSession) : FNVENCSession :=
  MkSession (Encoder s) (Device s) (DeviceType s) (FunctionList s)
    (EncodeConfig s) (InitializeParams s) (NvBufferFormat s)
    (CurrentParameters s) v (bIsOpen s) (bIsInitialised s)
    (LastErrorMessage s) (LogContext s).
Definition set_bIsOpen (v : bool) (s : FNVENCSession) : FNVENCSession :=
  MkSession (Encoder s) (Device s) (DeviceType s) (FunctionList s)
    (EncodeConfig s) (InitializeParams s) (NvBufferFormat s)
    (CurrentParameters s) (ApiVersion s) v (bIsInitialised s)
    (LastErrorMessage s) (LogContext s).
Definition set_bIsInitialised (v : bool) (s : FNVENCSession) : FNVENCSession :=
  MkSession (Encoder s) (Device s) (DeviceType s) (FunctionList s)
    (EncodeConfig s) (InitializeParams s) (NvBufferFormat s)
    (CurrentParameters s) (ApiVersion s) (bIsOpen s) v
    (LastErrorMessage s) (LogContext s).
Definition set_LastErrorMessage (v : string) (s : FNVENCSession) : FNVENCSession :=
  MkSession (Encoder s) (Device s) (DeviceType s) (FunctionList s)
    (EncodeConfig s) (InitializeParams s) (NvBufferFormat s)
    (CurrentParameters s) (ApiVersion s) (bIsOpen s) (bIsInitialised s)
    v (LogContext s).
Definition set_LogContext (v : string) (s : FNVENCSession) : FNVENCSession :=
  MkSession (Encoder s) (Device s) (DeviceType s) (FunctionList s)
    (EncodeConfig s) (InitializeParams s) (NvBufferFormat s)
    (CurrentParameters s) (ApiVersion s) (bIsOpen s) (bIsInitialised s)
    (LastErrorMessage s) v.

(** The machine an operation runs on: the session object ([this]), the
    identifier cache, the runtime, and the log of calls made so far. *)
Record Machine (W : Type) : Type := MkMachine {
  This : FNVENCSession;
  Cache : gmap Z FGuid;
  Runtime : W;
  Log : list Call
}.
Arguments MkMachine {W} _ _ _ _.
Arguments This {W} _.
Arguments Cache {W} _.
Arguments Runtime {W} _.
Arguments Log {W} _.

(** *** Helpers of the anonymous namespace *)

(** [NV_ENC_DEVICE_TYPE_DIRECTX11] is no macro of the vendor header, so the
    [#else] value is the one compiled. *)
Definition GetDirectX11DeviceType : Z := 0x3.

Definition ToWindowsGuid (InGuid : FGuid) : GUID :=
  let c := u32 (GC InGuid) in
  let d := u32 (GD InGuid) in
  MkGUID (u32 (GA InGuid))
         (Z.land (Z.shiftr (u32 (GB InGuid)) 16) 0xFFFF)
         (Z.land (u32 (GB InGuid)) 0xFFFF)
         [ Z.land (Z.shiftr c 24) 0xFF; Z.land (Z.shiftr c 16) 0xFF;
           Z.land (Z.shiftr c 8) 0xFF;  Z.land c 0xFF;
           Z.land (Z.shiftr d 24) 0xFF; Z.land (Z.shiftr d 16) 0xFF;
           Z.land (Z.shiftr d 8) 0xFF;  Z.land d 0xFF ].

Definition FromWindowsGuid (InGuid : GUID) : FGuid :=
  let b := Z.lor (u32 (Z.shiftl (Data2 InGuid) 16)) (Data3 InGuid) in
  let c := Z.lor (Z.lor (Z.lor
             (u32 (Z.shiftl (byte_at (Data4 InGuid) 0) 24))
             (u32 (Z.shiftl (byte_at (Data4 InGuid) 1) 16)))
             (u32 (Z.shiftl (byte_at (Data4 InGuid) 2) 8)))
             (byte_at (Data4 InGuid) 3) in
  let d := Z.lor (Z.lor (Z.lor
             (u32 (Z.shiftl (byte_at (Data4 InGuid) 4) 24))
             (u32 (Z.shiftl (byte_at (Data4 InGuid) 5) 16)))
             (u32 (Z.shiftl (byte_at (Data4 InGuid) 6) 8)))
             (byte_at (Data4 InGuid) 7) in
  MkFGuid (Data1 InGuid) b c d.

Definition ToNVTuning (Mode : ENVENCTuningMode) : NV_ENC_TUNING_INFO :=
  match Mode with
  | Tuning_HighQuality => NV_ENC_TUNING_INFO_HIGH_QUALITY
  | Tuning_LowLatency => NV_ENC_TUNING_INFO_LOW_LATENCY
  | Tuning_UltraLowLatency => NV_ENC_TUNING_INFO_ULTRA_LOW_LATENCY
  | Tuning_Lossless => NV_ENC_TUNING_INFO_LOSSLESS
  | Tuning_Automatic => NV_ENC_TUNING_INFO_UNDEFINED
  end.

Definition FromNVTuning (Mode : NV_ENC_TUNING_INFO) : ENVENCTuningMode :=
  match Mode with
  | NV_ENC_TUNING_INFO_HIGH_QUALITY => Tuning_HighQuality
  | NV_ENC_TUNING_INFO_LOW_LATENCY => Tuning_LowLatency
  | NV_ENC_TUNING_INFO_ULTRA_LOW_LATENCY => Tuning_UltraLowLatency
  | NV_ENC_TUNING_INFO_LOSSLESS => Tuning_Lossless
  | NV_ENC_TUNING_INFO_UNDEFINED => Tuning_Automatic
  end.

Definition ToNVFormat (Format : ENVENCBufferFormat) : NV_ENC_BUFFER_FORMAT :=
  match Format with
  | P010 => NV_ENC_BUFFER_FORMAT_YUV420_10BIT
  | BGRA => NV_ENC_BUFFER_FORMAT_ARGB
  | NV12 => NV_ENC_BUFFER_FORMAT_NV12
  end.

(** The cases under [#if defined(..)] name enumerators, which are no macros:
    they are not compiled. *)
Definition GetChromaFormatIDC (Format : NV_ENC_BUFFER_FORMAT) : Z :=
  match Format with
  | NV_ENC_BUFFER_FORMAT_ARGB => 3
  | _ => 1
  end.

Definition TryAddCandidate (Candidates : list Z) (Candidate : Z) : list Z :=
  if existsb (fun c => c =? Candidate) Candidates then Candidates
  else if Z.of_nat (length Candidates) <? 4 then Candidates ++ [Candidate]
  else Candidates.

Definition Contains (l : list NV_ENC_TUNING_INFO) (t : NV_ENC_TUNING_INFO) : bool :=
  existsb (fun x => bool_decide (x = t)) l.

(** [TuningAttempts] of [ValidatePresetConfiguration]'s [QueryPreset]. *)
Definition ValidationTuningAttempts (PreferredTuning : NV_ENC_TUNING_INFO)
  : list NV_ENC_TUNING_INFO :=
  let AddAttempt (l : list NV_ENC_TUNING_INFO) (Attempt : NV_ENC_TUNING_INFO) :=
    if negb (bool_decide (Attempt = NV_ENC_TUNING_INFO_UNDEFINED))
       && negb (Contains l Attempt)
    then l ++ [Attempt] else l in
  let l := [PreferredTuning] in
  let l := AddAttempt l NV_ENC_TUNING_INFO_LOW_LATENCY in
  let l := AddAttempt l NV_ENC_TUNING_INFO_HIGH_QUALITY in
  let l := AddAttempt l NV_ENC_TUNING_INFO_ULTRA_LOW_LATENCY in
  let l := AddAttempt l NV_ENC_TUNING_INFO_LOSSLESS in
  l ++ [NV_ENC_TUNING_INFO_UNDEFINED].

(** [TuningAttempts] of [Initialize]'s [QueryPresetConfig]. *)
Definition InitializeTuningAttempts (CandidateTuning : NV_ENC_TUNING_INFO)
  : list NV_ENC_TUNING_INFO :=
  let AddUniqueTuning (l : list NV_ENC_TUNING_INFO) (InTuning : NV_ENC_TUNING_INFO) :=
    if negb (Contains l InTuning) then l ++ [InTuning] else l in
  let l := [CandidateTuning] in
  let l := AddUniqueTuning l NV_ENC_TUNING_INFO_UNDEFINED in
  let l := AddUniqueTuning l NV_ENC_TUNING_INFO_HIGH_QUALITY in
  let l := AddUniqueTuning l NV_ENC_TUNING_INFO_LOW_LATENCY in
  let l := AddUniqueTuning l NV_ENC_TUNING_INFO_ULTRA_LOW_LATENCY in
  let l := AddUniqueTuning l NV_ENC_TUNING_INFO_LOSSLESS in
  l.

Record FValidationPreset : Type := MkValidationPreset {
  vp_Guid : GUID;
  vp_PreferredTuning : NV_ENC_TUNING_INFO;
  vp_FriendlyName : string
}.

Record FPresetCandidate : Type := MkPresetCandidate {
  cand_Guid : GUID;
  cand_Tuning : NV_ENC_TUNING_INFO;
  cand_Description : string
}.

Definition IsEmpty (s : string) : bool := (String.length s =? 0)%nat.

(** *** The log context (lines 289-304) *)

Definition SetLogContext (InContext : string) (s : FNVENCSession)
  : FNVENCSession :=
  if IsEmpty InContext then set_LogContext "NVENC session" s
  else set_LogContext InContext s.

Definition GetLogContextLabel (s : FNVENCSession) : string :=
  if IsEmpty (LogContext s) then "NVENC session"%string else LogContext s.

Definition INDEX_NONE : Z := -1.

Section Operations.
Context `{Headers} `{ParametersHeader} {W : Type} `{Driver W}.

Local Abbreviation M := (State (Machine W)).

(** *** Access to the machine *)

Definition this : M FNVENCSession := fun m => (This m, m).

Definition update (f : FNVENCSession -> FNVENCSession) : M unit :=
  fun m => (tt, MkMachine (f (This m)) (Cache m) (Runtime m) (Log m)).

(** Run a computation of NVENCDefs.cpp on the identifier cache. *)
Definition intern {A : Type} (c : State (gmap Z FGuid) A) : M A :=
  fun m => let (a, Cache') := c (Cache m) in
           (a, MkMachine (This m) Cache' (Runtime m) (Log m)).

(** Call into the runtime and log the call. *)
Definition call {A : Type} (step : W -> A * W) (entry : A -> Call) : M A :=
  fun m => let (a, Runtime') := step (Runtime m) in
           (a, MkMachine (This m) (Cache m) Runtime' (Log m ++ [entry a])).

(** Test a pointer the runtime hands out. *)
Definition peek {A : Type} (f : W -> A) : M A := fun m => (f (Runtime m), m).

(** [LastErrorMessage = ..; return false;] *)
Definition fail (Message : string) : M bool :=
  update (set_LastErrorMessage Message) ;; ret false.

Definition ToNVRateControl (Mode : ENVENCRateControlMode) : Z :=
  match Mode with
  | RC_CONSTQP => NV_ENC_PARAMS_RC_CONSTQP
  | RC_VBR => NV_ENC_PARAMS_RC_VBR
  | RC_CBR => NV_ENC_PARAMS_RC_CBR
  end.

Definition ToNVMultiPass (Mode : ENVENCMultipassMode) : Z :=
  match Mode with
  | MP_QUARTER => NV_ENC_TWO_PASS_QUARTER_RESOLUTION
  | MP_FULL => NV_ENC_TWO_PASS_FULL_RESOLUTION
  | MP_DISABLED => NV_ENC_MULTI_PASS_DISABLED
  end.

Definition ToNVBitDepth (Format : NV_ENC_BUFFER_FORMAT) : Z :=
  match Format with
  | NV_ENC_BUFFER_FORMAT_YUV420_10BIT => NV_ENC_BIT_DEPTH_10
  | _ => NV_ENC_BIT_DEPTH_8
  end.

Definition GuidToDebugString (InGuid : GUID) : string :=
  FGuid_ToStringBraces (FromWindowsGuid InGuid).

Definition ProfileGuidToString (InGuid : GUID) : string :=
  if GUID_eqb InGuid NV_ENC_H264_PROFILE_BASELINE_GUID
  then "NV_ENC_H264_PROFILE_BASELINE"%string
  else if GUID_eqb InGuid NV_ENC_H264_PROFILE_MAIN_GUID
  then "NV_ENC_H264_PROFILE_MAIN"%string
  else if GUID_eqb InGuid NV_ENC_H264_PROFILE_HIGH_GUID
  then "NV_ENC_H264_PROFILE_HIGH"%string
  else if GUID_eqb InGuid NV_ENC_H264_PROFILE_HIGH_444_GUID
  then "NV_ENC_H264_PROFILE_HIGH_444"%string
  else if GUID_eqb InGuid NV_ENC_HEVC_PROFILE_MAIN_GUID
  then "NV_ENC_HEVC_PROFILE_MAIN"%string
  else if GUID_eqb InGuid NV_ENC_HEVC_PROFILE_MAIN10_GUID
  then "NV_ENC_HEVC_PROFILE_MAIN10"%string
  else if GUID_eqb InGuid NV_ENC_HEVC_PROFILE_FREXT_GUID
  then "NV_ENC_HEVC_PROFILE_FREXT"%string
  else GuidToDebugString InGuid.

Definition LevelToString (Level : Z) : string :=
  if Level =? NV_ENC_LEVEL_AUTOSELECT then "NV_ENC_LEVEL_AUTOSELECT"%string
  else ("0x" ++ fmt_0x 2 Level)%string.

(** [OutGuid] is written only when the preset is one of the nine. *)
Definition PresetEnumToGuid (Preset : ENVENCPreset) (OutGuid : GUID)
  : M (bool * GUID) :=
  match Preset with
  | Preset_Default =>
      g <- intern PresetDefaultGuid ;; ret (true, ToWindowsGuid g)
  | Preset_LowLatencyHighQuality =>
      g <- intern PresetLowLatencyHighQualityGuid ;; ret (true, ToWindowsGuid g)
  | Preset_P1 => g <- intern PresetP1Guid ;; ret (true, ToWindowsGuid g)
  | Preset_P2 => g <- intern PresetP2Guid ;; ret (true, ToWindowsGuid g)
  | Preset_P3 => g <- intern PresetP3Guid ;; ret (true, ToWindowsGuid g)
  | Preset_P4 => g <- intern PresetP4Guid ;; ret (true, ToWindowsGuid g)
  | Preset_P5 => g <- intern PresetP5Guid ;; ret (true, ToWindowsGuid g)
  | Preset_P6 => g <- intern PresetP6Guid ;; ret (true, ToWindowsGuid g)
  | Preset_P7 => g <- intern PresetP7Guid ;; ret (true, ToWindowsGuid g)
  | Preset_Other => ret (false, OutGuid)
  end.

(** *** Destroy (lines 1194-1221) *)

Definition Destroy : M unit :=
  s <- this ;;
  if negb (bIsOpen s) then ret tt else
  (if negb (Encoder s =? nullptr) && nvEncDestroyEncoder (FunctionList s)
   then _ <- call (drvDestroyEncoder (Encoder s))
                  (fun Status => CallDestroyEncoder (Encoder s) Status) ;;
        ret tt
   else ret tt) ;;
  update (set_Encoder nullptr) ;;
  update (set_Device nullptr) ;;
  update (set_bIsInitialised false) ;;
  update (set_bIsOpen false) ;;
  update (set_FunctionList ZeroFunctionList) ;;
  update (set_CurrentParameters DefaultParameters) ;;
  update (set_ApiVersion NVENCAPI_VERSION).

(** *** Flush (lines 1171-1192) *)

Definition Flush : M unit :=
  s <- this ;;
  if negb (bIsInitialised s) then ret tt else
  if UE_NVENC_HAS_FLUSH_FUNCTION then
    if nvEncFlushEncoderQueue (FunctionList s)
    then _ <- call (drvFlushEncoderQueue (Encoder s))
                   (fun Status => CallFlushEncoderQueue (Encoder s) Status) ;;
         ret tt
    else ret tt
  else ret tt.

(** *** The preset query of ValidatePresetConfiguration (lines 577-618) *)

(** [for (Tuning : TuningAttempts)]: call the extended query with each tuning
    until one returns success. *)
Fixpoint TryTuningAttempts (InEncoderHandle : Z) (CodecGuid InPresetGuid : GUID)
    (TuningAttempts : list NV_ENC_TUNING_INFO)
    (Status : Z) (PresetConfig : NV_ENC_PRESET_CONFIG)
  : M (Z * NV_ENC_PRESET_CONFIG) :=
  match TuningAttempts with
  | [] => ret (Status, PresetConfig)
  | Tuning :: Rest =>
      '(Status', PresetConfig') <-
        call (drvGetEncodePresetConfigEx InEncoderHandle CodecGuid InPresetGuid
                Tuning PresetConfig)
             (fun r => CallGetEncodePresetConfigEx InEncoderHandle InPresetGuid
                         Tuning (fst r)) ;;
      if Status' =? NV_ENC_SUCCESS then ret (Status', PresetConfig')
      else TryTuningAttempts InEncoderHandle CodecGuid InPresetGuid Rest
             Status' PresetConfig'
  end.

(** The body shared by the two query lambdas: the plain query first, then,
    when it failed and the extended entry point exists, the tuning ladder.
    The out-parameter is written on success only. *)
Definition QueryWithLadder (Ladder : list NV_ENC_TUNING_INFO)
    (InEncoderHandle : Z) (CodecGuid InPresetGuid : GUID)
    (OutPresetConfig : NV_ENC_PRESET_CONFIG)
  : M (Z * NV_ENC_PRESET_CONFIG) :=
  s <- this ;;
  let PresetConfig :=
    MkPresetConfig
      (PatchStructVersion NV_ENC_PRESET_CONFIG_VER (ApiVersion s))
      (MkConfig (PatchStructVersion NV_ENC_CONFIG_VER (ApiVersion s))
         ZeroGUID 0 0 0 0 ZeroRcParams ZeroH264Config ZeroHevcConfig 0) in
  '(Status, PresetConfig) <-
    call (drvGetEncodePresetConfig InEncoderHandle CodecGuid InPresetGuid
            PresetConfig)
         (fun r => CallGetEncodePresetConfig InEncoderHandle InPresetGuid (fst r)) ;;
  '(Status, PresetConfig) <-
    (if negb (Status =? NV_ENC_SUCCESS)
        && nvEncGetEncodePresetConfigEx (FunctionList s)
     then TryTuningAttempts InEncoderHandle CodecGuid InPresetGuid Ladder
            Status PresetConfig
     else ret (Status, PresetConfig)) ;;
  if Status =? NV_ENC_SUCCESS then ret (Status, PresetConfig)
  else ret (Status, OutPresetConfig).

Definition QueryPreset (InEncoderHandle : Z) (CodecGuid InPresetGuid : GUID)
    (PreferredTuning : NV_ENC_TUNING_INFO) (OutPresetConfig : NV_ENC_PRESET_CONFIG)
  : M (Z * NV_ENC_PRESET_CONFIG) :=
  QueryWithLadder (ValidationTuningAttempts PreferredTuning)
    InEncoderHandle CodecGuid InPresetGuid OutPresetConfig.

Definition QueryPresetConfig (InEncoderHandle : Z) (CodecGuid : GUID)
    (Candidate : FPresetCandidate) (OutConfig : NV_ENC_PRESET_CONFIG)
  : M (Z * NV_ENC_PRESET_CONFIG) :=
  QueryWithLadder (InitializeTuningAttempts (cand_Tuning Candidate))
    InEncoderHandle CodecGuid (cand_Guid Candidate) OutConfig.

(** *** ValidatePresetConfiguration (lines 525-688) *)

(** [for (ValidationPreset : ValidationPresets)] (lines 623-670); the result
    is [bValidated] and [LastPresetStatus]. *)
Fixpoint ValidatePresets (CodecGuid : GUID) (bAllowNullFallback : bool)
    (ValidationPresets : list FValidationPreset) (LastPresetStatus : Z)
  : M (bool * Z) :=
  match ValidationPresets with
  | [] => ret (false, LastPresetStatus)
  | ValidationPreset :: Rest =>
      _ <- (if negb (IsEmpty (vp_FriendlyName ValidationPreset))
            then ret (vp_FriendlyName ValidationPreset)
            else intern (PresetGuidToString
                           (FromWindowsGuid (vp_Guid ValidationPreset)))) ;;
      s <- this ;;
      '(LastPresetStatus, PresetConfig) <-
        QueryPreset (Encoder s) CodecGuid (vp_Guid ValidationPreset)
          (vp_PreferredTuning ValidationPreset) ZeroPresetConfig ;;
      '(LastPresetStatus, _) <-
        (if negb (LastPresetStatus =? NV_ENC_SUCCESS) && bAllowNullFallback
            && ((LastPresetStatus =? NV_ENC_ERR_INVALID_PARAM)
                || (LastPresetStatus =? NV_ENC_ERR_INVALID_ENCODERDEVICE))
         then QueryPreset nullptr CodecGuid (vp_Guid ValidationPreset)
                (vp_PreferredTuning ValidationPreset) PresetConfig
         else ret (LastPresetStatus, PresetConfig)) ;;
      if LastPresetStatus =? NV_ENC_SUCCESS then ret (true, LastPresetStatus)
      else if (LastPresetStatus =? NV_ENC_ERR_INVALID_PARAM)
              || (LastPresetStatus =? NV_ENC_ERR_UNSUPPORTED_PARAM)
      then update (set_LastErrorMessage EmptyString) ;;
           ValidatePresets CodecGuid bAllowNullFallback Rest LastPresetStatus
      else if LastPresetStatus =? NV_ENC_ERR_INVALID_ENCODERDEVICE
      then update (set_LastErrorMessage EmptyString) ;;
           ValidatePresets CodecGuid bAllowNullFallback Rest LastPresetStatus
      else ret (false, LastPresetStatus)
  end.

(** Lines 567-575. *)
Definition BuildValidationPresets : M (list FValidationPreset) :=
  g0 <- intern PresetDefaultGuid ;;
  g1 <- intern PresetLowLatencyHighQualityGuid ;;
  g2 <- intern PresetP1Guid ;;
  g3 <- intern PresetP2Guid ;;
  g4 <- intern PresetP3Guid ;;
  g5 <- intern PresetP4Guid ;;
  g6 <- intern PresetP5Guid ;;
  g7 <- intern PresetP6Guid ;;
  g8 <- intern PresetP7Guid ;;
  ret [ MkValidationPreset (ToWindowsGuid g0) NV_ENC_TUNING_INFO_UNDEFINED
          "NV_ENC_PRESET_DEFAULT";
        MkValidationPreset (ToWindowsGuid g1) NV_ENC_TUNING_INFO_LOW_LATENCY
          "NV_ENC_PRESET_LOW_LATENCY_HQ";
        MkValidationPreset (ToWindowsGuid g2) NV_ENC_TUNING_INFO_LOW_LATENCY
          "NV_ENC_PRESET_P1";
        MkValidationPreset (ToWindowsGuid g3) NV_ENC_TUNING_INFO_LOW_LATENCY
          "NV_ENC_PRESET_P2";
        MkValidationPreset (ToWindowsGuid g4) NV_ENC_TUNING_INFO_HIGH_QUALITY
          "NV_ENC_PRESET_P3";
        MkValidationPreset (ToWindowsGuid g5) NV_ENC_TUNING_INFO_HIGH_QUALITY
          "NV_ENC_PRESET_P4";
        MkValidationPreset (ToWindowsGuid g6) NV_ENC_TUNING_INFO_HIGH_QUALITY
          "NV_ENC_PRESET_P5";
        MkValidationPreset (ToWindowsGuid g7) NV_ENC_TUNING_INFO_HIGH_QUALITY
          "NV_ENC_PRESET_P6";
        MkValidationPreset (ToWindowsGuid g8) NV_ENC_TUNING_INFO_LOSSLESS
          "NV_ENC_PRESET_P7" ].

Definition DeviceRejectedMessage (StatusString : string) : string :=
  ("NVENC runtime rejected the provided DirectX device (NV_ENC_ERR_INVALID_ENCODERDEVICE). Ensure that a supported NVIDIA GPU and recent drivers are installed. ("
   ++ StatusString ++ ")")%string.

Definition ValidatePresetConfiguration (Codec : ENVENCCodec)
    (bAllowNullFallback : bool) : M bool :=
  update (set_LastErrorMessage EmptyString) ;;
  s <- this ;;
  if negb (bIsOpen s) || (Encoder s =? nullptr)
  then fail "Cannot validate NVENC preset configuration – encoder is not open."
  else
  if negb (nvEncGetEncodePresetConfig (FunctionList s))
  then fail "Required NVENC export 'NvEncGetEncodePresetConfig' is missing."
  else
  g <- intern (CodecGuid Codec) ;;
  let CodecGuid := ToWindowsGuid g in
  ValidationPresets <- BuildValidationPresets ;;
  '(bValidated, LastPresetStatus) <-
    ValidatePresets CodecGuid bAllowNullFallback ValidationPresets
      NV_ENC_ERR_NO_ENCODE_DEVICE ;;
  if negb bValidated then
    let StatusString := StatusToString LastPresetStatus in
    if LastPresetStatus =? NV_ENC_ERR_INVALID_ENCODERDEVICE
    then fail (DeviceRejectedMessage StatusString)
    else fail ("NvEncGetEncodePresetConfig validation failed: " ++ StatusString)
  else ret true.

(** *** Open (lines 306-523) *)

(** Lines 334-383: the compile-time version, lowered to the runtime's when
    the runtime reports an older one.  The result is [NegotiatedVersion];
    [ApiVersion] is assigned on the way. *)
Definition NegotiateApiVersion : M FNVENCAPIVersion :=
  update (set_ApiVersion NVENCAPI_VERSION) ;;
  let NegotiatedVersion := DecodeApiVersion NVENCAPI_VERSION in
  NvencHandle <- peek drvHasRuntimeHandle ;;
  if negb NvencHandle then ret NegotiatedVersion else
  MaxVersionExport <- peek drvHasMaxSupportedVersion ;;
  if negb MaxVersionExport then ret NegotiatedVersion else
  '(VersionStatus, RuntimeApiVersionRaw) <-
    call drvGetMaxSupportedVersion
         (fun r => CallGetMaxSupportedVersion (fst r) (snd r)) ;;
  if (VersionStatus =? NV_ENC_SUCCESS) && negb (RuntimeApiVersionRaw =? 0) then
    let RuntimeVersion := DecodeRuntimeVersion RuntimeApiVersionRaw in
    if negb (Major RuntimeVersion =? 0) || negb (Minor RuntimeVersion =? 0) then
      let RuntimeApiVersion := EncodeApiVersion RuntimeVersion in
      if IsVersionOlder RuntimeVersion NegotiatedVersion
      then update (set_ApiVersion RuntimeApiVersion) ;; ret RuntimeVersion
      else ret NegotiatedVersion
    else ret NegotiatedVersion
  else ret NegotiatedVersion.

(** Lines 448-466. *)
Definition BuildCandidateTypes (InDeviceType : Z) : list Z :=
  let CandidateTypes : list Z := [] in
  let CandidateTypes :=
    if (InDeviceType =? NV_ENC_DEVICE_TYPE_DIRECTX)
       || (InDeviceType =? GetDirectX11DeviceType)
    then TryAddCandidate CandidateTypes GetDirectX11DeviceType
    else CandidateTypes in
  let CandidateTypes := TryAddCandidate CandidateTypes InDeviceType in
  if InDeviceType =? GetDirectX11DeviceType
  then TryAddCandidate CandidateTypes NV_ENC_DEVICE_TYPE_DIRECTX
  else if InDeviceType =? NV_ENC_DEVICE_TYPE_DIRECTX
  then TryAddCandidate CandidateTypes NV_ENC_DEVICE_TYPE_DIRECTX
  else CandidateTypes.

(** Lines 471-500; the result is [Status] and [SelectedDeviceType]. *)
Fixpoint OpenCandidates (OpenParams : NV_ENC_OPEN_ENCODE_SESSION_EX_PARAMS)
    (CandidateTypes : list Z) (Status : Z) (SelectedDeviceType : Z)
  : M (Z * Z) :=
  match CandidateTypes with
  | [] => ret (Status, SelectedDeviceType)
  | Candidate :: Rest =>
      let OpenParams :=
        MkOpenParams (op_version OpenParams) (op_apiVersion OpenParams)
          (op_device OpenParams) Candidate in
      '(Status, CandidateEncoder) <-
        call (drvOpenEncodeSessionEx OpenParams)
             (fun r => CallOpenEncodeSessionEx Candidate (fst r) (snd r)) ;;
      if Status =? NV_ENC_SUCCESS
      then update (set_Encoder CandidateEncoder) ;; ret (Status, Candidate)
      else OpenCandidates OpenParams Rest Status SelectedDeviceType
  end.

Definition set_Codec (c : ENVENCCodec) (p : FNVENCParameters) : FNVENCParameters :=
  MkParameters c (BufferFormat p) (Width p) (Height p) (Framerate p)
    (TargetBitrate p) (MaxBitrate p) (QPMin p) (QPMax p) (RateControlMode p)
    (MultipassMode p) (GOPLength p) (bEnableLookahead p)
    (bEnableAdaptiveQuantization p) (bEnableIntraRefresh p)
    (bIntraRefreshOnSceneChange p) (RequestedPreset p) (RequestedTuning p)
    (ActivePresetGuid p) (ActiveTuning p).

Definition VersionTooOldMessage : string :=
  "NVENC runtime API version is below the minimum supported version.".

(** Lines 396-521: what [Open] does once the version floor is passed. *)
Definition OpenNegotiated (Codec : ENVENCCodec) (InDevice InDeviceType : Z)
  : M bool :=
  CreateInstance <- peek drvHasCreateInstance ;;
  if negb CreateInstance
  then fail "Required NVENC export 'NvEncodeAPICreateInstance' is missing."
  else
  s <- this ;;
  update (set_FunctionList
            (MkFunctionList
               (PatchStructVersion NV_ENCODE_API_FUNCTION_LIST_VER (ApiVersion s))
               false false false false false false false false false)) ;;
  s <- this ;;
  '(Status, Functions) <-
    call (drvCreateInstance (FunctionList s))
         (fun r => CallCreateInstance (fl_version (FunctionList s)) (fst r)) ;;
  update (set_FunctionList Functions) ;;
  if negb (Status =? NV_ENC_SUCCESS)
  then fail ("NvEncodeAPICreateInstance failed: " ++ StatusToString Status)
  else
  s <- this ;;
  if negb (nvEncOpenEncodeSessionEx (FunctionList s))
  then fail "Required NVENC export 'NvEncOpenEncodeSessionEx' is missing."
  else
  let OpenParams :=
    MkOpenParams
      (PatchStructVersion NV_ENC_OPEN_ENCODE_SESSION_EX_PARAMS_VER (ApiVersion s))
      (ApiVersion s) InDevice 0 in
  let CandidateTypes := BuildCandidateTypes InDeviceType in
  update (set_Encoder nullptr) ;;
  '(Status, SelectedDeviceType) <-
    OpenCandidates OpenParams CandidateTypes NV_ENC_ERR_INVALID_PARAM
      InDeviceType ;;
  s <- this ;;
  if Encoder s =? nullptr
  then fail ("NvEncOpenEncodeSessionEx failed: " ++ StatusToString Status)
  else
  update (set_Device InDevice) ;;
  update (set_DeviceType SelectedDeviceType) ;;
  update (fun s => set_CurrentParameters (set_Codec Codec (CurrentParameters s)) s) ;;
  update (set_bIsOpen true) ;;
  update (set_LastErrorMessage EmptyString) ;;
  Validated <- ValidatePresetConfiguration Codec false ;;
  if negb Validated then Destroy ;; ret false
  else ret true.

Definition Open (Codec : ENVENCCodec) (InDevice InDeviceType : Z) : M bool :=
  update (set_LastErrorMessage EmptyString) ;;
  s <- this ;;
  if bIsOpen s then ret true else
  if InDevice =? nullptr
  then fail "Failed to open NVENC session – no encoder device was provided."
  else
  Loaded <- call drvLoad CallLoad ;;
  if negb Loaded
  then fail "Failed to open NVENC session – NVENC runtime is unavailable."
  else
  NegotiatedVersion <- NegotiateApiVersion ;;
  if IsVersionOlder NegotiatedVersion GetMinimumAPIVersion
  then fail VersionTooOldMessage
  else OpenNegotiated Codec InDevice InDeviceType.

(** *** Initialize (lines 690-1095) *)

Definition AddCandidate (PresetCandidates : list FPresetCandidate)
    (InGuid : GUID) (Tuning : NV_ENC_TUNING_INFO) (Description : string)
  : list FPresetCandidate :=
  if existsb (fun Existing => GUID_eqb (cand_Guid Existing) InGuid)
       PresetCandidates
  then PresetCandidates
  else PresetCandidates ++ [MkPresetCandidate InGuid Tuning Description].

(** Lines 756-764. *)
Definition BuildPresetCandidates : M (list FPresetCandidate) :=
  let l : list FPresetCandidate := [] in
  g <- intern PresetDefaultGuid ;;
  let l := AddCandidate l (ToWindowsGuid g) NV_ENC_TUNING_INFO_UNDEFINED
             "NV_ENC_PRESET_DEFAULT" in
  g <- intern PresetLowLatencyHighQualityGuid ;;
  let l := AddCandidate l (ToWindowsGuid g) NV_ENC_TUNING_INFO_LOW_LATENCY
             "NV_ENC_PRESET_LOW_LATENCY_HQ" in
  g <- intern PresetP1Guid ;;
  let l := AddCandidate l (ToWindowsGuid g) NV_ENC_TUNING_INFO_LOW_LATENCY
             "NV_ENC_PRESET_P1" in
  g <- intern PresetP2Guid ;;
  let l := AddCandidate l (ToWindowsGuid g) NV_ENC_TUNING_INFO_LOW_LATENCY
             "NV_ENC_PRESET_P2" in
  g <- intern PresetP3Guid ;;
  let l := AddCandidate l (ToWindowsGuid g) NV_ENC_TUNING_INFO_HIGH_QUALITY
             "NV_ENC_PRESET_P3" in
  g <- intern PresetP4Guid ;;
  let l := AddCandidate l (ToWindowsGuid g) NV_ENC_TUNING_INFO_HIGH_QUALITY
             "NV_ENC_PRESET_P4" in
  g <- intern PresetP5Guid ;;
  let l := AddCandidate l (ToWindowsGuid g) NV_ENC_TUNING_INFO_HIGH_QUALITY
             "NV_ENC_PRESET_P5" in
  g <- intern PresetP6Guid ;;
  let l := AddCandidate l (ToWindowsGuid g) NV_ENC_TUNING_INFO_HIGH_QUALITY
             "NV_ENC_PRESET_P6" in
  g <- intern PresetP7Guid ;;
  let l := AddCandidate l (ToWindowsGuid g) NV_ENC_TUNING_INFO_LOSSLESS
             "NV_ENC_PRESET_P7" in
  ret l.

Fixpoint FindCandidate (PresetCandidates : list FPresetCandidate)
    (InGuid : GUID) (CandidateIndex : nat) : option nat :=
  match PresetCandidates with
  | [] => None
  | c :: Rest =>
      if GUID_eqb (cand_Guid c) InGuid then Some CandidateIndex
      else FindCandidate Rest InGuid (S CandidateIndex)
  end.

Definition set_Tuning (t : NV_ENC_TUNING_INFO) (c : FPresetCandidate)
  : FPresetCandidate :=
  MkPresetCandidate (cand_Guid c) t (cand_Description c).

Definition Swap {A : Type} (l : list A) (i j : nat) : list A :=
  match l !! i, l !! j with
  | Some a, Some b => <[j := a]> (<[i := b]> l)
  | _, _ => l
  end.

(** Lines 766-807. *)
Definition PromoteRequestedPreset (Parameters : FNVENCParameters)
    (PresetCandidates : list FPresetCandidate) : M (list FPresetCandidate) :=
  '(bHasRequestedPreset, RequestedPresetGuid) <-
    PresetEnumToGuid (RequestedPreset Parameters) ZeroGUID ;;
  let RequestedTuning := ToNVTuning (RequestedTuning Parameters) in
  if bHasRequestedPreset then
    match FindCandidate PresetCandidates RequestedPresetGuid 0 with
    | None =>
        Description <-
          intern (PresetGuidToString (FromWindowsGuid RequestedPresetGuid)) ;;
        ret (MkPresetCandidate RequestedPresetGuid RequestedTuning Description
               :: PresetCandidates)
    | Some FoundIndex =>
        let l :=
          if negb (bool_decide (RequestedTuning = NV_ENC_TUNING_INFO_UNDEFINED))
          then alter (set_Tuning RequestedTuning) FoundIndex PresetCandidates
          else PresetCandidates in
        ret (if negb (FoundIndex =? 0)%nat then Swap l 0%nat FoundIndex else l)
    end
  else if negb (bool_decide (RequestedTuning = NV_ENC_TUNING_INFO_UNDEFINED))
          && (0 <? length PresetCandidates)%nat
  then ret (alter (set_Tuning RequestedTuning) 0%nat PresetCandidates)
  else ret PresetCandidates.

(** [for (RuntimeGuid : RuntimePresets)] (lines 825-829). *)
Fixpoint AddRuntimePresets (RuntimePresets : list GUID)
    (PresetCandidates : list FPresetCandidate) : M (list FPresetCandidate) :=
  match RuntimePresets with
  | [] => ret PresetCandidates
  | RuntimeGuid :: Rest =>
      FriendlyName <- intern (PresetGuidToString (FromWindowsGuid RuntimeGuid)) ;;
      AddRuntimePresets Rest
        (AddCandidate PresetCandidates RuntimeGuid
           NV_ENC_TUNING_INFO_HIGH_QUALITY FriendlyName)
  end.

(** Lines 809-832.  Elements [SetNum] adds beyond what was allocated are not
    initialised in the source; here they are [ZeroGUID]. *)
Definition AppendRuntimePresets (CodecGuid : GUID)
    (PresetCandidates : list FPresetCandidate) : M (list FPresetCandidate) :=
  s <- this ;;
  if nvEncGetEncodePresetGUIDs (FunctionList s) then
    '(EnumStatus, _, AvailablePresetCount) <-
      call (drvGetEncodePresetGUIDs (Encoder s) CodecGuid 0)
           (fun r => CallGetEncodePresetGUIDs (Encoder s) 0 (fst (fst r)) (snd r)) ;;
    if (EnumStatus =? NV_ENC_SUCCESS) && (0 <? AvailablePresetCount) then
      let RuntimePresets := repeat ZeroGUID (Z.to_nat AvailablePresetCount) in
      '(EnumStatus, Written, AvailablePresetCount') <-
        call (drvGetEncodePresetGUIDs (Encoder s) CodecGuid AvailablePresetCount)
             (fun r => CallGetEncodePresetGUIDs (Encoder s) AvailablePresetCount
                         (fst (fst r)) (snd r)) ;;
      if EnumStatus =? NV_ENC_SUCCESS then
        AddRuntimePresets
          (SetNum ZeroGUID (WriteArray RuntimePresets Written)
             (Z.to_nat AvailablePresetCount'))
          PresetCandidates
      else ret PresetCandidates
    else ret PresetCandidates
  else ret PresetCandidates.

Definition CandidateName (Candidate : FPresetCandidate) : M string :=
  if IsEmpty (cand_Description Candidate)
  then intern (PresetGuidToString (FromWindowsGuid (cand_Guid Candidate)))
  else ret (cand_Description Candidate).

(** [for (CandidateIndex ..)] (lines 887-920); the result is
    [SelectedPresetIndex], [PresetConfig] and [LastPresetStatus]. *)
Fixpoint SelectPreset (CodecGuid : GUID) (PresetCandidates : list FPresetCandidate)
    (CandidateIndex : Z) (PresetConfig : NV_ENC_PRESET_CONFIG)
    (LastPresetStatus : Z)
  : M (Z * NV_ENC_PRESET_CONFIG * Z) :=
  match PresetCandidates with
  | [] => ret (INDEX_NONE, PresetConfig, LastPresetStatus)
  | Candidate :: Rest =>
      s <- this ;;
      '(LastPresetStatus, PresetConfig) <-
        QueryPresetConfig (Encoder s) CodecGuid Candidate PresetConfig ;;
      let bShouldRetryWithoutHandle :=
        ((LastPresetStatus =? NV_ENC_ERR_INVALID_PARAM)
         || (LastPresetStatus =? NV_ENC_ERR_INVALID_ENCODERDEVICE))
        && negb (Encoder s =? nullptr) in
      '(LastPresetStatus, PresetConfig) <-
        (if bShouldRetryWithoutHandle
         then _ <- CandidateName Candidate ;;
              QueryPresetConfig nullptr CodecGuid Candidate PresetConfig
         else ret (LastPresetStatus, PresetConfig)) ;;
      if LastPresetStatus =? NV_ENC_SUCCESS
      then ret (CandidateIndex, PresetConfig, LastPresetStatus)
      else
        _ <- CandidateName Candidate ;;
        if LastPresetStatus =? NV_ENC_ERR_INVALID_ENCODERDEVICE
        then ret (INDEX_NONE, PresetConfig, LastPresetStatus)
        else SelectPreset CodecGuid Rest (CandidateIndex + 1) PresetConfig
               LastPresetStatus
  end.

Definition b2z (b : bool) : Z := if b then 1 else 0.

(** Lines 973-988: the buffer format in use, in both representations. *)
Definition EffectiveFormat (Parameters : FNVENCParameters)
  : NV_ENC_BUFFER_FORMAT * ENVENCBufferFormat :=
  match Codec Parameters, BufferFormat Parameters with
  | H264, NV12 => (ToNVFormat NV12, NV12)
  | H264, _ => (NV_ENC_BUFFER_FORMAT_NV12, NV12)
  | HEVC, BGRA => (NV_ENC_BUFFER_FORMAT_NV12, NV12)
  | HEVC, f => (ToNVFormat f, f)
  end.

(** Lines 949-1026: the configuration derived from the selected preset. *)
Definition DeriveEncodeConfig (ApiVersion : Z) (Parameters : FNVENCParameters)
    (PresetCfg : NV_ENC_CONFIG) : NV_ENC_CONFIG :=
  let rc := rcParams PresetCfg in
  let Gop := if GOPLength Parameters =? 0 then NVENC_INFINITE_GOPLENGTH
             else GOPLength Parameters in
  let rc' :=
    MkRcParams
      (ToNVRateControl (RateControlMode Parameters))
      (u32 (TargetBitrate Parameters))
      (u32 (MaxBitrate Parameters))
      (b2z (bEnableLookahead Parameters))
      (b2z (bEnableAdaptiveQuantization Parameters))
      (b2z (bEnableAdaptiveQuantization Parameters))
      (b2z ((0 <=? QPMax Parameters) || (0 <=? QPMin Parameters)))
      (if 0 <=? QPMax Parameters then QPMax Parameters else qpInterB rc)
      (if 0 <=? QPMax Parameters then QPMax Parameters else qpInterP rc)
      (if 0 <=? QPMin Parameters then QPMin Parameters else qpIntra rc)
      (ToNVMultiPass (MultipassMode Parameters))
      (rc_rest rc) in
  let NvBufferFormat := fst (EffectiveFormat Parameters) in
  let NvBitDepth := ToNVBitDepth NvBufferFormat in
  let NvChromaFormat := GetChromaFormatIDC NvBufferFormat in
  match Codec Parameters with
  | H264 =>
      MkConfig (PatchStructVersion NV_ENC_CONFIG_VER ApiVersion)
        NV_ENC_H264_PROFILE_MAIN_GUID Gop 1
        NV_ENC_PARAMS_FRAME_FIELD_MODE_FRAME NV_ENC_MV_PRECISION_QUARTER_PEL rc'
        (MkH264Config Gop NvChromaFormat NvBitDepth NvBitDepth
           (h264_level (h264Config PresetCfg)) (h264_rest (h264Config PresetCfg)))
        (hevcConfig PresetCfg) (cfg_rest PresetCfg)
  | HEVC =>
      MkConfig (PatchStructVersion NV_ENC_CONFIG_VER ApiVersion)
        NV_ENC_HEVC_PROFILE_MAIN_GUID Gop 1
        NV_ENC_PARAMS_FRAME_FIELD_MODE_FRAME NV_ENC_MV_PRECISION_QUARTER_PEL rc'
        (h264Config PresetCfg)
        (MkHevcConfig NV_ENC_LEVEL_AUTOSELECT NV_ENC_TIER_HEVC_MAIN
           NV_ENC_HEVC_CUSIZE_AUTOSELECT NV_ENC_HEVC_CUSIZE_32x32
           NvChromaFormat NvBitDepth NvBitDepth Gop
           NV_ENC_BFRAME_REF_MODE_DISABLED NV_ENC_NUM_REF_FRAMES_AUTOSELECT
           NV_ENC_NUM_REF_FRAMES_AUTOSELECT 0)
        (cfg_rest PresetCfg)
  end.

Definition InitializeFailedMessage (Status : Z) (Parameters : FNVENCParameters)
    (SelectedPresetName : string) (Config : NV_ENC_CONFIG) (ApiVersion : Z)
  : string :=
  let LevelValue := match Codec Parameters with
                    | H264 => h264_level (h264Config Config)
                    | HEVC => hevc_level (hevcConfig Config)
                    end in
  ("NvEncInitializeEncoder failed: " ++ StatusToString Status
   ++ " (Codec=" ++ CodecToString (Codec Parameters)
   ++ ", Preset=" ++ SelectedPresetName
   ++ ", Profile=" ++ ProfileGuidToString (profileGUID Config)
   ++ ", Level=" ++ LevelToString LevelValue
   ++ ", API runtime=" ++ VersionToString (DecodeApiVersion ApiVersion)
   ++ " (0x" ++ fmt_0x 8 ApiVersion
   ++ "), API build=" ++ VersionToString (DecodeApiVersion NVENCAPI_VERSION)
   ++ " (0x" ++ fmt_0x 8 NVENCAPI_VERSION ++ "))")%string.

Definition RealizedParameters (Parameters : FNVENCParameters)
    (EffectiveBufferFormat : ENVENCBufferFormat) (Preset : FGuid)
    (Tuning : ENVENCTuningMode) : FNVENCParameters :=
  MkParameters (Codec Parameters) EffectiveBufferFormat (Width Parameters)
    (Height Parameters) (Framerate Parameters) (TargetBitrate Parameters)
    (MaxBitrate Parameters) (QPMin Parameters) (QPMax Parameters)
    (RateControlMode Parameters) (MultipassMode Parameters)
    (GOPLength Parameters) (bEnableLookahead Parameters)
    (bEnableAdaptiveQuantization Parameters) (bEnableIntraRefresh Parameters)
    (bIntraRefreshOnSceneChange Parameters) (RequestedPreset Parameters)
    (RequestedTuning Parameters) Preset Tuning.

Definition Initialize (Parameters : FNVENCParameters) : M bool :=
  update (set_LastErrorMessage EmptyString) ;;
  s <- this ;;
  if negb (bIsOpen s) || (Encoder s =? nullptr)
  then fail "Cannot initialise NVENC session – encoder is not open."
  else
  if negb (nvEncGetEncodePresetConfig (FunctionList s))
  then fail "Required NVENC export 'NvEncGetEncodePresetConfig' is missing."
  else
  if negb (nvEncInitializeEncoder (FunctionList s))
  then fail "Required NVENC export 'NvEncInitializeEncoder' is missing."
  else
  g <- intern (CodecGuid (Codec Parameters)) ;;
  let CodecGuid := ToWindowsGuid g in
  PresetCandidates <- BuildPresetCandidates ;;
  PresetCandidates <- PromoteRequestedPreset Parameters PresetCandidates ;;
  PresetCandidates <- AppendRuntimePresets CodecGuid PresetCandidates ;;
  '(SelectedPresetIndex, PresetConfig, LastPresetStatus) <-
    SelectPreset CodecGuid PresetCandidates 0 ZeroPresetConfig NV_ENC_SUCCESS ;;
  if SelectedPresetIndex =? INDEX_NONE then
    let StatusString := StatusToString LastPresetStatus in
    if LastPresetStatus =? NV_ENC_ERR_INVALID_ENCODERDEVICE
    then fail (DeviceRejectedMessage StatusString)
    else fail ("NvEncGetEncodePresetConfig failed for all attempted presets: "
               ++ StatusString)
  else
  let SelectedPreset :=
    nth (Z.to_nat SelectedPresetIndex) PresetCandidates
      (MkPresetCandidate ZeroGUID NV_ENC_TUNING_INFO_HIGH_QUALITY EmptyString) in
  SelectedPresetName <- CandidateName SelectedPreset ;;
  s <- this ;;
  update (set_EncodeConfig
            (DeriveEncodeConfig (ApiVersion s) Parameters (presetCfg PresetConfig))) ;;
  let '(NvFormat, EffectiveBufferFormat) := EffectiveFormat Parameters in
  update (set_NvBufferFormat NvFormat) ;;
  update (set_InitializeParams
            (MkInitializeParams
               (PatchStructVersion NV_ENC_INITIALIZE_PARAMS_VER (ApiVersion s))
               CodecGuid (cand_Guid SelectedPreset) (cand_Tuning SelectedPreset)
               (Width Parameters) (Height Parameters)
               (Width Parameters) (Height Parameters)
               (if Framerate Parameters =? 0 then 60 else Framerate Parameters)
               1 1 ToSessionEncodeConfig
               (Width Parameters) (Height Parameters) NvFormat 0 0)) ;;
  s <- this ;;
  Status <-
    call (drvInitializeEncoder (Encoder s) (InitializeParams s) (EncodeConfig s))
         (fun Status => CallInitializeEncoder (Encoder s) Status) ;;
  if negb (Status =? NV_ENC_SUCCESS)
  then fail (InitializeFailedMessage Status Parameters SelectedPresetName
               (EncodeConfig s) (ApiVersion s))
  else
  update (set_CurrentParameters
            (RealizedParameters Parameters EffectiveBufferFormat
               (FromWindowsGuid (cand_Guid SelectedPreset))
               (FromNVTuning (cand_Tuning SelectedPreset)))) ;;
  update (set_bIsInitialised true) ;;
  ret true.

(** *** Reconfigure (lines 1097-1169) *)

(** Lines 1120-1128: the current configuration with the mutable subset
    overlaid. *)
Definition ReconfiguredConfig (EncodeConfig : NV_ENC_CONFIG)
    (Parameters : FNVENCParameters) : NV_ENC_CONFIG :=
  let rc := rcParams EncodeConfig in
  MkConfig (cfg_version EncodeConfig) (profileGUID EncodeConfig)
    (if GOPLength Parameters =? 0 then NVENC_INFINITE_GOPLENGTH
     else GOPLength Parameters)
    (frameIntervalP EncodeConfig) (frameFieldMode EncodeConfig)
    (mvPrecision EncodeConfig)
    (MkRcParams
       (ToNVRateControl (RateControlMode Parameters))
       (u32 (TargetBitrate Parameters))
       (u32 (MaxBitrate Parameters))
       (b2z (bEnableLookahead Parameters))
       (b2z (bEnableAdaptiveQuantization Parameters))
       (b2z (bEnableAdaptiveQuantization Parameters))
       (enableInitialRCQP rc) (qpInterB rc) (qpInterP rc) (qpIntra rc)
       (ToNVMultiPass (MultipassMode Parameters))
       (rc_rest rc))
    (h264Config EncodeConfig) (hevcConfig EncodeConfig) (cfg_rest EncodeConfig).

(** Lines 1130-1143. *)
Definition MakeReconfigureParams (s : FNVENCSession)
    (Parameters : FNVENCParameters) : NV_ENC_RECONFIGURE_PARAMS :=
  let ip := InitializeParams s in
  MkReconfigureParams
    (PatchStructVersion NV_ENC_RECONFIGURE_PARAMS_VER (ApiVersion s))
    (MkInitializeParams
       (PatchStructVersion NV_ENC_INITIALIZE_PARAMS_VER (ApiVersion s))
       (encodeGUID ip) (presetGUID ip) (tuningInfo ip)
       (Width Parameters) (Height Parameters)
       (Width Parameters) (Height Parameters)
       (frameRateNum ip) (frameRateDen ip) (enablePTD ip)
       ToLocalNewConfig
       (Width Parameters) (Height Parameters)
       (NvBufferFormat s) (enableEncodeAsync ip) (ip_rest ip))
    1 1.

(** Lines 1155-1165. *)
Definition ReconfiguredParameters (Previous Parameters : FNVENCParameters)
  : FNVENCParameters :=
  RealizedParameters Parameters (BufferFormat Parameters)
    (if negb (FGuid_IsValid (ActivePresetGuid Parameters))
     then ActivePresetGuid Previous else ActivePresetGuid Parameters)
    (match ActiveTuning Parameters with
     | Tuning_Automatic => ActiveTuning Previous
     | t => t
     end).

Definition Reconfigure (Parameters : FNVENCParameters) : M bool :=
  update (set_LastErrorMessage EmptyString) ;;
  s <- this ;;
  if negb (bIsInitialised s)
  then fail "Cannot reconfigure NVENC session – encoder has not been initialised."
  else
  if negb (nvEncReconfigureEncoder (FunctionList s))
  then fail "Required NVENC export 'NvEncReconfigureEncoder' is missing."
  else
  let NewConfig := ReconfiguredConfig (EncodeConfig s) Parameters in
  let ReconfigureParams := MakeReconfigureParams s Parameters in
  Status <-
    call (drvReconfigureEncoder (Encoder s) ReconfigureParams NewConfig)
         (fun Status => CallReconfigureEncoder (Encoder s) Status) ;;
  if negb (Status =? NV_ENC_SUCCESS)
  then fail ("NvEncReconfigureEncoder failed: " ++ StatusToString Status)
  else
  update (set_EncodeConfig NewConfig) ;;
  update (set_InitializeParams (reInitEncodeParams ReconfigureParams)) ;;
  update (set_CurrentParameters
            (ReconfiguredParameters (CurrentParameters s) Parameters)) ;;
  ret true.

(** *** GetSequenceParams (lines 1223-1283)

    [OutData] is passed in and returned: it is replaced on success only.

    The size the runtime reports lands in a [uint32], and [SetNumZeroed] and
    [SetNum] take it as the array's signed 32-bit count.  The definition
    follows the source for the sizes that fit both, which is where the
    theorems use it ([Spec.ReportedSizesFit]): a size of 2^31 or more is not
    a count the engine's array accepts. *)

Definition GetSequenceParams (OutData : list Z) : M (bool * list Z) :=
  s <- this ;;
  if negb (bIsInitialised s) || (Encoder s =? nullptr)
  then ret (false, OutData) else
  if negb (nvEncGetSequenceParams (FunctionList s))
  then ret (false, OutData) else
  let OutputSize := 0 in
  let Buffer := SetNum 0 [] 1024 in
  let Version :=
    PatchStructVersion NV_ENC_SEQUENCE_PARAM_PAYLOAD_VER (ApiVersion s) in
  '(Status, OutputSize, Written) <-
    call (drvGetSequenceParams (Encoder s) Version (Z.of_nat (length Buffer))
            OutputSize)
         (fun r => CallGetSequenceParams (Encoder s) (Z.of_nat (length Buffer))
                     (fst (fst r)) (snd (fst r))) ;;
  let Buffer := WriteArray Buffer Written in
  if negb (Status =? NV_ENC_SUCCESS) then ret (false, OutData) else
  if OutputSize =? 0 then ret (false, OutData) else
  if Z.of_nat (length Buffer) <? OutputSize then
    let Buffer := SetNum 0 Buffer (Z.to_nat OutputSize) in
    '(Status, OutputSize, Written) <-
      call (drvGetSequenceParams (Encoder s) Version (Z.of_nat (length Buffer))
              OutputSize)
           (fun r => CallGetSequenceParams (Encoder s) (Z.of_nat (length Buffer))
                       (fst (fst r)) (snd (fst r))) ;;
    let Buffer := WriteArray Buffer Written in
    if negb (Status =? NV_ENC_SUCCESS) then ret (false, OutData) else
    let OutputSize := Z.min OutputSize (Z.of_nat (length Buffer)) in
    ret (true, SetNum 0 Buffer (Z.to_nat OutputSize))
  else ret (true, SetNum 0 Buffer (Z.to_nat OutputSize)).

End Operations.
End Session.

(* --------------------------------------------------------------------- *)
(** ** Vocabulary of the theorems                                         *)
(* --------------------------------------------------------------------- *)

Module Spec.
Import Defs Session.

(** The tuning ladder as the specification words it: the preferred tuning
    first, then undefined, low-latency, high-quality, ultra-low-latency,
    lossless, skipping what was already tried.  It is compared with the two
    ladders of the source, [ValidationTuningAttempts] and
    [InitializeTuningAttempts]. *)
Definition SpecTuningLadder (Preferred : NV_ENC_TUNING_INFO)
  : list NV_ENC_TUNING_INFO :=
  Preferred ::
  filter (fun t => t <> Preferred)
    [ NV_ENC_TUNING_INFO_UNDEFINED; NV_ENC_TUNING_INFO_LOW_LATENCY;
      NV_ENC_TUNING_INFO_HIGH_QUALITY; NV_ENC_TUNING_INFO_ULTRA_LOW_LATENCY;
      NV_ENC_TUNING_INFO_LOSSLESS ].

(** Projections of the call log. *)
Definition OpenSessionCalls (log : list Call) : list (Z * Z * Z) :=
  flat_map (fun c => match c with
                     | CallOpenEncodeSessionEx t st enc => [(t, st, enc)]
                     | _ => []
                     end) log.

Definition ExtendedQueryTunings (log : list Call) : list NV_ENC_TUNING_INFO :=
  flat_map (fun c => match c with
                     | CallGetEncodePresetConfigEx _ _ t _ => [t]
                     | _ => []
                     end) log.

Definition PresetQueryCalls (log : list Call) : list (Z * GUID * Z) :=
  flat_map (fun c => match c with
                     | CallGetEncodePresetConfig enc g st => [(enc, g, st)]
                     | _ => []
                     end) log.

(** A call to one of the two preset-query entry points with one of the
    given encoder handles. *)
Definition PresetQueryWith (handles : list Z) (c : Call) : Prop :=
  match c with
  | CallGetEncodePresetConfig enc _ _ => In enc handles
  | CallGetEncodePresetConfigEx enc _ _ _ => In enc handles
  | _ => False
  end.

(** The log entries of a tuning ladder run: one extended query per pair of a
    tuning and the status it got. *)
Definition ExtendedQueries (enc : Z) (preset : GUID)
    (tried : list (NV_ENC_TUNING_INFO * Z)) : list Call :=
  map (fun ts => CallGetEncodePresetConfigEx enc preset (fst ts) (snd ts)) tried.

Definition OpenAttempts (tried : list (Z * Z * Z)) : list Call :=
  map (fun a => CallOpenEncodeSessionEx (fst (fst a)) (snd (fst a)) (snd a)) tried.

(** Values that fit the fields that hold them: an unsigned 32-bit component,
    an [FGuid] of four of them, and a [GUID] with its 32-bit, two 16-bit and
    eight 8-bit fields. *)
Definition IsU32 (z : Z) : Prop := 0 <= z <= 0xFFFFFFFF.

Definition FGuid_fits (g : FGuid) : Prop :=
  IsU32 (GA g) /\ IsU32 (GB g) /\ IsU32 (GC g) /\ IsU32 (GD g).

Definition GUID_fits (w : GUID) : Prop :=
  0 <= Data1 w <= 0xFFFFFFFF /\ 0 <= Data2 w <= 0xFFFF /\ 0 <= Data3 w <= 0xFFFF
  /\ length (Data4 w) = 8%nat /\ Forall (fun b => 0 <= b <= 0xFF) (Data4 w).

(** Every entry of the identifier cache sits under the key of its own first
    and fourth component. *)
Definition CacheConsistent (Cache : gmap Z FGuid) : Prop :=
  forall k g, Cache !! k = Some g ->
    k = CacheKey (GA g) (GD g) /\ IsU32 (GA g) /\ IsU32 (GD g).

(** The accessors of the build without the SDK, and the caches that calls to
    them, in any number and order, produce from the empty cache. *)
Definition FallbackAccessors : list (State (gmap Z FGuid) FGuid) :=
  [ DefsFallback.CodecGuid HEVC; DefsFallback.CodecGuid H264;
    DefsFallback.PresetDefaultGuid;
    DefsFallback.PresetP1Guid; DefsFallback.PresetP2Guid;
    DefsFallback.PresetP3Guid; DefsFallback.PresetP4Guid;
    DefsFallback.PresetP5Guid; DefsFallback.PresetP6Guid;
    DefsFallback.PresetP7Guid;
    DefsFallback.PresetHighPerformanceApproxGuid;
    DefsFallback.PresetHighQualityApproxGuid;
    DefsFallback.PresetLowLatencyHighQualityGuid;
    DefsFallback.TuningLatencyGuid; DefsFallback.TuningQualityGuid ].

Inductive Interned : gmap Z FGuid -> Prop :=
  | Interned_empty : Interned ∅
  | Interned_call (f : State (gmap Z FGuid) FGuid) (Cache : gmap Z FGuid) :
      In f FallbackAccessors -> Interned Cache -> Interned (snd (f Cache)).

(** The preset accessors with the names [PresetGuidToString] gives. *)
Definition FallbackPresetNames : list (State (gmap Z FGuid) FGuid * string) :=
  [ (DefsFallback.PresetDefaultGuid, "NV_ENC_PRESET_DEFAULT"%string);
    (DefsFallback.PresetP1Guid, "NV_ENC_PRESET_P1"%string);
    (DefsFallback.PresetP2Guid, "NV_ENC_PRESET_P2"%string);
    (DefsFallback.PresetP3Guid, "NV_ENC_PRESET_P3"%string);
    (DefsFallback.PresetP4Guid, "NV_ENC_PRESET_P4"%string);
    (DefsFallback.PresetP5Guid, "NV_ENC_PRESET_P5"%string);
    (DefsFallback.PresetP6Guid, "NV_ENC_PRESET_P6"%string);
    (DefsFallback.PresetP7Guid, "NV_ENC_PRESET_P7"%string);
    (DefsFallback.PresetLowLatencyHighQualityGuid,
     "NV_ENC_PRESET_LOW_LATENCY_HQ"%string) ].

Section WithRuntime.
Context `{Headers} `{ParametersHeader} {W : Type} `{Driver W}.

(** [c] leaves the observation [f] of the machine as it was. *)
Definition preserves {A X : Type} (f : Machine W -> X)
    (c : State (Machine W) A) : Prop :=
  forall m, f (snd (c m)) = f m.

(** The closed state of a session: not open, not initialised, no encoder. *)
Definition Closed (s : FNVENCSession) : Prop :=
  bIsOpen s = false /\ bIsInitialised s = false /\ Encoder s = nullptr.

(** Where [Open] stands when it negotiates the version (device given, runtime
    loaded), and what the negotiation yields there. *)
Definition AtNegotiation (m : Machine W) : Machine W :=
  snd (call drvLoad CallLoad (snd (update (set_LastErrorMessage EmptyString) m))).

Definition Negotiated (m : Machine W) : FNVENCAPIVersion * Machine W :=
  NegotiateApiVersion (AtNegotiation m).

(** The function table [Open] gets from the runtime's instance creation when
    it reaches it on machine [m] (lines 406-409). *)
Definition CreatedFunctions (m : Machine W) : NV_ENCODE_API_FUNCTION_LIST :=
  snd (fst (drvCreateInstance
              (MkFunctionList
                 (PatchStructVersion NV_ENCODE_API_FUNCTION_LIST_VER
                    (ApiVersion (This m)))
                 false false false false false false false false false)
              (Runtime m))).

(** The status of that instance creation. *)
Definition CreateInstanceStatus (m : Machine W) : Z :=
  fst (fst (drvCreateInstance
              (MkFunctionList
                 (PatchStructVersion NV_ENCODE_API_FUNCTION_LIST_VER
                    (ApiVersion (This m)))
                 false false false false false false false false false)
              (Runtime m))).

(** What takes [Open] as far as its loop over the device-type candidates
    (lines 319-424): a device, a runtime that loads, a negotiated version at
    or above the floor, and an instance creation that is present, succeeds
    and provides the open-session entry point. *)
Definition ReachesOpenSession (dev : Z) (m : Machine W) : Prop :=
  dev <> nullptr
  /\ fst (drvLoad (Runtime m)) = true
  /\ IsVersionOlder (fst (Negotiated m)) GetMinimumAPIVersion = false
  /\ drvHasCreateInstance (Runtime (snd (Negotiated m))) = true
  /\ CreateInstanceStatus (snd (Negotiated m)) = NV_ENC_SUCCESS
  /\ nvEncOpenEncodeSessionEx (CreatedFunctions (snd (Negotiated m))) = true.

(** The session [Open] hands to the preset validation (lines 502-508) once
    candidate [c] gave the encoder [enc], [s] being the session after the
    negotiation and [fl] the function table the runtime filled in. *)
Definition OpenedSession (codec : ENVENCCodec) (dev c enc : Z)
    (fl : NV_ENCODE_API_FUNCTION_LIST) (s : FNVENCSession) : FNVENCSession :=
  MkSession enc dev c fl (EncodeConfig s) (InitializeParams s)
    (NvBufferFormat s) (set_Codec codec (CurrentParameters s)) (ApiVersion s)
    true (bIsInitialised s) EmptyString (LogContext s).

(** What the runtime answers to the reconfigure call [Reconfigure] makes on
    machine [m] (lines 1120-1145). *)
Definition ReconfigureAnswer (Parameters : FNVENCParameters) (m : Machine W)
  : Z * W :=
  drvReconfigureEncoder (Encoder (This m))
    (MakeReconfigureParams (This m) Parameters)
    (ReconfiguredConfig (EncodeConfig (This m)) Parameters)
    (Runtime m).

(** What the runtime answers to the two calls [GetSequenceParams] can make on
    machine [m]: the one with the buffer of 1024 bytes, and the retry with a
    buffer of the size the first call reported. *)
Definition FirstSequenceCall (m : Machine W) : (Z * Z * list Z) * W :=
  drvGetSequenceParams (Encoder (This m))
    (PatchStructVersion NV_ENC_SEQUENCE_PARAM_PAYLOAD_VER (ApiVersion (This m)))
    1024 0 (Runtime m).

Definition RetrySequenceCall (m : Machine W) : (Z * Z * list Z) * W :=
  let Reported := snd (fst (fst (FirstSequenceCall m))) in
  drvGetSequenceParams (Encoder (This m))
    (PatchStructVersion NV_ENC_SEQUENCE_PARAM_PAYLOAD_VER (ApiVersion (This m)))
    Reported Reported (snd (FirstSequenceCall m)).

(** The sizes the runtime reports fit where the source puts them: both are
    [uint32] values, and the first one, which [SetNumZeroed] and [SetNum]
    take as the array's signed 32-bit count, is below 2^31. *)
Definition ReportedSizesFit (m : Machine W) : Prop :=
  0 <= snd (fst (fst (FirstSequenceCall m))) <= 0x7FFFFFFF
  /\ 0 <= snd (fst (fst (RetrySequenceCall m))) <= 0xFFFFFFFF.

(** The session with another last-error text. *)
Definition WithLastError (e : string) (m : Machine W) : Machine W :=
  MkMachine (set_LastErrorMessage e (This m)) (Cache m) (Runtime m) (Log m).

(** The session [Destroy] leaves behind when the session was open. *)
Definition Destroyed (s : FNVENCSession) : FNVENCSession :=
  MkSession nullptr nullptr (DeviceType s) ZeroFunctionList (EncodeConfig s)
    (InitializeParams s) (NvBufferFormat s) DefaultParameters NVENCAPI_VERSION
    false false (LastErrorMessage s) (LogContext s).

Definition NotInitialisedMessage : string :=
  "Cannot reconfigure NVENC session – encoder has not been initialised.".

Definition NoDeviceMessage : string :=
  "Failed to open NVENC session – no encoder device was provided.".

(** The statuses after which the validation scan goes on to the next
    candidate. *)
Definition SoftValidation (st : Z) : bool :=
  (st =? NV_ENC_ERR_INVALID_PARAM) || (st =? NV_ENC_ERR_UNSUPPORTED_PARAM)
  || (st =? NV_ENC_ERR_INVALID_ENCODERDEVICE).

(** What one preset query adds to the log and returns: the plain query with
    its status [st0], then extended queries for a prefix of the ladder, in
    the ladder's order, none of them successful except possibly the last; the
    status returned is that of the last call made; no extended query is made
    when the plain one succeeded or the extended entry point is absent, and
    otherwise the run ends with a success or with the whole ladder tried. *)
Definition LadderRun (Ladder : list NV_ENC_TUNING_INFO) (enc : Z) (preset : GUID)
    (ExPresent : bool) (before after : list Call) (Status : Z) : Prop :=
  exists (st0 : Z) (tried : list (NV_ENC_TUNING_INFO * Z)),
    after = before ++ CallGetEncodePresetConfig enc preset st0
                      :: ExtendedQueries enc preset tried
    /\ map fst tried = firstn (length tried) Ladder
    /\ Forall (fun ts => snd ts <> NV_ENC_SUCCESS) (removelast tried)
    /\ Status = List.last (map snd tried) st0
    /\ (if (st0 =? NV_ENC_SUCCESS) || negb ExPresent
        then tried = []
        else Status = NV_ENC_SUCCESS \/ length tried = length Ladder).

(** What the loop over the device-type candidates adds to the log and
    returns: either some candidates failed, in order, and the next one
    succeeded and gave the encoder; or all of them failed. *)
Definition OpenRun (CandidateTypes : list Z) (Status0 Selected0 : Z)
    (before : Machine W) (r : Z * Z * Machine W) : Prop :=
  (exists (failed : list (Z * Z * Z)) (c enc : Z),
      Log (snd r) = Log before ++ OpenAttempts (failed ++ [(c, NV_ENC_SUCCESS, enc)])
      /\ map (fun a => fst (fst a)) failed ++ [c]
         = firstn (S (length failed)) CandidateTypes
      /\ Forall (fun a => snd (fst a) <> NV_ENC_SUCCESS) failed
      /\ fst r = (NV_ENC_SUCCESS, c)
      /\ This (snd r) = set_Encoder enc (This before))
  \/ (exists failed : list (Z * Z * Z),
        Log (snd r) = Log before ++ OpenAttempts failed
        /\ map (fun a => fst (fst a)) failed = CandidateTypes
        /\ Forall (fun a => snd (fst a) <> NV_ENC_SUCCESS) failed
        /\ fst r = (List.last (map (fun a => snd (fst a)) failed) Status0,
                    Selected0)
        /\ This (snd r) = This before).

End WithRuntime.
End Spec.

(* --------------------------------------------------------------------- *)
(** ** Example headers and a scripted runtime                             *)
(* --------------------------------------------------------------------- *)

(** Concrete instances on which the operations can be run: header values as
    version 12.1 of the vendor SDK gives them, and a runtime whose answers
    are read from a script.  The theorems of Part II hold for every instance;
    these serve the examples. *)
Module Example.
Import Defs Session.

Definition STRUCT_VERSION (ver : Z) : Z :=
  Z.lor (Z.lor 0x0100000C (Z.shiftl ver 16)) (Z.shiftl 0x7 28).

Definition Rendered (g : FGuid) : string :=
  (fmt_0x 8 (GA g) ++ fmt_0x 8 (GB g) ++ fmt_0x 8 (GC g) ++ fmt_0x 8 (GD g))%string.

#[export] Instance ExampleHeaders : Headers := {|
  NVENCAPI_VERSION := 0x0100000C;
  NV_ENCODE_API_FUNCTION_LIST_VER := STRUCT_VERSION 2;
  NV_ENC_OPEN_ENCODE_SESSION_EX_PARAMS_VER := STRUCT_VERSION 1;
  NV_ENC_PRESET_CONFIG_VER := Z.lor (STRUCT_VERSION 4) (Z.shiftl 1 31);
  NV_ENC_CONFIG_VER := Z.lor (STRUCT_VERSION 8) (Z.shiftl 1 31);
  NV_ENC_INITIALIZE_PARAMS_VER := Z.lor (STRUCT_VERSION 6) (Z.shiftl 1 31);
  NV_ENC_RECONFIGURE_PARAMS_VER := Z.lor (STRUCT_VERSION 1) (Z.shiftl 1 31);
  NV_ENC_SEQUENCE_PARAM_PAYLOAD_VER := STRUCT_VERSION 1;
  NV_ENC_DEVICE_TYPE_DIRECTX := 0;
  NVENC_INFINITE_GOPLENGTH := 0xFFFFFFFF;
  NV_ENC_LEVEL_AUTOSELECT := 0;
  NV_ENC_TIER_HEVC_MAIN := 0;
  NV_ENC_HEVC_CUSIZE_AUTOSELECT := 0;
  NV_ENC_HEVC_CUSIZE_32x32 := 3;
  NV_ENC_BFRAME_REF_MODE_DISABLED := 0;
  NV_ENC_NUM_REF_FRAMES_AUTOSELECT := 0;
  NV_ENC_PARAMS_FRAME_FIELD_MODE_FRAME := 1;
  NV_ENC_MV_PRECISION_QUARTER_PEL := 3;
  NV_ENC_PARAMS_RC_CONSTQP := 0;
  NV_ENC_PARAMS_RC_VBR := 1;
  NV_ENC_PARAMS_RC_CBR := 2;
  NV_ENC_MULTI_PASS_DISABLED := 0;
  NV_ENC_TWO_PASS_QUARTER_RESOLUTION := 1;
  NV_ENC_TWO_PASS_FULL_RESOLUTION := 2;
  NV_ENC_BIT_DEPTH_8 := 8;
  NV_ENC_BIT_DEPTH_10 := 10;
  NV_ENC_CODEC_H264_GUID :=
    ToWindowsGuid (MkFGuid 0x6BC82762 0x4E634CA4 0xAA851E50 0xF321F6BF);
  NV_ENC_CODEC_HEVC_GUID :=
    ToWindowsGuid (MkFGuid 0x790CDC88 0x45224D7B 0x9425BDA9 0x975F7603);
  NV_ENC_PRESET_P1_GUID :=
    ToWindowsGuid (MkFGuid 0xFC0A8D3E 0x45F84CF8 0x80C72988 0x71590EBF);
  NV_ENC_PRESET_P2_GUID :=
    ToWindowsGuid (MkFGuid 0xF581CFB8 0x88D64381 0x93F0DF13 0xF9C27DAB);
  NV_ENC_PRESET_P3_GUID :=
    ToWindowsGuid (MkFGuid 0x36850110 0x3A07441F 0x94D53670 0x631F91F6);
  NV_ENC_PRESET_P4_GUID :=
    ToWindowsGuid (MkFGuid 0x90A7B826 0xDF064862 0xB9D2CD6D 0x73A08681);
  NV_ENC_PRESET_P5_GUID :=
    ToWindowsGuid (MkFGuid 0x21C6E6B4 0x297A4CBA 0x998FB6CB 0xDE72ADE3);
  NV_ENC_PRESET_P6_GUID :=
    ToWindowsGuid (MkFGuid 0x8E75C279 0x62994AB6 0x83020B21 0x5A335CF5);
  NV_ENC_PRESET_P7_GUID :=
    ToWindowsGuid (MkFGuid 0x84848C12 0x6F714C13 0x931B53E2 0x83F57974);
  NV_ENC_H264_PROFILE_BASELINE_GUID :=
    MkGUID 0x0727bcaa 0x78c4 0x4c83 [0x8c; 0x2f; 0xef; 0x3d; 0xff; 0x26; 0x7c; 0x6a];
  NV_ENC_H264_PROFILE_MAIN_GUID :=
    MkGUID 0x60b5c1d4 0x67fe 0x4790 [0x94; 0xd5; 0xc4; 0x72; 0x6d; 0x7b; 0x6e; 0x6d];
  NV_ENC_H264_PROFILE_HIGH_GUID :=
    MkGUID 0xe7cbc309 0x4f7a 0x4b89 [0xaf; 0x2a; 0xd5; 0x37; 0xc9; 0x2b; 0xe3; 0x10];
  NV_ENC_H264_PROFILE_HIGH_444_GUID :=
    MkGUID 0x7ac663cb 0xa598 0x4960 [0xb8; 0x44; 0x33; 0x9b; 0x26; 0x1a; 0x7d; 0x52];
  NV_ENC_HEVC_PROFILE_MAIN_GUID :=
    MkGUID 0xb514c39a 0xb55b 0x40fa [0x87; 0x8f; 0xf1; 0x25; 0x3b; 0x4d; 0xfd; 0xec];
  NV_ENC_HEVC_PROFILE_MAIN10_GUID :=
    MkGUID 0xfa4d2b6c 0x3a5b 0x411a [0x80; 0x18; 0x0a; 0x3f; 0x5e; 0x3c; 0x9b; 0xe5];
  NV_ENC_HEVC_PROFILE_FREXT_GUID :=
    MkGUID 0x51ec32b5 0x1b4c 0x453c [0x9c; 0xbd; 0xb6; 0x16; 0xbd; 0x62; 0x13; 0x41];
  UE_NVENC_HAS_FLUSH_FUNCTION := false;
  FGuid_ToString := Rendered;
  FGuid_ToStringBraces := fun g => ("{" ++ Rendered g ++ "}")%string
|}.

Definition ExampleParameters : FNVENCParameters :=
  MkParameters H264 NV12 1920 1080 60 8000000 12000000 (-1) (-1) RC_CBR
    MP_DISABLED 0 false false false false Preset_Default Tuning_Automatic
    (MkFGuid 0 0 0 0) Tuning_Automatic.

#[export] Instance ExampleParametersHeader : ParametersHeader := {|
  DefaultParameters := ExampleParameters
|}.

(** Parameters that request preset P5 with the low-latency tuning, and
    parameters for HEVC with 10-bit input, no frame rate and a GOP of 30. *)
Definition RequestsP5 : FNVENCParameters :=
  MkParameters H264 NV12 1920 1080 60 8000000 12000000 (-1) (-1) RC_CBR
    MP_DISABLED 0 false false false false Preset_P5 Tuning_LowLatency
    (MkFGuid 0 0 0 0) Tuning_Automatic.

Definition HevcTenBit : FNVENCParameters :=
  MkParameters HEVC P010 3840 2160 0 20000000 30000000 (-1) (-1) RC_VBR
    MP_DISABLED 30 false false false false Preset_Default Tuning_Automatic
    (MkFGuid 0 0 0 0) Tuning_Automatic.

(** The script: what each entry point answers, as a function of what
    identifies the call.  The runtime never changes it. *)
Record Script : Type := MkScript {
  sc_Load : bool;
  sc_MaxSupportedVersion : option (Z * Z);          (* status, raw version *)
  sc_Functions : NV_ENCODE_API_FUNCTION_LIST;       (* what CreateInstance fills in *)
  sc_OpenSession : Z -> Z * Z;                      (* device type -> status, encoder *)
  sc_PresetGUIDs : list GUID;
  sc_PresetConfig : Z -> GUID -> Z;                 (* encoder, preset -> status *)
  sc_PresetConfigEx : Z -> GUID -> NV_ENC_TUNING_INFO -> Z;
  sc_Initialize : Z;
  sc_Reconfigure : Z;
  sc_Destroy : Z;
  sc_SequenceParams : Z -> Z * Z                    (* inBufferSize -> status, size *)
}.

Definition AllFunctions : NV_ENCODE_API_FUNCTION_LIST :=
  MkFunctionList 0 true true true true true true true true true.

#[export] Instance ScriptedDriver : Driver Script := {|
  drvLoad := fun w => (sc_Load w, w);
  drvHasRuntimeHandle := fun w => true;
  drvHasMaxSupportedVersion := fun w =>
    match sc_MaxSupportedVersion w with Some _ => true | None => false end;
  drvGetMaxSupportedVersion := fun w =>
    (match sc_MaxSupportedVersion w with
     | Some r => r
     | None => (NV_ENC_ERR_INVALID_PTR, 0)
     end, w);
  drvHasCreateInstance := fun w => true;
  drvCreateInstance := fun fl w =>
    ((NV_ENC_SUCCESS,
      MkFunctionList (fl_version fl)
        (nvEncOpenEncodeSessionEx (sc_Functions w))
        (nvEncGetEncodePresetGUIDs (sc_Functions w))
        (nvEncGetEncodePresetConfig (sc_Functions w))
        (nvEncGetEncodePresetConfigEx (sc_Functions w))
        (nvEncInitializeEncoder (sc_Functions w))
        (nvEncReconfigureEncoder (sc_Functions w))
        (nvEncFlushEncoderQueue (sc_Functions w))
        (nvEncDestroyEncoder (sc_Functions w))
        (nvEncGetSequenceParams (sc_Functions w))), w);
  drvOpenEncodeSessionEx := fun p w => (sc_OpenSession w (op_deviceType p), w);
  drvGetEncodePresetGUIDs := fun enc codec size w =>
    ((NV_ENC_SUCCESS, firstn (Z.to_nat size) (sc_PresetGUIDs w),
      Z.of_nat (length (sc_PresetGUIDs w))), w);
  drvGetEncodePresetConfig := fun enc codec preset cfg w =>
    ((sc_PresetConfig w enc preset, cfg), w);
  drvGetEncodePresetConfigEx := fun enc codec preset tuning cfg w =>
    ((sc_PresetConfigEx w enc preset tuning, cfg), w);
  drvInitializeEncoder := fun enc ip cfg w => (sc_Initialize w, w);
  drvReconfigureEncoder := fun enc rp cfg w => (sc_Reconfigure w, w);
  drvFlushEncoderQueue := fun enc w => (NV_ENC_SUCCESS, w);
  drvDestroyEncoder := fun enc w => (sc_Destroy w, w);
  drvGetSequenceParams := fun enc version size before w =>
    ((sc_SequenceParams w size, []), w)
|}.

(** A runtime that accepts everything, with encoder handle 7. *)
Definition Accepting : Script :=
  MkScript true None AllFunctions (fun _ => (NV_ENC_SUCCESS, 7)) []
    (fun _ _ => NV_ENC_SUCCESS) (fun _ _ _ => NV_ENC_SUCCESS)
    NV_ENC_SUCCESS NV_ENC_SUCCESS NV_ENC_SUCCESS
    (fun _ => (NV_ENC_SUCCESS, 64)).

(** Variations of [Accepting]. *)
Definition WithPresets (Plain : Z -> GUID -> Z)
    (Extended : Z -> GUID -> NV_ENC_TUNING_INFO -> Z) : Script :=
  MkScript true None AllFunctions (fun _ => (NV_ENC_SUCCESS, 7)) []
    Plain Extended NV_ENC_SUCCESS NV_ENC_SUCCESS NV_ENC_SUCCESS
    (fun _ => (NV_ENC_SUCCESS, 64)).

Definition WithOpenSession (Answer : Z -> Z * Z) : Script :=
  MkScript true None AllFunctions Answer []
    (fun _ _ => NV_ENC_SUCCESS) (fun _ _ _ => NV_ENC_SUCCESS)
    NV_ENC_SUCCESS NV_ENC_SUCCESS NV_ENC_SUCCESS
    (fun _ => (NV_ENC_SUCCESS, 64)).

Definition WithMaxSupportedVersion (Answer : Z * Z) : Script :=
  MkScript true (Some Answer) AllFunctions (fun _ => (NV_ENC_SUCCESS, 7)) []
    (fun _ _ => NV_ENC_SUCCESS) (fun _ _ _ => NV_ENC_SUCCESS)
    NV_ENC_SUCCESS NV_ENC_SUCCESS NV_ENC_SUCCESS
    (fun _ => (NV_ENC_SUCCESS, 64)).

Definition WithReconfigure (Status : Z) : Script :=
  MkScript true None AllFunctions (fun _ => (NV_ENC_SUCCESS, 7)) []
    (fun _ _ => NV_ENC_SUCCESS) (fun _ _ _ => NV_ENC_SUCCESS)
    NV_ENC_SUCCESS Status NV_ENC_SUCCESS
    (fun _ => (NV_ENC_SUCCESS, 64)).

Definition WithDestroy (Status : Z) : Script :=
  MkScript true None AllFunctions (fun _ => (NV_ENC_SUCCESS, 7)) []
    (fun _ _ => NV_ENC_SUCCESS) (fun _ _ _ => NV_ENC_SUCCESS)
    NV_ENC_SUCCESS NV_ENC_SUCCESS Status
    (fun _ => (NV_ENC_SUCCESS, 64)).

Definition WithSequenceParams (Answer : Z -> Z * Z) : Script :=
  MkScript true None AllFunctions (fun _ => (NV_ENC_SUCCESS, 7)) []
    (fun _ _ => NV_ENC_SUCCESS) (fun _ _ _ => NV_ENC_SUCCESS)
    NV_ENC_SUCCESS NV_ENC_SUCCESS NV_ENC_SUCCESS Answer.

(** The default preset is rejected with invalid-encoder-device by the plain
    and by the extended query, with and without an encoder handle; every
    other preset is accepted. *)
Definition RejectsDefaultPreset : Script :=
  WithPresets
    (fun _ g => if GUID_eqb g NV_ENC_PRESET_DEFAULT_GUID
                then NV_ENC_ERR_INVALID_ENCODERDEVICE else NV_ENC_SUCCESS)
    (fun _ g _ => if GUID_eqb g NV_ENC_PRESET_DEFAULT_GUID
                  then NV_ENC_ERR_INVALID_ENCODERDEVICE else NV_ENC_SUCCESS).

(** No preset query ever succeeds: unsupported-parameter throughout. *)
Definition RejectsEveryPreset : Script :=
  WithPresets (fun _ _ => NV_ENC_ERR_UNSUPPORTED_PARAM)
              (fun _ _ _ => NV_ENC_ERR_UNSUPPORTED_PARAM).

(** Only the legacy DirectX tag opens a session. *)
Definition OnlyLegacyDirectX : Script :=
  WithOpenSession (fun t => if t =? 0 then (NV_ENC_SUCCESS, 7) else (4, nullptr)).

(** No device type opens a session: every attempt ends with status 4. *)
Definition RefusesEveryDeviceType : Script :=
  WithOpenSession (fun _ => (4, nullptr)).

(** A runtime that reports version 0.5 in the legacy encoding. *)
Definition VersionZeroFive : Script := WithMaxSupportedVersion (NV_ENC_SUCCESS, 0x05).

(** Sequence parameters: the answer to the call with the 1024-byte buffer,
    and the answer to any other call. *)
Definition SequenceAnswers (First Retry : Z * Z) : Script :=
  WithSequenceParams (fun size => if size =? 1024 then First else Retry).

(** Two candidates of the validation scan. *)
Definition DefaultCandidate : FValidationPreset :=
  MkValidationPreset NV_ENC_PRESET_DEFAULT_GUID NV_ENC_TUNING_INFO_UNDEFINED
    "NV_ENC_PRESET_DEFAULT".

Definition P1Candidate : FValidationPreset :=
  MkValidationPreset NV_ENC_PRESET_P1_GUID NV_ENC_TUNING_INFO_LOW_LATENCY
    "NV_ENC_PRESET_P1".

(** A session as constructed or destroyed: closed, nothing stored. *)
Definition ClosedSession : FNVENCSession :=
  MkSession nullptr nullptr 0 ZeroFunctionList ZeroConfig ZeroInitializeParams
    NV_ENC_BUFFER_FORMAT_UNDEFINED ExampleParameters 0x0100000C false false
    EmptyString EmptyString.

Definition Boot (w : Script) : Machine Script :=
  MkMachine ClosedSession ∅ w [].

(** The same machine on another runtime. *)
Definition OnRuntime (w : Script) (m : Machine Script) : Machine Script :=
  MkMachine (This m) (Cache m) w (Log m).

(** The machine after [Open] succeeded on the accepting runtime, and after
    [Initialize] succeeded on top of that; each then runs on [w], with an
    empty log. *)
Definition Opened (w : Script) : Machine Script :=
  let m := snd (Open H264 1 1 (Boot Accepting)) in
  MkMachine (This m) (Cache m) w [].

Definition Initialized (w : Script) : Machine Script :=
  let m := snd (Initialize ExampleParameters (Opened Accepting)) in
  MkMachine (This m) (Cache m) w [].

End Example.

(* ===================================================================== *)
(** * Part II: theorems                                                   *)
(* ===================================================================== *)

(** ** Version utilities *)

Module DefsFacts.
Import Defs.

Lemma mask_32 : 0xFFFFFFFF = Z.ones 32.
Proof. reflexivity. Qed.

Lemma mask_28 : 0x0FFFFFFF = Z.ones 28.
Proof. reflexivity. Qed.

Lemma mask_12 : 0x0FFF = Z.ones 12.
Proof. reflexivity. Qed.

Lemma mask_flags : 0xF0000000 = Z.shiftl (Z.ones 4) 28.
Proof. reflexivity. Qed.

(** Bit-by-bit comparison of two expressions built from masks and shifts:
    push [Z.testbit] to the leaves, split on where the bit index lies, and
    compare the remaining propositional formulas. *)
Ltac bits_push :=
  repeat first
    [ rewrite Z.lor_spec | rewrite Z.land_spec
    | rewrite Z.shiftl_spec by lia | rewrite Z.shiftr_spec by lia
    | rewrite Z.testbit_ones by lia ].

Ltac bits_split :=
  repeat match goal with
    | |- context [ (?a <=? ?b) ] => destruct (Z.leb_spec a b); try lia
    | |- context [ (?a <? ?b) ] => destruct (Z.ltb_spec a b); try lia
    end.

Ltac bits_below_zero :=
  repeat match goal with
    | |- context [ Z.testbit ?x ?i ] => rewrite (Z.testbit_neg_r x i) by lia
    end.

Ltac bitwise :=
  let n := fresh "n" in
  let Hn := fresh "Hn" in
  apply Z.bits_inj'; intros n Hn;
  repeat (progress (bits_push; bits_split; bits_below_zero; simpl));
  repeat match goal with
    | |- context [ Z.testbit _ ?i ] => progress ring_simplify i
    end;
  repeat match goal with
    | |- context [ Z.testbit ?x ?i ] => destruct (Z.testbit x i)
    end;
  reflexivity.

Ltac unfold_patch :=
  unfold PatchStructVersion, StructIdField, FlagsField, u32;
  rewrite ?mask_32, ?mask_28, ?mask_12, ?mask_flags.

Lemma PatchStructVersion_idempotent (Token v : Z) :
  PatchStructVersion (PatchStructVersion Token v) v = PatchStructVersion Token v.
Proof. unfold_patch. bitwise. Qed.

Lemma PatchStructVersion_flags (Token v : Z) :
  FlagsField (PatchStructVersion Token v) = FlagsField Token.
Proof. unfold_patch. bitwise. Qed.

Lemma PatchStructVersion_struct_id (Token v : Z) :
  StructIdField (PatchStructVersion Token v)
  = Z.lor (StructIdField Token) (StructIdField v).
Proof. unfold_patch. bitwise. Qed.

(** C2, as stated, fails: patching the token of struct 1 with the encoded
    version 12.1 gives a token whose bits 16 to 27 read 0x101, not 0x001: the
    minor version lands in bits 24 to 27, inside the struct-id field. *)
Lemma PatchStructVersion_struct_id_not_preserved :
  EncodeApiVersion (MkVersion 12 1) = 0x0100000C
  /\ StructIdField 0x70010000 = 0x001
  /\ StructIdField (PatchStructVersion 0x70010000 0x0100000C) = 0x101
  /\ StructIdField (PatchStructVersion 0x70010000 0x0100000C)
     <> StructIdField 0x70010000.
Proof. repeat split; vm_compute; congruence. Qed.

(** C2, amended: for every token and version value, [PatchStructVersion] is
    idempotent, keeps the flag bits (top four) of the token, and leaves in
    bits 16 to 27 the bitwise OR of the token's struct-id field and bits 16 to
    27 of the version value; so every struct-id bit of the token is kept, and
    the field is unchanged exactly when the version value adds no bit to it. *)
Theorem PatchStructVersion_idempotent_keeps_flags_ors_struct_id (Token v : Z) :
  PatchStructVersion (PatchStructVersion Token v) v = PatchStructVersion Token v
  /\ FlagsField (PatchStructVersion Token v) = FlagsField Token
  /\ StructIdField (PatchStructVersion Token v)
     = Z.lor (StructIdField Token) (StructIdField v)
  /\ Z.land (StructIdField (PatchStructVersion Token v)) (StructIdField Token)
     = StructIdField Token.
Proof.
  split; [apply PatchStructVersion_idempotent|].
  split; [apply PatchStructVersion_flags|].
  split; [apply PatchStructVersion_struct_id|].
  rewrite PatchStructVersion_struct_id.
  apply Z.bits_inj'; intros n Hn.
  rewrite Z.land_spec, Z.lor_spec.
  destruct (Z.testbit (StructIdField Token) n),
    (Z.testbit (StructIdField v) n); reflexivity.
Qed.

(** ** The identifier registry *)

Lemma GuidFromComponents_fresh (Cache : gmap Z FGuid) (a b c d : Z) :
  Cache !! CacheKey a d = None ->
  GuidFromComponents a b c d Cache
  = (MkFGuid a b c d, <[CacheKey a d := MkFGuid a b c d]> Cache).
Proof. intros Hfresh. unfold GuidFromComponents. rewrite Hfresh. reflexivity. Qed.

Lemma GuidFromComponents_cached (Cache : gmap Z FGuid) (a b c d : Z) (g : FGuid) :
  Cache !! CacheKey a d = Some g ->
  GuidFromComponents a b c d Cache = (g, Cache).
Proof. intros Hhit. unfold GuidFromComponents. rewrite Hhit. reflexivity. Qed.

Ltac pow2_lia :=
  try change (2 ^ 4) with 16; try change (2 ^ 8) with 256;
  try change (2 ^ 12) with 4096; try change (2 ^ 16) with 65536;
  try change (2 ^ 24) with 16777216; try change (2 ^ 32) with 4294967296;
  lia.

Lemma land_ones_small (z n : Z) :
  0 <= n -> 0 <= z < 2 ^ n -> Z.land z (Z.ones n) = z.
Proof. intros Hn Hz. rewrite Z.land_ones by lia. apply Z.mod_small. lia. Qed.

(** The key holds the first component in its high half and the fourth in its
    low half: the two can be read back from it. *)
Lemma CacheKey_split (a d : Z) :
  Spec.IsU32 a -> Spec.IsU32 d ->
  Z.shiftr (CacheKey a d) 32 = a /\ Z.land (CacheKey a d) (Z.ones 32) = d.
Proof.
  unfold Spec.IsU32. intros Ha Hd. unfold CacheKey, u64.
  change 0xFFFFFFFFFFFFFFFF with (Z.ones 64).
  rewrite <- (land_ones_small a 32), <- (land_ones_small d 32) by pow2_lia.
  split; bitwise.
Qed.

Lemma CacheKey_inj (a d a' d' : Z) :
  Spec.IsU32 a -> Spec.IsU32 d -> Spec.IsU32 a' -> Spec.IsU32 d' ->
  CacheKey a d = CacheKey a' d' -> a = a' /\ d = d'.
Proof.
  intros Ha Hd Ha' Hd' Heq.
  destruct (CacheKey_split a d Ha Hd) as (E1 & E2).
  destruct (CacheKey_split a' d' Ha' Hd') as (E1' & E2').
  rewrite Heq in E1, E2. split; congruence.
Qed.

(** C10: the cache is keyed on the first and fourth components, and on
    nothing else.  When the key of [(a, d)] is not yet in the cache,
    interning [(a, b, c, d)] stores the identifier under the key of [a] and
    [d], from which both can be read back, and interning then a tuple
    [(a, b', c', d)] that differs in the second or third component returns
    the identifier built from the first tuple both times: the second tuple
    never gets an identifier of its own.  A tuple that differs from the
    first in its first or fourth component (all of them 32-bit values) and
    whose key is not in the cache either is not aliased: it gets the
    identifier built from its own components. *)
Theorem GuidFromComponents_aliases_on_first_and_fourth
    (Cache : gmap Z FGuid) (a b c d b' c' : Z) :
  Cache !! CacheKey a d = None ->
  (b, c) <> (b', c') ->
  let first := GuidFromComponents a b c d Cache in
  let second := GuidFromComponents a b' c' d (snd first) in
  fst first = MkFGuid a b c d
  /\ fst second = MkFGuid a b c d
  /\ fst second <> MkFGuid a b' c' d
  /\ snd second = snd first
  /\ snd first = <[CacheKey a d := MkFGuid a b c d]> Cache
  /\ (Spec.IsU32 a -> Spec.IsU32 d ->
      Z.shiftr (CacheKey a d) 32 = a /\ Z.land (CacheKey a d) 0xFFFFFFFF = d)
  /\ (forall a2 b2 c2 d2 : Z,
        Spec.IsU32 a -> Spec.IsU32 d -> Spec.IsU32 a2 -> Spec.IsU32 d2 ->
        (a2, d2) <> (a, d) ->
        Cache !! CacheKey a2 d2 = None ->
        let other := GuidFromComponents a2 b2 c2 d2 (snd first) in
        fst other = MkFGuid a2 b2 c2 d2
        /\ fst other <> fst first
        /\ snd other !! CacheKey a d = Some (MkFGuid a b c d)
        /\ snd other !! CacheKey a2 d2 = Some (MkFGuid a2 b2 c2 d2)).
Proof.
  intros Hfresh Hdiff first second. subst first second.
  rewrite (GuidFromComponents_fresh _ _ _ _ _ Hfresh). cbn [fst snd].
  rewrite (GuidFromComponents_cached _ _ b' c' _ (MkFGuid a b c d))
    by apply lookup_insert_eq.
  cbn [fst snd].
  split; [reflexivity|]. split; [reflexivity|].
  split; [intros Heq; apply Hdiff; congruence|].
  split; [reflexivity|]. split; [reflexivity|].
  split; [intros Ha Hd; apply (CacheKey_split a d Ha Hd)|].
  intros a2 b2 c2 d2 Ha Hd Ha2 Hd2 Hother Hfresh2. cbv zeta.
  assert (Hkey : CacheKey a d <> CacheKey a2 d2).
  { intros Heq. apply Hother.
    destruct (CacheKey_inj a d a2 d2 Ha Hd Ha2 Hd2 Heq) as (-> & ->).
    reflexivity. }
  rewrite (GuidFromComponents_fresh _ a2 b2 c2 d2)
    by (rewrite lookup_insert_ne by exact Hkey; exact Hfresh2).
  cbn [fst snd].
  split; [reflexivity|].
  split; [intros Heq; apply Hother; congruence|].
  split.
  - rewrite lookup_insert_ne by (intros Heq; apply Hkey; symmetry; exact Heq).
    apply lookup_insert_eq.
  - apply lookup_insert_eq.
Qed.

Lemma GuidFromComponents_aliases_witness :
  let first := GuidFromComponents 1 2 3 4 ∅ in
  let second := GuidFromComponents 1 9 9 4 (snd first) in
  (fst first = MkFGuid 1 2 3 4
   /\ fst second = MkFGuid 1 2 3 4
   /\ fst second <> MkFGuid 1 9 9 4
   /\ snd second = snd first
   /\ snd first = <[CacheKey 1 4 := MkFGuid 1 2 3 4]> ∅)
  /\ (Z.shiftr (CacheKey 1 4) 32 = 1 /\ Z.land (CacheKey 1 4) 0xFFFFFFFF = 4)
  /\ fst (GuidFromComponents 1 2 3 5 (snd first)) = MkFGuid 1 2 3 5
  /\ fst (GuidFromComponents 7 2 3 4 (snd first)) = MkFGuid 7 2 3 4.
Proof.
  intros first second.
  destruct (GuidFromComponents_aliases_on_first_and_fourth ∅ 1 2 3 4 9 9)
    as (First & Second & Aliased & Cache & Stored & Key & Other).
  - reflexivity.
  - discriminate.
  - assert (Fits : forall z, 0 <= z <= 9 -> Spec.IsU32 z)
      by (unfold Spec.IsU32; lia).
    split; [repeat split; assumption|].
    split; [apply Key; apply Fits; lia|].
    split.
    + apply (Other 1 2 3 5); try (apply Fits; lia);
        [discriminate | reflexivity].
    + apply (Other 7 2 3 4); try (apply Fits; lia);
        [discriminate | reflexivity].
Defined.

End DefsFacts.

(** ** Laws of the version utilities and of the identifier registry *)

Module DefsLaws.
Import Defs Session Spec DefsFacts.

Lemma mask_8 : 0xFF = Z.ones 8.
Proof. reflexivity. Qed.

Lemma mask_4 : 0x0F = Z.ones 4.
Proof. reflexivity. Qed.

Lemma mask_16 : 0xFFFF = Z.ones 16.
Proof. reflexivity. Qed.

Lemma DecodeApiVersion_EncodeApiVersion_masked (v : FNVENCAPIVersion) :
  DecodeApiVersion (EncodeApiVersion v)
  = MkVersion (Z.land (Major v) 0xFF) (Z.land (Minor v) 0xFF).
Proof.
  unfold DecodeApiVersion, EncodeApiVersion, u32. rewrite mask_8, mask_32.
  f_equal; bitwise.
Qed.

Lemma DecodeApiVersion_EncodeApiVersion (v : FNVENCAPIVersion) :
  0 <= Major v <= 255 -> 0 <= Minor v <= 255 ->
  DecodeApiVersion (EncodeApiVersion v) = v.
Proof.
  intros HM Hm. rewrite DecodeApiVersion_EncodeApiVersion_masked.
  rewrite mask_8, !land_ones_small by pow2_lia. destruct v; reflexivity.
Qed.

Lemma EncodeApiVersion_DecodeApiVersion (e : Z) :
  EncodeApiVersion (DecodeApiVersion e) = Z.land e 0xFF0000FF.
Proof.
  unfold DecodeApiVersion, EncodeApiVersion, u32. cbn [Major Minor].
  change 0xFF0000FF with (Z.lor (Z.ones 8) (Z.shiftl (Z.ones 8) 24)).
  rewrite mask_8, mask_32. bitwise.
Qed.

(** X1: a version whose major and minor number fit a byte each survives
    [EncodeApiVersion] followed by [DecodeApiVersion]; the other way round,
    decoding a 32-bit word and encoding the result keeps bits 0 to 7 and 24
    to 31 of the word and clears bits 8 to 23. *)
Theorem ApiVersion_encoding_round_trip (v : FNVENCAPIVersion) (e : Z) :
  0 <= Major v <= 255 -> 0 <= Minor v <= 255 ->
  DecodeApiVersion (EncodeApiVersion v) = v
  /\ EncodeApiVersion (DecodeApiVersion e) = Z.land e 0xFF0000FF.
Proof.
  intros HM Hm. split.
  - apply DecodeApiVersion_EncodeApiVersion; assumption.
  - apply EncodeApiVersion_DecodeApiVersion.
Qed.

Lemma EncodeApiVersion_value (major minor : Z) :
  0 <= major <= 255 -> 0 <= minor <= 255 ->
  EncodeApiVersion (MkVersion major minor) = major + 16777216 * minor.
Proof.
  intros HM Hm. unfold EncodeApiVersion, u32. cbn [Major Minor].
  rewrite mask_8, mask_32.
  rewrite (land_ones_small major 8), (land_ones_small minor 8) by pow2_lia.
  rewrite Z.shiftl_mul_pow2 by lia.
  change (2 ^ 24) with 16777216.
  rewrite land_ones_small by pow2_lia.
  rewrite <- Z.add_nocarry_lor; [lia|].
  change 16777216 with (2 ^ 24).
  rewrite <- (land_ones_small major 8) by pow2_lia.
  rewrite <- Z.shiftl_mul_pow2 by lia.
  apply Z.bits_inj'; intros n Hn.
  rewrite Z.bits_0, !Z.land_spec, Z.shiftl_spec, Z.testbit_ones by lia.
  destruct (Z.ltb_spec n 8).
  - rewrite (Z.testbit_neg_r minor) by lia. apply andb_false_r.
  - destruct (Z.leb_spec 0 n); [|lia]. cbn [andb].
    rewrite andb_false_r. reflexivity.
Qed.

Lemma land_mask_range (x n : Z) :
  0 <= n -> 0 <= Z.land x (Z.ones n) < 2 ^ n.
Proof.
  intros Hn. rewrite Z.land_ones by lia. apply Z.mod_pos_bound.
  apply Z.pow_pos_nonneg; lia.
Qed.

Lemma DecodeRuntimeVersion_range (raw : Z) :
  IsU32 raw ->
  0 <= Major (DecodeRuntimeVersion raw) <= 255
  /\ 0 <= Minor (DecodeRuntimeVersion raw) <= 255.
Proof.
  unfold IsU32. intros Hraw. unfold DecodeRuntimeVersion.
  destruct (Z.eqb_spec raw 0); [cbn; lia|].
  destruct (Z.ltb_spec 0x0FFF raw).
  - unfold DecodeApiVersion. cbn [Major Minor].
    pose proof (land_mask_range raw 8 ltac:(lia)) as H1.
    pose proof (land_mask_range (Z.shiftr raw 24) 8 ltac:(lia)) as H2.
    change (Z.ones 8) with 0xFF in H1, H2. change (2 ^ 8) with 256 in H1, H2.
    lia.
  - cbn [Major Minor].
    pose proof (land_mask_range raw 4 ltac:(lia)) as H1.
    change (Z.ones 4) with 0x0F in H1. change (2 ^ 4) with 16 in H1.
    split; [|lia].
    rewrite mask_12, Z.land_ones, Z.shiftr_div_pow2 by lia.
    change (2 ^ 4) with 16. change (2 ^ 12) with 4096.
    Z.div_mod_to_equations. lia.
Qed.

(** X2: [DecodeRuntimeVersion] reads the legacy encoding (major in bits 4
    and above, minor in the low four bits) of every version up to 255.15,
    and the encoding of [EncodeApiVersion] of every version whose minor
    number is not zero.  A version x.0 encoded by [EncodeApiVersion] is a
    number below 0x1000, so it is read as legacy: 12.0 comes back as 0.12. *)
Theorem DecodeRuntimeVersion_reads_both_encodings (major minor : Z) :
  0 <= major <= 255 -> 0 <= minor <= 255 ->
  (minor <= 15 ->
     DecodeRuntimeVersion (16 * major + minor) = MkVersion major minor)
  /\ (1 <= minor ->
      DecodeRuntimeVersion (EncodeApiVersion (MkVersion major minor))
      = MkVersion major minor)
  /\ DecodeRuntimeVersion (EncodeApiVersion (MkVersion major 0))
     = MkVersion (major / 16) (major mod 16).
Proof.
  intros HM Hm.
  assert (Hlegacy : forall raw, 0 <= raw <= 4095 ->
            DecodeRuntimeVersion raw = MkVersion (raw / 16) (raw mod 16)).
  { intros raw Hraw. unfold DecodeRuntimeVersion.
    destruct (Z.eqb_spec raw 0) as [->|Hnz]; [reflexivity|].
    destruct (Z.ltb_spec 0x0FFF raw) as [Hbig|_]; [lia|].
    rewrite mask_12, mask_4, Z.shiftr_div_pow2, !Z.land_ones by lia.
    change (2 ^ 4) with 16. change (2 ^ 12) with 4096.
    f_equal. apply Z.mod_small.
    Z.div_mod_to_equations. lia. }
  split; [|split].
  - intros Hlow. rewrite Hlegacy by lia. f_equal.
    + Z.div_mod_to_equations. lia.
    + Z.div_mod_to_equations. lia.
  - intros Hone. unfold DecodeRuntimeVersion.
    pose proof (EncodeApiVersion_value major minor HM Hm) as Hv.
    destruct (Z.eqb_spec (EncodeApiVersion (MkVersion major minor)) 0); [lia|].
    destruct (Z.ltb_spec 0x0FFF (EncodeApiVersion (MkVersion major minor)));
      [|lia].
    apply (DecodeApiVersion_EncodeApiVersion (MkVersion major minor)); assumption.
  - rewrite EncodeApiVersion_value by lia. rewrite Z.mul_0_r, Z.add_0_r.
    apply Hlegacy. lia.
Qed.

Lemma IsVersionOlder_true (a b : FNVENCAPIVersion) :
  IsVersionOlder a b = true
  <-> Major a < Major b \/ (Major a = Major b /\ Minor a < Minor b).
Proof.
  unfold IsVersionOlder.
  destruct (Z.eqb_spec (Major a) (Major b)); cbn [negb].
  - rewrite Z.ltb_lt. lia.
  - rewrite Z.ltb_lt. lia.
Qed.

Lemma IsVersionOlder_false (a b : FNVENCAPIVersion) :
  IsVersionOlder a b = false
  <-> Major b < Major a \/ (Major a = Major b /\ Minor b <= Minor a).
Proof.
  unfold IsVersionOlder.
  destruct (Z.eqb_spec (Major a) (Major b)); cbn [negb].
  - rewrite Z.ltb_ge. lia.
  - rewrite Z.ltb_ge. lia.
Qed.

(** X3: [IsVersionOlder] is a strict total order on versions (major first,
    then minor): irreflexive, asymmetric, transitive, and two versions
    neither of which is older than the other are equal. *)
Theorem IsVersionOlder_is_a_strict_total_order (a b c : FNVENCAPIVersion) :
  IsVersionOlder a a = false
  /\ (IsVersionOlder a b = true -> IsVersionOlder b a = false)
  /\ (IsVersionOlder a b = true -> IsVersionOlder b c = true ->
      IsVersionOlder a c = true)
  /\ (IsVersionOlder a b = false -> IsVersionOlder b a = false -> a = b).
Proof.
  rewrite !IsVersionOlder_true, !IsVersionOlder_false.
  split; [lia|]. split; [lia|]. split; [lia|].
  intros Hab Hba. destruct a as [Ma ma], b as [Mb mb].
  cbn [Major Minor] in *. f_equal; lia.
Qed.

(** *** Status texts *)

Lemma fmt_d_inj (a b : Z) : fmt_d a = fmt_d b -> a = b.
Proof.
  unfold fmt_d. intros Heq.
  assert (Hnn : forall z, Z.to_int z <> Decimal.Pos Decimal.Nil
                          /\ Z.to_int z <> Decimal.Neg Decimal.Nil).
  { intros [|p|p]; unfold Z.to_int; split; intros Hp;
      first [ discriminate Hp
            | injection Hp; apply Unsigned.to_uint_nonnil ]. }
  apply DecimalZ.to_int_inj.
  pose proof (DecimalString.NilZero.isi (Z.to_int a) (proj1 (Hnn a)) (proj2 (Hnn a))) as Ha.
  pose proof (DecimalString.NilZero.isi (Z.to_int b) (proj1 (Hnn b)) (proj2 (Hnn b))) as Hb.
  rewrite Heq in Ha. rewrite Ha in Hb. injection Hb. auto.
Qed.

Lemma prefixed_inj (x y : string) :
  ("NVENC_STATUS_" ++ x = "NVENC_STATUS_" ++ y)%string -> x = y.
Proof. cbn [String.append]. intros Heq. injection Heq. auto. Qed.

Lemma StatusToString_inj (a b : Z) :
  StatusToString a = StatusToString b -> a = b.
Proof.
  unfold StatusToString.
  repeat match goal with
         | |- context [a =? ?k] =>
             destruct (Z.eqb_spec a k) as [->|_]; cbv iota
         end;
  repeat match goal with
         | |- context [b =? ?k] =>
             destruct (Z.eqb_spec b k) as [->|_]; cbv iota
         end;
  intros Heq;
  first [ reflexivity
        | apply fmt_d_inj, prefixed_inj, Heq
        | cbn [String.append] in Heq; discriminate Heq ].
Qed.

(** X4: [StatusToString] gives different texts to different status codes:
    the sixteen named codes have sixteen different names, and every other
    code is rendered with its decimal value. *)
Theorem StatusToString_tells_statuses_apart (a b : Z) :
  a <> b -> StatusToString a <> StatusToString b.
Proof. intros Hab Heq. apply Hab, StatusToString_inj, Heq. Qed.

(** *** Identifier conversions *)

Lemma u32_small (z : Z) : IsU32 z -> u32 z = z.
Proof.
  unfold IsU32, u32. intros Hz. rewrite mask_32.
  apply land_ones_small; pow2_lia.
Qed.

Lemma pack_halves (b : Z) :
  Z.lor (u32 (Z.shiftl (Z.land (Z.shiftr (u32 b) 16) 0xFFFF) 16))
        (Z.land (u32 b) 0xFFFF) = u32 b.
Proof. unfold u32. rewrite mask_16, mask_32. bitwise. Qed.

Lemma pack_bytes (c : Z) :
  Z.lor (Z.lor (Z.lor
    (u32 (Z.shiftl (Z.land (Z.shiftr (u32 c) 24) 0xFF) 24))
    (u32 (Z.shiftl (Z.land (Z.shiftr (u32 c) 16) 0xFF) 16)))
    (u32 (Z.shiftl (Z.land (Z.shiftr (u32 c) 8) 0xFF) 8)))
    (Z.land (u32 c) 0xFF) = u32 c.
Proof. unfold u32. rewrite mask_8, mask_32. bitwise. Qed.

Lemma FromWindowsGuid_ToWindowsGuid_masked (g : FGuid) :
  FromWindowsGuid (ToWindowsGuid g)
  = MkFGuid (u32 (GA g)) (u32 (GB g)) (u32 (GC g)) (u32 (GD g)).
Proof.
  unfold FromWindowsGuid, ToWindowsGuid.
  cbn [Data1 Data2 Data3 Data4 byte_at nth].
  rewrite pack_halves, !pack_bytes. reflexivity.
Qed.

Lemma unpack_bytes (b3 b2 b1 b0 : Z) :
  0 <= b3 <= 0xFF -> 0 <= b2 <= 0xFF -> 0 <= b1 <= 0xFF -> 0 <= b0 <= 0xFF ->
  let c := u32 (Z.lor (Z.lor (Z.lor (u32 (Z.shiftl b3 24)) (u32 (Z.shiftl b2 16)))
                                    (u32 (Z.shiftl b1 8))) b0) in
  Z.land (Z.shiftr c 24) 0xFF = b3 /\ Z.land (Z.shiftr c 16) 0xFF = b2
  /\ Z.land (Z.shiftr c 8) 0xFF = b1 /\ Z.land c 0xFF = b0.
Proof.
  intros H3 H2 H1 H0 c. subst c.
  rewrite <- (land_ones_small b3 8), <- (land_ones_small b2 8),
    <- (land_ones_small b1 8), <- (land_ones_small b0 8) by pow2_lia.
  unfold u32. rewrite mask_8, mask_32.
  repeat split; bitwise.
Qed.

Lemma unpack_halves (h l : Z) :
  0 <= h <= 0xFFFF -> 0 <= l <= 0xFFFF ->
  let b := u32 (Z.lor (u32 (Z.shiftl h 16)) l) in
  Z.land (Z.shiftr b 16) 0xFFFF = h /\ Z.land b 0xFFFF = l.
Proof.
  intros Hh Hl b. subst b.
  rewrite <- (land_ones_small h 16), <- (land_ones_small l 16) by pow2_lia.
  unfold u32. rewrite mask_16, mask_32.
  repeat split; bitwise.
Qed.

(** X5: an engine identifier with four 32-bit components survives the
    conversion to the platform's [GUID] and back. *)
Theorem FromWindowsGuid_inverts_ToWindowsGuid (g : FGuid) :
  FGuid_fits g -> FromWindowsGuid (ToWindowsGuid g) = g.
Proof.
  intros (Ha & Hb & Hc & Hd).
  rewrite FromWindowsGuid_ToWindowsGuid_masked, !u32_small by assumption.
  destruct g; reflexivity.
Qed.

(** X6: a platform [GUID] whose fields fit (32 bits, 16 bits twice, eight
    bytes) survives the conversion to the engine identifier and back. *)
Theorem ToWindowsGuid_inverts_FromWindowsGuid (w : GUID) :
  GUID_fits w -> ToWindowsGuid (FromWindowsGuid w) = w.
Proof.
  intros (H1 & H2 & H3 & Hlen & Hbytes).
  destruct w as [d1 d2 d3 d4]. cbn [Data1 Data2 Data3 Data4] in *.
  do 8 (destruct d4 as [|? d4]; [discriminate Hlen|]).
  destruct d4; [|discriminate Hlen].
  repeat match goal with
         | Hf : Forall _ (_ :: _) |- _ => apply Forall_cons in Hf; destruct Hf
         end.
  unfold ToWindowsGuid, FromWindowsGuid.
  cbn [GA GB GC GD Data1 Data2 Data3 Data4 byte_at nth].
  rewrite (u32_small d1) by exact H1.
  match goal with
  | |- MkGUID _ ?x2 ?x3 [?y0; ?y1; ?y2; ?y3; ?y4; ?y5; ?y6; ?y7] = _ =>
      pose proof (unpack_halves d2 d3 H2 H3) as (E2 & E3)
  end.
  cbv zeta in *.
  rewrite E2, E3.
  repeat match goal with
         | |- context [Z.land (Z.shiftr (u32 (Z.lor (Z.lor (Z.lor
                          (u32 (Z.shiftl ?b3 24)) (u32 (Z.shiftl ?b2 16)))
                          (u32 (Z.shiftl ?b1 8))) ?b0)) 24) 0xFF] =>
             let E := fresh "E" in
             pose proof (unpack_bytes b3 b2 b1 b0 ltac:(assumption)
                           ltac:(assumption) ltac:(assumption)
                           ltac:(assumption)) as E;
             cbv zeta in E; destruct E as (-> & -> & -> & ->)
         end.
  reflexivity.
Qed.

(** *** The identifier registry *)

(** X7: on a cache in which every entry sits under the key of its own first
    and fourth component, [GuidFromComponents] with 32-bit first and fourth
    components keeps that property, removes and overwrites nothing, leaves
    the returned identifier in the cache under the requested key, and returns
    an identifier whose first and fourth components are the requested
    ones. *)
Theorem GuidFromComponents_keeps_the_cache_consistent
    (Cache : gmap Z FGuid) (a b c d : Z) :
  CacheConsistent Cache -> IsU32 a -> IsU32 d ->
  let r := GuidFromComponents a b c d Cache in
  CacheConsistent (snd r)
  /\ Cache ⊆ snd r
  /\ snd r !! CacheKey a d = Some (fst r)
  /\ GA (fst r) = a /\ GD (fst r) = d.
Proof.
  intros Hcons Ha Hd r. subst r. unfold GuidFromComponents.
  destruct (Cache !! CacheKey a d) as [g|] eqn:Hlook; cbn [fst snd].
  - destruct (Hcons _ _ Hlook) as (Hk & Hga & Hgd).
    destruct (CacheKey_inj a d (GA g) (GD g) Ha Hd Hga Hgd Hk) as (Ea & Ed).
    split; [exact Hcons|]. split; [reflexivity|].
    split; [exact Hlook|]. split; congruence.
  - split; [|split; [|split; [|split; reflexivity]]].
    + intros k g Hkg.
      destruct (decide (k = CacheKey a d)) as [->|Hne].
      * rewrite lookup_insert_eq in Hkg. injection Hkg as <-.
        cbn [GA GD]. auto.
      * rewrite lookup_insert_ne in Hkg by congruence. apply Hcons, Hkg.
    + apply insert_subseteq, Hlook.
    + apply lookup_insert_eq.
Qed.

Lemma GuidFromNative_components (w : GUID) :
  GuidFromNative w
  = GuidFromComponents (GA (FromWindowsGuid w)) (GB (FromWindowsGuid w))
      (GC (FromWindowsGuid w)) (GD (FromWindowsGuid w)).
Proof. reflexivity. Qed.

(** X8: interning the platform form of an engine identifier is interning
    its four components: [GuidFromNative] undoes [ToWindowsGuid] of
    NVENCSession.cpp before it consults the cache. *)
Theorem GuidFromNative_of_ToWindowsGuid (g : FGuid) :
  FGuid_fits g ->
  GuidFromNative (ToWindowsGuid g)
  = GuidFromComponents (GA g) (GB g) (GC g) (GD g).
Proof.
  intros (Ha & Hb & Hc & Hd).
  rewrite GuidFromNative_components, FromWindowsGuid_ToWindowsGuid_masked.
  cbn [GA GB GC GD]. rewrite !u32_small by assumption. reflexivity.
Qed.

(** *** The accessors of the build without the SDK *)

Lemma FallbackAccessors_form (f : State (gmap Z FGuid) FGuid) :
  In f FallbackAccessors ->
  exists a b c d, f = GuidFromComponents a b c d.
Proof.
  unfold FallbackAccessors. cbn [In].
  intros Hin.
  repeat (destruct Hin as [<-|Hin]; [do 4 eexists; reflexivity|]).
  destruct Hin.
Qed.

Lemma GuidFromComponents_empty (a b c d : Z) :
  fst (GuidFromComponents a b c d ∅) = MkFGuid a b c d.
Proof. unfold GuidFromComponents. rewrite lookup_empty. reflexivity. Qed.

Lemma Fallback_keys_distinct (f f' : State (gmap Z FGuid) FGuid) :
  In f FallbackAccessors -> In f' FallbackAccessors ->
  CacheKey (GA (fst (f ∅))) (GD (fst (f ∅)))
  = CacheKey (GA (fst (f' ∅))) (GD (fst (f' ∅))) ->
  fst (f ∅) = fst (f' ∅).
Proof.
  unfold FallbackAccessors. cbn [In].
  intros Hin Hin'.
  repeat (destruct Hin as [<-|Hin]);
  repeat (destruct Hin' as [<-|Hin']);
  try contradiction;
  vm_compute; intros Hk; first [reflexivity | discriminate Hk].
Qed.

(** What holds of every cache the accessors produce: each entry is the
    identifier of one of them, under the key of that identifier. *)
Lemma Interned_entries (Cache : gmap Z FGuid) :
  Interned Cache ->
  forall k g, Cache !! k = Some g ->
    exists f, In f FallbackAccessors /\ g = fst (f ∅)
              /\ k = CacheKey (GA g) (GD g).
Proof.
  induction 1 as [|f Cache Hf Hint IH]; intros k g Hkg.
  - rewrite lookup_empty in Hkg. discriminate.
  - destruct (FallbackAccessors_form f Hf) as (a & b & c & d & ->).
    unfold GuidFromComponents in Hkg.
    destruct (Cache !! CacheKey a d) as [g0|] eqn:Hlook; cbn [snd] in Hkg.
    + apply IH, Hkg.
    + destruct (decide (k = CacheKey a d)) as [->|Hne].
      * rewrite lookup_insert_eq in Hkg. injection Hkg as <-.
        exists (GuidFromComponents a b c d).
        rewrite GuidFromComponents_empty. auto.
      * rewrite lookup_insert_ne in Hkg by congruence. apply IH, Hkg.
Qed.

Lemma Fallback_on_interned (f : State (gmap Z FGuid) FGuid) (Cache : gmap Z FGuid) :
  In f FallbackAccessors -> Interned Cache -> fst (f Cache) = fst (f ∅).
Proof.
  intros Hf Hint.
  destruct (FallbackAccessors_form f Hf) as (a & b & c & d & Ef).
  pose proof (Interned_entries Cache Hint (CacheKey a d)) as Hent.
  pose proof (Fallback_keys_distinct f) as Hkeys.
  subst f. rewrite GuidFromComponents_empty in *.
  unfold GuidFromComponents.
  destruct (Cache !! CacheKey a d) as [g0|] eqn:Hlook; [|reflexivity].
  cbn [fst].
  destruct (Hent g0 eq_refl) as (f0 & Hf0 & -> & Hk).
  symmetry. apply (Hkeys f0 Hf Hf0). cbn [GA GD]. exact Hk.
Qed.

(** X9: in the build without the SDK the identifiers written in the file
    have pairwise different cache keys, so in whatever number and order the
    accessors were called before, each accessor returns the identifier made
    of the four components written at its own call. *)
Theorem fallback_accessors_never_alias
    (f : State (gmap Z FGuid) FGuid) (Cache : gmap Z FGuid) :
  In f FallbackAccessors -> Interned Cache ->
  exists a b c d,
    f = GuidFromComponents a b c d /\ fst (f Cache) = MkFGuid a b c d.
Proof.
  intros Hf Hint.
  destruct (FallbackAccessors_form f Hf) as (a & b & c & d & Ef).
  exists a, b, c, d. split; [exact Ef|].
  rewrite (Fallback_on_interned f Cache Hf Hint), Ef.
  apply GuidFromComponents_empty.
Qed.

Lemma bind_run {S A B} (c : State S A) (k : A -> State S B) (s : S) :
  bind c k s = k (fst (c s)) (snd (c s)).
Proof. unfold bind. destruct (c s). reflexivity. Qed.

(** One comparison of the reverse lookup on a cache the accessors
    produced. *)
Ltac lookup_step :=
  rewrite bind_run;
  match goal with
  | Hc : Interned ?c |- context [fst (?f ?c)] =>
      let Hf := fresh "Hf" in
      assert (Hf : In f FallbackAccessors)
        by (unfold FallbackAccessors; cbn [In]; tauto);
      rewrite (Fallback_on_interned f c Hf Hc);
      pose proof (Interned_call f c Hf Hc);
      clear Hc Hf
  end;
  match goal with
  | |- context [FGuid_eqb ?x ?y] =>
      let b := eval vm_compute in (FGuid_eqb x y) in
      change (FGuid_eqb x y) with b; cbv iota
  end.

(** X10: in the build without the SDK [PresetGuidToString] names each of the
    nine presets by its own name, whatever accessors were called before on
    either side. *)
Theorem fallback_preset_names_round_trip
    (ToString : FGuid -> string) (f : State (gmap Z FGuid) FGuid)
    (name : string) (Cache Cache' : gmap Z FGuid) :
  In (f, name) FallbackPresetNames -> Interned Cache -> Interned Cache' ->
  fst (DefsFallback.PresetGuidToString ToString (fst (f Cache)) Cache') = name.
Proof.
  intros Hin Hc Hc'.
  assert (Hf : In f FallbackAccessors).
  { revert Hin. unfold FallbackPresetNames, FallbackAccessors. cbn [In].
    intros Hin.
    repeat (destruct Hin as [Hin|Hin]; [injection Hin as <- <-; tauto|]).
    destruct Hin. }
  rewrite (Fallback_on_interned f Cache Hf Hc). clear Hc Hf.
  revert Hin. unfold FallbackPresetNames. cbn [In]. intros Hin.
  unfold DefsFallback.PresetGuidToString.
  repeat (destruct Hin as [Hin|Hin];
          [injection Hin as <- <-; repeat lookup_step; reflexivity|]).
  destruct Hin.
Qed.


(** *** The laws at concrete values *)

Lemma ApiVersion_encoding_round_trip_witness :
  DecodeApiVersion (EncodeApiVersion (MkVersion 12 1)) = MkVersion 12 1
  /\ EncodeApiVersion (DecodeApiVersion 0x1234560C) = Z.land 0x1234560C 0xFF0000FF.
Proof.
  apply (ApiVersion_encoding_round_trip (MkVersion 12 1) 0x1234560C); cbn; lia.
Defined.

Lemma DecodeRuntimeVersion_reads_both_encodings_witness :
  DecodeRuntimeVersion 0xC2 = MkVersion 12 2
  /\ DecodeRuntimeVersion (EncodeApiVersion (MkVersion 12 2)) = MkVersion 12 2
  /\ DecodeRuntimeVersion (EncodeApiVersion (MkVersion 12 0)) = MkVersion 0 12.
Proof.
  destruct (DecodeRuntimeVersion_reads_both_encodings 12 2 ltac:(lia) ltac:(lia))
    as (Legacy & Modern & Zero).
  split; [exact (Legacy ltac:(lia))|].
  split; [exact (Modern ltac:(lia))|].
  apply (DecodeRuntimeVersion_reads_both_encodings 12 0); lia.
Defined.

Lemma IsVersionOlder_is_a_strict_total_order_witness :
  IsVersionOlder (MkVersion 11 2) (MkVersion 12 0) = true
  /\ IsVersionOlder (MkVersion 12 0) (MkVersion 12 1) = true
  /\ IsVersionOlder (MkVersion 12 0) (MkVersion 11 2) = false
  /\ IsVersionOlder (MkVersion 11 2) (MkVersion 12 1) = true.
Proof.
  destruct (IsVersionOlder_is_a_strict_total_order
              (MkVersion 11 2) (MkVersion 12 0) (MkVersion 12 1))
    as (_ & Asym & Trans & _).
  split; [reflexivity|]. split; [reflexivity|].
  split; [exact (Asym eq_refl) | exact (Trans eq_refl eq_refl)].
Defined.

Lemma StatusToString_tells_statuses_apart_witness :
  StatusToString NV_ENC_ERR_INVALID_PARAM <> StatusToString NV_ENC_ERR_UNSUPPORTED_PARAM
  /\ StatusToString 99 <> StatusToString 100.
Proof.
  split; apply StatusToString_tells_statuses_apart; discriminate.
Defined.

Lemma FromWindowsGuid_inverts_ToWindowsGuid_witness :
  FromWindowsGuid
    (ToWindowsGuid (MkFGuid 0x6BC82762 0x4E634CA4 0xAA851E50 0xF321F6BF))
  = MkFGuid 0x6BC82762 0x4E634CA4 0xAA851E50 0xF321F6BF.
Proof.
  apply FromWindowsGuid_inverts_ToWindowsGuid.
  unfold FGuid_fits, IsU32. cbn. lia.
Defined.

Lemma ToWindowsGuid_inverts_FromWindowsGuid_witness :
  ToWindowsGuid (FromWindowsGuid LowLatencyTuningGuid) = LowLatencyTuningGuid.
Proof.
  apply ToWindowsGuid_inverts_FromWindowsGuid.
  unfold GUID_fits. cbn.
  repeat split; try lia; repeat constructor; lia.
Defined.

Lemma GuidFromComponents_keeps_the_cache_consistent_witness :
  let first := GuidFromComponents 1 2 3 4 ∅ in
  let second := GuidFromComponents 5 6 7 8 (snd first) in
  CacheConsistent (snd second)
  /\ snd first ⊆ snd second
  /\ snd second !! CacheKey 5 8 = Some (fst second)
  /\ GA (fst second) = 5 /\ GD (fst second) = 8.
Proof.
  intros first second.
  apply (GuidFromComponents_keeps_the_cache_consistent (snd first) 5 6 7 8);
    [|unfold IsU32; lia|unfold IsU32; lia].
  apply (GuidFromComponents_keeps_the_cache_consistent ∅ 1 2 3 4);
    [|unfold IsU32; lia|unfold IsU32; lia].
  intros k g Hk. rewrite lookup_empty in Hk. discriminate Hk.
Defined.

Lemma GuidFromNative_of_ToWindowsGuid_witness :
  GuidFromNative
    (ToWindowsGuid (MkFGuid 0x6BC82762 0x4E634CA4 0xAA851E50 0xF321F6BF))
  = GuidFromComponents 0x6BC82762 0x4E634CA4 0xAA851E50 0xF321F6BF.
Proof.
  apply (GuidFromNative_of_ToWindowsGuid
           (MkFGuid 0x6BC82762 0x4E634CA4 0xAA851E50 0xF321F6BF)).
  unfold FGuid_fits, IsU32. cbn. lia.
Defined.

Lemma fallback_accessors_never_alias_witness :
  exists a b c d,
    DefsFallback.PresetP3Guid = GuidFromComponents a b c d
    /\ fst (DefsFallback.PresetP3Guid
              (snd (DefsFallback.PresetP7Guid
                      (snd (DefsFallback.TuningLatencyGuid ∅)))))
       = MkFGuid a b c d.
Proof.
  apply fallback_accessors_never_alias.
  - cbn. tauto.
  - apply Interned_call; [cbn; tauto|].
    apply Interned_call; [cbn; tauto|].
    apply Interned_empty.
Defined.

Lemma fallback_preset_names_round_trip_witness :
  fst (DefsFallback.PresetGuidToString (fun _ => "unnamed"%string)
         (fst (DefsFallback.PresetP3Guid
                 (snd (DefsFallback.TuningLatencyGuid ∅))))
         (snd (DefsFallback.PresetP7Guid ∅)))
  = "NV_ENC_PRESET_P3"%string.
Proof.
  apply (fallback_preset_names_round_trip (fun _ => "unnamed"%string)
           DefsFallback.PresetP3Guid).
  - cbn. tauto.
  - apply Interned_call; [cbn; tauto|]. apply Interned_empty.
  - apply Interned_call; [cbn; tauto|]. apply Interned_empty.
Defined.


End DefsLaws.

(** ** The session *)

Module SessionFacts.
Import Defs Session Spec.

Section Facts.
Context `{Headers} `{ParametersHeader} {W : Type} `{Driver W}.

Local Abbreviation M := (State (Machine W)).

(** *** What a computation leaves untouched *)

Lemma preserves_ret {A X} (f : Machine W -> X) (a : A) : preserves f (ret a).
Proof. intros m. reflexivity. Qed.

Lemma preserves_bind {A B X} (f : Machine W -> X) (c : M A) (k : A -> M B) :
  preserves f c -> (forall a, preserves f (k a)) -> preserves f (bind c k).
Proof.
  intros Hc Hk m. unfold bind. specialize (Hc m).
  destruct (c m) as [a m1]. simpl in Hc. rewrite Hk. exact Hc.
Qed.

Lemma preserves_this {X} (f : Machine W -> X) : preserves f this.
Proof. intros m. reflexivity. Qed.

Lemma preserves_peek {A X} (f : Machine W -> X) (g : W -> A) : preserves f (peek g).
Proof. intros m. reflexivity. Qed.

(** Observations of the session object alone. *)
Lemma session_intern {A X} (f : FNVENCSession -> X) (c : State (gmap Z FGuid) A) :
  preserves (fun m : Machine W => f (This m)) (intern c).
Proof. intros m. unfold intern. destruct (c (Cache m)). reflexivity. Qed.

Lemma session_call {A X} (f : FNVENCSession -> X) (step : W -> A * W) entry :
  preserves (fun m : Machine W => f (This m)) (call step entry).
Proof. intros m. unfold call. destruct (step (Runtime m)). reflexivity. Qed.

Lemma session_update {X} (f : FNVENCSession -> X) (g : FNVENCSession -> FNVENCSession) :
  (forall s, f (g s) = f s) -> preserves (fun m : Machine W => f (This m)) (update g).
Proof. intros Hg m. simpl. apply Hg. Qed.

Lemma session_fail {X} (f : FNVENCSession -> X) (e : string) :
  (forall s, f (set_LastErrorMessage e s) = f s) ->
  preserves (fun m : Machine W => f (This m)) (fail e).
Proof. intros Hg m. simpl. apply Hg. Qed.

Create HintDb frame.
#[local] Hint Resolve preserves_ret preserves_this preserves_peek
  session_intern session_call : frame.

(** Decompose the computation along its binds and branches, closing the
    leaves with the lemmas above and those of the hint base. *)
Ltac frame :=
  repeat first
    [ progress intros
    | apply preserves_ret | apply preserves_this | apply preserves_peek
    | apply session_intern | apply session_call
    | apply session_update; intros; reflexivity
    | apply session_fail; intros; reflexivity
    | apply preserves_bind
    | match goal with
      | |- preserves _ (if ?b then _ else _) => destruct b
      | |- preserves _ (match ?x with _ => _ end) => destruct x
      | |- preserves _ (let (_, _) := ?x in _) => destruct x
      end
    | solve [eauto with frame] ].

Lemma TryTuningAttempts_session {X} (f : FNVENCSession -> X) enc codec preset
    ladder st cfg :
  preserves (fun m : Machine W => f (This m)) (TryTuningAttempts enc codec preset ladder st cfg).
Proof.
  revert st cfg. induction ladder as [|t rest IH]; intros st cfg; simpl; frame.
Qed.
#[local] Hint Resolve TryTuningAttempts_session : frame.

Lemma QueryWithLadder_session {X} (f : FNVENCSession -> X) ladder enc codec preset out :
  preserves (fun m : Machine W => f (This m)) (QueryWithLadder ladder enc codec preset out).
Proof. unfold QueryWithLadder. frame. Qed.
#[local] Hint Resolve QueryWithLadder_session : frame.

Lemma QueryPreset_session {X} (f : FNVENCSession -> X) enc codec preset t out :
  preserves (fun m : Machine W => f (This m)) (QueryPreset enc codec preset t out).
Proof. unfold QueryPreset. frame. Qed.

Lemma QueryPresetConfig_session {X} (f : FNVENCSession -> X) enc codec cand out :
  preserves (fun m : Machine W => f (This m)) (QueryPresetConfig enc codec cand out).
Proof. unfold QueryPresetConfig. frame. Qed.
#[local] Hint Resolve QueryPreset_session QueryPresetConfig_session : frame.

Lemma BuildValidationPresets_session {X} (f : FNVENCSession -> X) :
  preserves (fun m : Machine W => f (This m)) BuildValidationPresets.
Proof. unfold BuildValidationPresets. frame. Qed.

Lemma BuildPresetCandidates_session {X} (f : FNVENCSession -> X) :
  preserves (fun m : Machine W => f (This m)) BuildPresetCandidates.
Proof. unfold BuildPresetCandidates. frame. Qed.

Lemma PresetEnumToGuid_session {X} (f : FNVENCSession -> X) p g :
  preserves (fun m : Machine W => f (This m)) (PresetEnumToGuid p g).
Proof. unfold PresetEnumToGuid. frame. Qed.
#[local] Hint Resolve BuildValidationPresets_session
  BuildPresetCandidates_session PresetEnumToGuid_session : frame.

Lemma PromoteRequestedPreset_session {X} (f : FNVENCSession -> X) p l :
  preserves (fun m : Machine W => f (This m)) (PromoteRequestedPreset p l).
Proof. unfold PromoteRequestedPreset. frame. Qed.

Lemma AddRuntimePresets_session {X} (f : FNVENCSession -> X) gs l :
  preserves (fun m : Machine W => f (This m)) (AddRuntimePresets gs l).
Proof. revert l. induction gs as [|g gs IH]; intros l; simpl; frame. Qed.
#[local] Hint Resolve PromoteRequestedPreset_session AddRuntimePresets_session : frame.

Lemma AppendRuntimePresets_session {X} (f : FNVENCSession -> X) codec l :
  preserves (fun m : Machine W => f (This m)) (AppendRuntimePresets codec l).
Proof. unfold AppendRuntimePresets. frame. Qed.

Lemma CandidateName_session {X} (f : FNVENCSession -> X) c :
  preserves (fun m : Machine W => f (This m)) (CandidateName c).
Proof. unfold CandidateName. frame. Qed.
#[local] Hint Resolve AppendRuntimePresets_session CandidateName_session : frame.

Lemma SelectPreset_session {X} (f : FNVENCSession -> X) codec l idx cfg st :
  preserves (fun m : Machine W => f (This m)) (SelectPreset codec l idx cfg st).
Proof.
  revert idx cfg st. induction l as [|c l IH]; intros idx cfg st; simpl; frame.
Qed.
#[local] Hint Resolve SelectPreset_session : frame.


(** *** Destroy *)

Ltac run :=
  unfold bind, ret, update, this, fail, peek, call, intern; simpl.

Lemma Destroy_not_open (m : Machine W) :
  bIsOpen (This m) = false -> Destroy m = (tt, m).
Proof.
  intros Hclosed. unfold Destroy. run. rewrite Hclosed. reflexivity.
Qed.

Lemma Destroy_open (m : Machine W) :
  bIsOpen (This m) = true -> This (snd (Destroy m)) = Destroyed (This m).
Proof.
  intros Hopen. unfold Destroy. run. rewrite Hopen. simpl.
  destruct (negb (Encoder (This m) =? nullptr) && nvEncDestroyEncoder (FunctionList (This m))).
  - destruct (drvDestroyEncoder (Encoder (This m)) (Runtime m)). reflexivity.
  - reflexivity.
Qed.

(** C9: [Destroy] on a session that is not open changes nothing; a second
    [Destroy] in a row changes nothing either; and on an open session it
    leaves no encoder handle, no device pointer, both flags cleared, an empty
    function table, the default parameters and the compile-time API version:
    the session it leaves is [Destroyed] of the session it found, whatever
    the runtime is and whatever status its destruction entry point
    returns. *)
Theorem Destroy_idempotent_resets (m : Machine W) :
  (bIsOpen (This m) = false -> Destroy m = (tt, m))
  /\ Destroy (snd (Destroy m)) = (tt, snd (Destroy m))
  /\ (bIsOpen (This m) = true ->
      let s := This (snd (Destroy m)) in
      Encoder s = nullptr /\ Device s = nullptr
      /\ bIsOpen s = false /\ bIsInitialised s = false
      /\ FunctionList s = ZeroFunctionList
      /\ CurrentParameters s = DefaultParameters
      /\ ApiVersion s = NVENCAPI_VERSION
      /\ s = Destroyed (This m)).
Proof.
  split; [apply Destroy_not_open|]. split.
  - apply Destroy_not_open.
    destruct (bIsOpen (This m)) eqn:Hopen.
    + rewrite Destroy_open by assumption. reflexivity.
    + rewrite Destroy_not_open by assumption. assumption.
  - intros Hopen s. subst s. rewrite Destroy_open by assumption.
    repeat split.
Qed.


(** *** Reconfigure *)

(** C6: on a session that is not initialised [Reconfigure] returns false at
    once, without a call to the runtime, and changes nothing but the
    last-error text.  On an initialised session with the reconfigure entry
    point it calls the runtime exactly once and returns whether that call
    succeeded; when the call fails, it returns false and the session is as
    before but for the last-error text, which names the status: the stored
    encode configuration, initialize-parameters, current parameters and
    buffer format are untouched.  And whenever [Reconfigure] returns false,
    for whatever reason, those four are the ones from before. *)
Theorem Reconfigure_failure_leaves_state (Parameters : FNVENCParameters)
    (m : Machine W) :
  let r := Reconfigure Parameters m in
  (bIsInitialised (This m) = false ->
     fst r = false
     /\ snd r = WithLastError NotInitialisedMessage m)
  /\ (fst r = false ->
      EncodeConfig (This (snd r)) = EncodeConfig (This m)
      /\ InitializeParams (This (snd r)) = InitializeParams (This m)
      /\ CurrentParameters (This (snd r)) = CurrentParameters (This m)
      /\ NvBufferFormat (This (snd r)) = NvBufferFormat (This m))
  /\ (bIsInitialised (This m) = true ->
      nvEncReconfigureEncoder (FunctionList (This m)) = true ->
      let Status := fst (ReconfigureAnswer Parameters m) in
      Log (snd r) = Log m ++ [CallReconfigureEncoder (Encoder (This m)) Status]
      /\ Runtime (snd r) = snd (ReconfigureAnswer Parameters m)
      /\ fst r = (Status =? NV_ENC_SUCCESS)
      /\ (Status <> NV_ENC_SUCCESS ->
          fst r = false
          /\ This (snd r)
             = set_LastErrorMessage
                 ("NvEncReconfigureEncoder failed: " ++ StatusToString Status)
                 (This m)
          /\ EncodeConfig (This (snd r)) = EncodeConfig (This m)
          /\ InitializeParams (This (snd r)) = InitializeParams (This m)
          /\ CurrentParameters (This (snd r)) = CurrentParameters (This m)
          /\ NvBufferFormat (This (snd r)) = NvBufferFormat (This m))).
Proof.
  unfold ReconfigureAnswer, Reconfigure. run.
  destruct (bIsInitialised (This m)) eqn:Hinit; simpl.
  - split; [discriminate|].
    destruct (nvEncReconfigureEncoder (FunctionList (This m))); simpl.
    + destruct (drvReconfigureEncoder _ _ _ _) as [Status w']. cbn [fst snd].
      destruct (Z.eqb_spec Status NV_ENC_SUCCESS) as [Hst|Hst]; simpl.
      * split; [discriminate|]. intros _ _.
        split; [reflexivity|]. split; [reflexivity|]. split; [reflexivity|].
        intros Hne. contradiction.
      * split; [intros _; repeat split|]. intros _ _.
        split; [reflexivity|]. split; [reflexivity|]. split; [reflexivity|].
        intros _. split; [reflexivity|].
        split; [destruct (This m); reflexivity|]. repeat split.
    + split; [intros _; repeat split|]. intros _ Hfn. discriminate Hfn.
  - split; [intros _; repeat split|].
    split; [intros _; repeat split|]. intros Hfalse. discriminate Hfalse.
Qed.


(** *** The last-error text *)

Lemma IsEmpty_String (c : ascii) (s : string) : IsEmpty (String c s) = false.
Proof. reflexivity. Qed.

Lemma Destroy_keeps_error :
  preserves (fun m : Machine W => LastErrorMessage (This m)) Destroy.
Proof.
  intros m. destruct (bIsOpen (This m)) eqn:Hopen.
  - rewrite Destroy_open by assumption. reflexivity.
  - rewrite Destroy_not_open by assumption. reflexivity.
Qed.

Lemma Flush_session {X} (f : FNVENCSession -> X) :
  preserves (fun m : Machine W => f (This m)) Flush.
Proof. unfold Flush. frame. Qed.

Lemma GetSequenceParams_session {X} (f : FNVENCSession -> X) (OutData : list Z)
    (m : Machine W) :
  ReportedSizesFit m ->
  f (This (snd (GetSequenceParams OutData m))) = f (This m).
Proof.
  intros _. revert m.
  change (preserves (fun m : Machine W => f (This m)) (GetSequenceParams OutData)).
  unfold GetSequenceParams. frame.
Qed.

(** Use a frame lemma on a run that is named by an equation. *)
Ltac framed E L F :=
  pose proof L as F; unfold preserves in F;
  match type of E with
  | ?c ?m = _ => specialize (F m); rewrite E in F; simpl in F
  end.

Ltac framed_call E f F :=
  match type of E with
  | call ?stp ?entry ?mm = _ => framed E (session_call f stp entry) F
  end.

Lemma bind_eq {S A B} (c : State S A) (k : A -> State S B) (s : S) :
  bind c k s = k (fst (c s)) (snd (c s)).
Proof. unfold bind. destruct (c s). reflexivity. Qed.

(** One step of a run: name the result of the first computation of a
    [bind]. *)
Ltac session_cbn :=
  cbn [fst snd This Cache Runtime Log this update ret peek
       Encoder Device DeviceType FunctionList EncodeConfig InitializeParams
       NvBufferFormat CurrentParameters ApiVersion bIsOpen bIsInitialised
       LastErrorMessage LogContext
       set_Encoder set_Device set_DeviceType set_FunctionList set_EncodeConfig
       set_InitializeParams set_NvBufferFormat set_CurrentParameters
       set_ApiVersion set_bIsOpen set_bIsInitialised set_LastErrorMessage
       set_LogContext].

(** Name the result of the run that starts in machine [m]. *)
Ltac run_at m a m1 :=
  rewrite ?bind_eq; session_cbn;
  match goal with
  | |- context [snd (?c m)] => destruct (c m) as [a m1]; session_cbn
  end.

Ltac step a m1 E :=
  match goal with
  | |- context [bind ?c ?k ?m] =>
      rewrite (bind_eq c k m); destruct (c m) as [a m1] eqn:E; session_cbn
  end.

Ltac quiet_step :=
  match goal with
  | |- context [bind ?c ?k ?m] => rewrite (bind_eq c k m); session_cbn
  end.

Lemma ValidatePresets_no_error codec b presets st (m : Machine W) :
  LastErrorMessage (This m) = EmptyString ->
  LastErrorMessage (This (snd (ValidatePresets codec b presets st m))) = EmptyString.
Proof.
  revert st m. induction presets as [|vp rest IH]; intros st m Hm;
    cbn [ValidatePresets].
  - exact Hm.
  - step name m1 E1.
    assert (F1 : This m1 = This m).
    { destruct (negb (IsEmpty (vp_FriendlyName vp))).
      - inversion E1; reflexivity.
      - framed E1 (session_intern (fun s => s)
                     (PresetGuidToString (FromWindowsGuid (vp_Guid vp)))) F.
        exact F. }
    quiet_step.
    step r2 m2 E2. destruct r2 as [st1 cfg1].
    framed E2 (QueryPreset_session (fun s => s) (Encoder (This m1)) codec
                 (vp_Guid vp) (vp_PreferredTuning vp) ZeroPresetConfig) F2.
    step r3 m3 E3. destruct r3 as [st2 cfg2].
    assert (F3 : This m3 = This m2).
    { destruct (negb (st1 =? NV_ENC_SUCCESS) && b && _).
      - framed E3 (QueryPreset_session (fun s => s) nullptr codec
                     (vp_Guid vp) (vp_PreferredTuning vp) cfg1) F. exact F.
      - inversion E3; reflexivity. }
    destruct (st2 =? NV_ENC_SUCCESS).
    { simpl. congruence. }
    destruct ((st2 =? NV_ENC_ERR_INVALID_PARAM) || (st2 =? NV_ENC_ERR_UNSUPPORTED_PARAM)).
    { quiet_step. apply IH. reflexivity. }
    destruct (st2 =? NV_ENC_ERR_INVALID_ENCODERDEVICE).
    { quiet_step. apply IH. reflexivity. }
    simpl. congruence.
Qed.

Lemma ValidatePresetConfiguration_error codec b (m : Machine W) :
  IsEmpty (LastErrorMessage (This (snd (ValidatePresetConfiguration codec b m))))
  = fst (ValidatePresetConfiguration codec b m).
Proof.
  unfold ValidatePresetConfiguration.
  quiet_step. quiet_step.
  destruct (negb (bIsOpen _) || _); [reflexivity|].
  destruct (negb (nvEncGetEncodePresetConfig _)); [reflexivity|].
  step g m1 E1.
  framed E1 (session_intern LastErrorMessage (CodecGuid codec)) F1.
  step vps m2 E2.
  framed E2 (BuildValidationPresets_session LastErrorMessage) F2.
  step r3 m3 E3. destruct r3 as [ok st].
  pose proof (ValidatePresets_no_error (ToWindowsGuid g) b vps
                NV_ENC_ERR_NO_ENCODE_DEVICE m2) as F3.
  rewrite E3 in F3. simpl in F3.
  destruct ok; simpl.
  - rewrite F3 by congruence. reflexivity.
  - destruct (st =? NV_ENC_ERR_INVALID_ENCODERDEVICE); reflexivity.
Qed.

Lemma Reconfigure_error p (m : Machine W) :
  IsEmpty (LastErrorMessage (This (snd (Reconfigure p m)))) = fst (Reconfigure p m).
Proof.
  unfold Reconfigure. quiet_step. quiet_step.
  destruct (negb (bIsInitialised _)); [reflexivity|].
  destruct (negb (nvEncReconfigureEncoder _)); [reflexivity|].
  step st m1 E1.
  framed_call E1 LastErrorMessage F1.
  destruct (negb (st =? NV_ENC_SUCCESS)); [reflexivity|].
  repeat quiet_step. simpl. rewrite F1. reflexivity.
Qed.

Lemma Initialize_error p (m : Machine W) :
  IsEmpty (LastErrorMessage (This (snd (Initialize p m)))) = fst (Initialize p m).
Proof.
  unfold Initialize. quiet_step. quiet_step.
  destruct (negb (bIsOpen _) || _); [reflexivity|].
  destruct (negb (nvEncGetEncodePresetConfig _)); [reflexivity|].
  destruct (negb (nvEncInitializeEncoder _)); [reflexivity|].
  step g m1 E1.
  framed E1 (session_intern LastErrorMessage (CodecGuid (Codec p))) F1.
  step l2 m2 E2.
  framed E2 (BuildPresetCandidates_session LastErrorMessage) F2.
  step l3 m3 E3.
  framed E3 (PromoteRequestedPreset_session LastErrorMessage p l2) F3.
  step l4 m4 E4.
  framed E4 (AppendRuntimePresets_session LastErrorMessage (ToWindowsGuid g) l3) F4.
  step r5 m5 E5. destruct r5 as [[idx cfg] st].
  framed E5 (SelectPreset_session LastErrorMessage (ToWindowsGuid g) l4 0
               ZeroPresetConfig NV_ENC_SUCCESS) F5.
  destruct (idx =? INDEX_NONE).
  { destruct (st =? NV_ENC_ERR_INVALID_ENCODERDEVICE); reflexivity. }
  step name m6 E6.
  framed E6 (CandidateName_session LastErrorMessage
               (nth (Z.to_nat idx) l4
                  (MkPresetCandidate ZeroGUID NV_ENC_TUNING_INFO_HIGH_QUALITY EmptyString))) F6.
  quiet_step. quiet_step.
  destruct (EffectiveFormat p) as [NvFormat Effective].
  quiet_step. quiet_step. quiet_step.
  step st7 m7 E7.
  framed_call E7 LastErrorMessage F7.
  destruct (negb (st7 =? NV_ENC_SUCCESS)); [reflexivity|].
  repeat quiet_step. simpl. rewrite F7. simpl.
  rewrite F6, F5, F4, F3, F2, F1. reflexivity.
Qed.

Lemma NegotiateApiVersion_keeps {X} (f : FNVENCSession -> X) :
  (forall v s, f (set_ApiVersion v s) = f s) ->
  preserves (fun m : Machine W => f (This m)) NegotiateApiVersion.
Proof.
  intros Hf. unfold NegotiateApiVersion.
  repeat first
    [ progress intros
    | apply preserves_ret | apply preserves_this | apply preserves_peek
    | apply session_call
    | apply session_update; intros; apply Hf
    | apply preserves_bind
    | match goal with
      | |- preserves _ (if ?b then _ else _) => destruct b
      | |- preserves _ (let (_, _) := ?x in _) => destruct x
      end ].
Qed.

Lemma OpenCandidates_keeps {X} (f : FNVENCSession -> X) params l st sel :
  (forall v s, f (set_Encoder v s) = f s) ->
  preserves (fun m : Machine W => f (This m)) (OpenCandidates params l st sel).
Proof.
  intros Hf. revert params st sel.
  induction l as [|c l IH]; intros params st sel; cbn [OpenCandidates].
  - apply preserves_ret.
  - apply preserves_bind; [apply session_call|].
    intros [st' enc]. destruct (st' =? NV_ENC_SUCCESS).
    + apply preserves_bind; [apply session_update; intros; apply Hf|].
      intros. apply preserves_ret.
    + apply IH.
Qed.

Lemma OpenNegotiated_error codec dev t (m : Machine W) :
  LastErrorMessage (This m) = EmptyString ->
  IsEmpty (LastErrorMessage (This (snd (OpenNegotiated codec dev t m))))
  = fst (OpenNegotiated codec dev t m).
Proof.
  intros Hm. unfold OpenNegotiated.
  quiet_step. cbn [peek fst snd].
  destruct (negb (drvHasCreateInstance (Runtime m))); [reflexivity|].
  do 3 quiet_step.
  step r1 m1 E1. destruct r1 as [st1 fl].
  quiet_step.
  destruct (negb (st1 =? NV_ENC_SUCCESS)); [reflexivity|].
  quiet_step.
  destruct (negb (nvEncOpenEncodeSessionEx _)); [reflexivity|].
  quiet_step.
  step r2 m2 E2. destruct r2 as [st2 sel].
  quiet_step.
  destruct (Encoder _ =? nullptr); [reflexivity|].
  do 5 quiet_step.
  step ok m3 E3.
  pose proof (ValidatePresetConfiguration_error codec false) as F3.
  match type of E3 with _ ?mm = _ => specialize (F3 mm) end.
  rewrite E3 in F3. simpl in F3.
  destruct ok; simpl.
  - exact F3.
  - quiet_step. rewrite Destroy_keeps_error. exact F3.
Qed.

Lemma Open_error codec dev t (m : Machine W) :
  IsEmpty (LastErrorMessage (This (snd (Open codec dev t m))))
  = fst (Open codec dev t m).
Proof.
  unfold Open. quiet_step. quiet_step.
  destruct (bIsOpen (This m)); [reflexivity|].
  destruct (dev =? nullptr); [reflexivity|].
  step loaded m1 E1.
  framed_call E1 LastErrorMessage F1.
  destruct (negb loaded); [reflexivity|].
  step v m2 E2.
  framed E2 (NegotiateApiVersion_keeps LastErrorMessage
               (fun _ _ => eq_refl)) F2.
  destruct (IsVersionOlder v GetMinimumAPIVersion); [reflexivity|].
  apply OpenNegotiated_error. congruence.
Qed.

(** What came before is cleared: the run does not depend on the last-error
    text the session held. *)
Lemma Open_clears codec dev t e (m : Machine W) :
  Open codec dev t (WithLastError e m) = Open codec dev t m.
Proof. reflexivity. Qed.

Lemma ValidatePresetConfiguration_clears codec b e (m : Machine W) :
  ValidatePresetConfiguration codec b (WithLastError e m)
  = ValidatePresetConfiguration codec b m.
Proof. reflexivity. Qed.

Lemma Initialize_clears p e (m : Machine W) :
  Initialize p (WithLastError e m) = Initialize p m.
Proof. reflexivity. Qed.

Lemma Reconfigure_clears p e (m : Machine W) :
  Reconfigure p (WithLastError e m) = Reconfigure p m.
Proof. reflexivity. Qed.



(** *** The two preset scans *)

(** The validation scan, one candidate at a time: scanning [vp :: rest] is
    scanning [vp] alone and, when that ends unvalidated with a soft status,
    going on with [rest]. *)
Lemma ValidatePresets_cons codec b vp rest st0 (m : Machine W) :
  ValidatePresets codec b (vp :: rest) st0 m
  = let one := ValidatePresets codec b [vp] st0 m in
    if fst (fst one) then one
    else if SoftValidation (snd (fst one))
         then ValidatePresets codec b rest (snd (fst one)) (snd one)
         else one.
Proof.
  cbn [ValidatePresets]. cbv zeta.
  rewrite !bind_eq. session_cbn.
  run_at m name m1.
  run_at m1 r2 m2. destruct r2 as [st1 cfg1]. session_cbn.
  run_at m2 r3 m3. destruct r3 as [st2 cfg2]. session_cbn.
  unfold SoftValidation.
  destruct (st2 =? NV_ENC_SUCCESS) eqn:E0; [reflexivity|].
  destruct (st2 =? NV_ENC_ERR_INVALID_PARAM) eqn:E1;
  destruct (st2 =? NV_ENC_ERR_UNSUPPORTED_PARAM) eqn:E2;
  destruct (st2 =? NV_ENC_ERR_INVALID_ENCODERDEVICE) eqn:E3;
  cbn [orb]; rewrite ?bind_eq; session_cbn;
  rewrite ?E1, ?E2, ?E3; cbn [orb]; reflexivity.
Qed.


Lemma ValidatePresets_one_validated codec b vp st0 (m : Machine W) :
  fst (fst (ValidatePresets codec b [vp] st0 m)) = true ->
  snd (fst (ValidatePresets codec b [vp] st0 m)) = NV_ENC_SUCCESS.
Proof.
  cbn [ValidatePresets].
  run_at m name m1.
  run_at m1 r2 m2. destruct r2 as [st1 cfg1]. session_cbn.
  run_at m2 r3 m3. destruct r3 as [st2 cfg2]. session_cbn.
  destruct (st2 =? NV_ENC_SUCCESS) eqn:E0.
  - intros _. apply Z.eqb_eq in E0. exact E0.
  - destruct (_ || _); [rewrite ?bind_eq; session_cbn; discriminate|].
    destruct (st2 =? NV_ENC_ERR_INVALID_ENCODERDEVICE);
      rewrite ?bind_eq; session_cbn; discriminate.
Qed.

(** The selection scan of [Initialize], one candidate at a time. *)
Lemma SelectPreset_cons codec c rest idx cfg st0 (m : Machine W) :
  SelectPreset codec (c :: rest) idx cfg st0 m
  = let one := SelectPreset codec [c] idx cfg st0 m in
    let st := snd (fst one) in
    if (st =? NV_ENC_SUCCESS) || (st =? NV_ENC_ERR_INVALID_ENCODERDEVICE)
    then one
    else SelectPreset codec rest (idx + 1) (snd (fst (fst one))) st (snd one).
Proof.
  cbn [SelectPreset]. cbv zeta.
  run_at m r1 m1. destruct r1 as [st1 cfg1]. session_cbn.
  run_at m1 r2 m2. destruct r2 as [st2 cfg2]. session_cbn.
  destruct (st2 =? NV_ENC_SUCCESS) eqn:E0.
  { session_cbn. rewrite E0. reflexivity. }
  run_at m2 name m3.
  destruct (st2 =? NV_ENC_ERR_INVALID_ENCODERDEVICE) eqn:E3; session_cbn;
    rewrite E0, E3; reflexivity.
Qed.

Lemma SelectPreset_one_aborted codec c idx cfg st0 (m : Machine W) :
  snd (fst (SelectPreset codec [c] idx cfg st0 m))
    = NV_ENC_ERR_INVALID_ENCODERDEVICE ->
  fst (fst (fst (SelectPreset codec [c] idx cfg st0 m))) = INDEX_NONE.
Proof.
  cbn [SelectPreset].
  run_at m r1 m1. destruct r1 as [st1 cfg1]. session_cbn.
  run_at m1 r2 m2. destruct r2 as [st2 cfg2]. session_cbn.
  destruct (st2 =? NV_ENC_SUCCESS) eqn:E0.
  { session_cbn. apply Z.eqb_eq in E0. subst st2. discriminate. }
  run_at m2 name m3.
  destruct (st2 =? NV_ENC_ERR_INVALID_ENCODERDEVICE); reflexivity.
Qed.



(** *** The tuning ladders *)

Lemma ValidationTuningAttempts_shape (p : NV_ENC_TUNING_INFO) :
  ValidationTuningAttempts p
  = p :: filter (fun t => t <> p)
           [ NV_ENC_TUNING_INFO_LOW_LATENCY; NV_ENC_TUNING_INFO_HIGH_QUALITY;
             NV_ENC_TUNING_INFO_ULTRA_LOW_LATENCY; NV_ENC_TUNING_INFO_LOSSLESS ]
       ++ [NV_ENC_TUNING_INFO_UNDEFINED].
Proof. destruct p; reflexivity. Qed.

Lemma InitializeTuningAttempts_shape (p : NV_ENC_TUNING_INFO) :
  InitializeTuningAttempts p
  = p :: filter (fun t => t <> p)
           [ NV_ENC_TUNING_INFO_UNDEFINED; NV_ENC_TUNING_INFO_HIGH_QUALITY;
             NV_ENC_TUNING_INFO_LOW_LATENCY;
             NV_ENC_TUNING_INFO_ULTRA_LOW_LATENCY; NV_ENC_TUNING_INFO_LOSSLESS ].
Proof. destruct p; reflexivity. Qed.

Lemma last_default {A} (x : A) (l : list A) (d d' : A) :
  List.last (x :: l) d = List.last (x :: l) d'.
Proof.
  revert x. induction l as [|y l IH]; intros x; [reflexivity|].
  change (List.last (y :: l) d = List.last (y :: l) d'). apply IH.
Qed.

Lemma last_cons {A} (x : A) (l : list A) (d : A) :
  List.last (x :: l) d = List.last l x.
Proof.
  destruct l as [|y l]; [reflexivity|].
  change (List.last (y :: l) d = List.last (y :: l) x). apply last_default.
Qed.

Lemma call_log {A} (step : W -> A * W) (entry : A -> Call) (m : Machine W) :
  Log (snd (call step entry m)) = Log m ++ [entry (fst (call step entry m))].
Proof. unfold call. destruct (step (Runtime m)). reflexivity. Qed.

Lemma call_answer {A} (step : W -> A * W) (entry : A -> Call) (m : Machine W) :
  fst (call step entry m) = fst (step (Runtime m))
  /\ Runtime (snd (call step entry m)) = snd (step (Runtime m))
  /\ This (snd (call step entry m)) = This m.
Proof. unfold call. destruct (step (Runtime m)). repeat split. Qed.

Lemma TryTuningAttempts_run enc codec preset ladder st cfg (m : Machine W) :
  let r := TryTuningAttempts enc codec preset ladder st cfg m in
  exists tried : list (NV_ENC_TUNING_INFO * Z),
    Log (snd r) = Log m ++ ExtendedQueries enc preset tried
    /\ map fst tried = firstn (length tried) ladder
    /\ Forall (fun ts => snd ts <> NV_ENC_SUCCESS) (removelast tried)
    /\ fst (fst r) = List.last (map snd tried) st
    /\ (fst (fst r) = NV_ENC_SUCCESS \/ length tried = length ladder).
Proof.
  revert st cfg m. induction ladder as [|t rest IH]; intros st cfg m r; subst r.
  - exists []. cbn. rewrite app_nil_r. repeat split; auto.
  - cbn [TryTuningAttempts]. rewrite bind_eq.
    match goal with
    | |- context [call ?s ?e m] =>
        pose proof (call_log s e m) as Hcall;
        destruct (call s e m) as [[st1 cfg1] m1]
    end.
    cbn [fst snd] in *.
    destruct (st1 =? NV_ENC_SUCCESS) eqn:E0.
    + exists [(t, st1)]. cbn. apply Z.eqb_eq in E0.
      repeat split; auto.
    + destruct (IH st1 cfg1 m1) as (tried & Hlog & Hpre & Hall & Hst & Hend).
      exists ((t, st1) :: tried).
      rewrite Hlog, Hcall, <- app_assoc.
      split; [reflexivity|].
      split; [cbn; f_equal; exact Hpre|].
      split.
      { destruct tried as [|x tried']; [constructor|].
        change (removelast ((t, st1) :: x :: tried'))
          with ((t, st1) :: removelast (x :: tried')).
        constructor; [|exact Hall].
        cbn. apply Z.eqb_neq in E0. exact E0. }
      split.
      { rewrite Hst. cbn [map snd]. rewrite last_cons. reflexivity. }
      destruct Hend as [Hend|Hend]; [left; exact Hend|right].
      cbn. f_equal. exact Hend.
Qed.

Lemma QueryWithLadder_run ladder enc codec preset out (m : Machine W) :
  let r := QueryWithLadder ladder enc codec preset out m in
  LadderRun ladder enc preset (nvEncGetEncodePresetConfigEx (FunctionList (This m)))
    (Log m) (Log (snd r)) (fst (fst r)).
Proof.
  intros r. subst r. unfold QueryWithLadder, LadderRun.
  rewrite bind_eq. session_cbn. rewrite bind_eq.
  match goal with
  | |- context [call ?s ?e m] =>
      pose proof (call_log s e m) as Hcall;
      pose proof (session_call (fun x => x) s e m) as Hthis;
      destruct (call s e m) as [[st0 cfg0] m1]
  end.
  cbn [fst snd] in *. exists st0.
  destruct (st0 =? NV_ENC_SUCCESS) eqn:E0; cbn [negb andb orb].
  - exists []. rewrite bind_eq. session_cbn. rewrite E0. cbn.
    rewrite Hcall. repeat split; auto.
  - destruct (nvEncGetEncodePresetConfigEx (FunctionList (This m))) eqn:Eex;
      cbn [negb].
    + rewrite bind_eq.
      match goal with
      | |- context [TryTuningAttempts ?a ?b ?c ?d ?e ?f ?mm] =>
          destruct (TryTuningAttempts_run a b c d e f mm)
            as (tried & Hlog & Hpre & Hall & Hst & Hend);
          destruct (TryTuningAttempts a b c d e f mm) as [[st1 cfg1] m2]
      end.
      cbn [fst snd Log] in *.
      exists tried.
      assert (Hlog' : Log (snd ((if st1 =? NV_ENC_SUCCESS
                                 then ret (st1, cfg1)
                                 else ret (st1, out) : State _ _) m2))
                      = Log m2)
        by (destruct (st1 =? NV_ENC_SUCCESS); reflexivity).
      assert (Hst' : fst (fst ((if st1 =? NV_ENC_SUCCESS
                                then ret (st1, cfg1)
                                else ret (st1, out) : State _ _) m2)) = st1)
        by (destruct (st1 =? NV_ENC_SUCCESS); reflexivity).
      rewrite Hlog', Hst', Hlog, Hcall, <- app_assoc.
      repeat split; auto.
    + exists []. rewrite bind_eq. session_cbn. rewrite E0. cbn.
      rewrite Hcall. repeat split; auto.
Qed.

(** C4, amended: when the plain query of a candidate fails and the extended
    entry point exists, both paths try the candidate's preferred tuning
    first and stop at the first success, but in different orders, and neither
    in the order undefined, low-latency, high-quality, ultra-low-latency,
    lossless.  Validation goes on with low-latency, high-quality,
    ultra-low-latency, lossless (skipping the preferred one) and ends with
    undefined, which it tries even when undefined was the preferred tuning.
    Initialization goes on with undefined, high-quality, low-latency,
    ultra-low-latency, lossless, skipping the preferred one. *)
Theorem tuning_ladders_of_validation_and_initialization :
  (forall p, ValidationTuningAttempts p
             = p :: filter (fun t => t <> p)
                      [ NV_ENC_TUNING_INFO_LOW_LATENCY;
                        NV_ENC_TUNING_INFO_HIGH_QUALITY;
                        NV_ENC_TUNING_INFO_ULTRA_LOW_LATENCY;
                        NV_ENC_TUNING_INFO_LOSSLESS ]
                  ++ [NV_ENC_TUNING_INFO_UNDEFINED])
  /\ (forall p, InitializeTuningAttempts p
                = p :: filter (fun t => t <> p)
                         [ NV_ENC_TUNING_INFO_UNDEFINED;
                           NV_ENC_TUNING_INFO_HIGH_QUALITY;
                           NV_ENC_TUNING_INFO_LOW_LATENCY;
                           NV_ENC_TUNING_INFO_ULTRA_LOW_LATENCY;
                           NV_ENC_TUNING_INFO_LOSSLESS ])
  /\ (forall enc codec preset p out (m : Machine W),
       let r := QueryPreset enc codec preset p out m in
       LadderRun (ValidationTuningAttempts p) enc preset
         (nvEncGetEncodePresetConfigEx (FunctionList (This m)))
         (Log m) (Log (snd r)) (fst (fst r)))
  /\ (forall enc codec cand out (m : Machine W),
       let r := QueryPresetConfig enc codec cand out m in
       LadderRun (InitializeTuningAttempts (cand_Tuning cand)) enc
         (cand_Guid cand)
         (nvEncGetEncodePresetConfigEx (FunctionList (This m)))
         (Log m) (Log (snd r)) (fst (fst r))).
Proof.
  split; [apply ValidationTuningAttempts_shape|].
  split; [apply InitializeTuningAttempts_shape|].
  split; intros; apply QueryWithLadder_run.
Qed.



(** *** Opening across the device-type candidates *)

Lemma TryAddCandidate_nil (c : Z) : TryAddCandidate [] c = [c].
Proof. reflexivity. Qed.

Lemma TryAddCandidate_one (a c : Z) :
  TryAddCandidate [a] c = if a =? c then [a] else [a; c].
Proof. unfold TryAddCandidate. cbn [existsb orb]. destruct (a =? c); reflexivity. Qed.

Lemma TryAddCandidate_two (a b c : Z) :
  TryAddCandidate [a; b] c = if (a =? c) || (b =? c) then [a; b] else [a; b; c].
Proof.
  unfold TryAddCandidate. cbn [existsb].
  destruct (a =? c), (b =? c); reflexivity.
Qed.

Lemma BuildCandidateTypes_shape (InDeviceType : Z) :
  BuildCandidateTypes InDeviceType
  = if (InDeviceType =? NV_ENC_DEVICE_TYPE_DIRECTX)
       || (InDeviceType =? GetDirectX11DeviceType)
    then if NV_ENC_DEVICE_TYPE_DIRECTX =? GetDirectX11DeviceType
         then [GetDirectX11DeviceType]
         else [GetDirectX11DeviceType; NV_ENC_DEVICE_TYPE_DIRECTX]
    else [InDeviceType].
Proof.
  unfold BuildCandidateTypes.
  destruct (Z.eqb_spec InDeviceType NV_ENC_DEVICE_TYPE_DIRECTX) as [Hdx|Hdx];
  destruct (Z.eqb_spec InDeviceType GetDirectX11DeviceType) as [H11|H11];
  cbn [orb]; rewrite ?TryAddCandidate_nil, ?TryAddCandidate_one;
  repeat (match goal with
          | |- context [?a =? ?b] => destruct (Z.eqb_spec a b)
          end;
          rewrite ?TryAddCandidate_nil, ?TryAddCandidate_one,
            ?TryAddCandidate_two; cbn [orb]);
  try congruence; reflexivity.
Qed.

Lemma OpenCandidates_run params cands st sel (m : Machine W) :
  OpenRun cands st sel m (OpenCandidates params cands st sel m).
Proof.
  revert params st sel m.
  induction cands as [|c rest IH]; intros params st sel m.
  - right. exists []. cbn. rewrite app_nil_r. repeat split; auto.
  - cbn [OpenCandidates]. rewrite bind_eq.
    match goal with
    | |- context [call ?s ?e m] =>
        pose proof (call_log s e m) as Hcall;
        pose proof (session_call (fun x => x) s e m) as Hthis;
        destruct (call s e m) as [[st1 enc] m1]
    end.
    cbn [fst snd] in *.
    destruct (st1 =? NV_ENC_SUCCESS) eqn:E0.
    + left. exists [], c, enc. apply Z.eqb_eq in E0. subst st1.
      rewrite bind_eq. session_cbn. rewrite Hcall, Hthis.
      repeat split; auto.
    + match goal with
      | |- OpenRun _ _ _ _ (OpenCandidates ?p _ _ _ _) =>
          destruct (IH p st1 sel m1) as
            [(failed & c' & enc' & Hlog & Hpre & Hall & Hres & Hs)
            |(failed & Hlog & Hpre & Hall & Hres & Hs)]
      end.
      * left. exists ((c, st1, enc) :: failed), c', enc'.
        rewrite Hlog, Hcall, <- app_assoc, Hs, Hthis.
        split; [reflexivity|].
        split; [cbn [map fst length firstn app]; f_equal; exact Hpre|].
        split; [constructor; [apply Z.eqb_neq; exact E0|exact Hall]|].
        split; [exact Hres|reflexivity].
      * right. exists ((c, st1, enc) :: failed).
        rewrite Hlog, Hcall, <- app_assoc, Hs, Hthis.
        split; [reflexivity|].
        split; [cbn [map fst]; f_equal; exact Hpre|].
        split; [constructor; [apply Z.eqb_neq; exact E0|exact Hall]|].
        split; [|reflexivity].
        rewrite Hres. cbn [map fst snd]. rewrite last_cons. reflexivity.
Qed.


(** Computations that make no call to the open-session entry point. *)
Lemma calls_update (g : FNVENCSession -> FNVENCSession) :
  preserves (fun m : Machine W => OpenSessionCalls (Log m)) (update g).
Proof. intros m. reflexivity. Qed.

Lemma calls_intern {A} (c : State (gmap Z FGuid) A) :
  preserves (fun m : Machine W => OpenSessionCalls (Log m)) (intern c).
Proof. intros m. unfold intern. destruct (c (Cache m)). reflexivity. Qed.

Lemma calls_call {A} (step : W -> A * W) (entry : A -> Call) :
  (forall a, OpenSessionCalls [entry a] = []) ->
  preserves (fun m : Machine W => OpenSessionCalls (Log m)) (call step entry).
Proof.
  intros Hentry m. rewrite call_log. unfold OpenSessionCalls.
  rewrite flat_map_app. fold (OpenSessionCalls [entry (fst (call step entry m))]).
  rewrite Hentry. apply app_nil_r.
Qed.

Ltac frame_calls :=
  repeat first
    [ progress intros
    | apply preserves_ret | apply preserves_this | apply preserves_peek
    | apply calls_update | apply calls_intern
    | apply calls_call; intros; reflexivity
    | apply preserves_bind
    | match goal with
      | |- preserves _ (fail _) => unfold fail
      | |- preserves _ (if ?b then _ else _) => destruct b
      | |- preserves _ (match ?x with _ => _ end) => destruct x
      | |- preserves _ (let (_, _) := ?x in _) => destruct x
      end
    | solve [eauto with frame] ].

Lemma TryTuningAttempts_calls enc codec preset ladder st cfg :
  preserves (fun m : Machine W => OpenSessionCalls (Log m))
    (TryTuningAttempts enc codec preset ladder st cfg).
Proof.
  revert st cfg. induction ladder as [|t rest IH]; intros st cfg;
    cbn [TryTuningAttempts]; frame_calls.
Qed.
#[local] Hint Resolve TryTuningAttempts_calls : frame.

Lemma QueryPreset_calls enc codec preset t out :
  preserves (fun m : Machine W => OpenSessionCalls (Log m))
    (QueryPreset enc codec preset t out).
Proof. unfold QueryPreset, QueryWithLadder. frame_calls. Qed.
#[local] Hint Resolve QueryPreset_calls : frame.

Lemma ValidatePresets_calls codec b presets st :
  preserves (fun m : Machine W => OpenSessionCalls (Log m))
    (ValidatePresets codec b presets st).
Proof.
  revert st. induction presets as [|vp rest IH]; intros st;
    cbn [ValidatePresets]; frame_calls.
Qed.
#[local] Hint Resolve ValidatePresets_calls : frame.

Lemma ValidatePresetConfiguration_calls codec b :
  preserves (fun m : Machine W => OpenSessionCalls (Log m))
    (ValidatePresetConfiguration codec b).
Proof. unfold ValidatePresetConfiguration, BuildValidationPresets. frame_calls. Qed.

Lemma NegotiateApiVersion_calls :
  preserves (fun m : Machine W => OpenSessionCalls (Log m)) NegotiateApiVersion.
Proof. unfold NegotiateApiVersion. frame_calls. Qed.

(** Validation changes the last-error text only. *)
Lemma ValidatePresets_keeps {X} (f : FNVENCSession -> X) codec b presets st :
  (forall e s, f (set_LastErrorMessage e s) = f s) ->
  preserves (fun m : Machine W => f (This m)) (ValidatePresets codec b presets st).
Proof.
  intros Hf. revert st. induction presets as [|vp rest IH]; intros st;
    cbn [ValidatePresets].
  - apply preserves_ret.
  - repeat first
      [ progress intros
      | apply preserves_ret | apply preserves_this
      | apply session_intern | apply QueryPreset_session
      | apply session_update; intros; apply Hf
      | apply IH
      | apply preserves_bind
      | match goal with
        | |- preserves _ (if ?b then _ else _) => destruct b
        | |- preserves _ (let (_, _) := ?x in _) => destruct x
        end ].
Qed.

Lemma ValidatePresetConfiguration_keeps {X} (f : FNVENCSession -> X) codec b :
  (forall e s, f (set_LastErrorMessage e s) = f s) ->
  preserves (fun m : Machine W => f (This m)) (ValidatePresetConfiguration codec b).
Proof.
  intros Hf. unfold ValidatePresetConfiguration, fail.
  repeat first
    [ progress intros
    | apply preserves_ret | apply preserves_this
    | apply session_intern | apply BuildValidationPresets_session
    | apply ValidatePresets_keeps; exact Hf
    | apply session_update; intros; apply Hf
    | apply preserves_bind
    | match goal with
      | |- preserves _ (if ?b then _ else _) => destruct b
      | |- preserves _ (let (_, _) := ?x in _) => destruct x
      end ].
Qed.


Ltac calls_of_call E F :=
  match type of E with
  | call ?stp ?entry ?mm = _ =>
      framed E (calls_call stp entry (fun _ => eq_refl)) F
  end.

Lemma OpenSessionCalls_app (l1 l2 : list Call) :
  OpenSessionCalls (l1 ++ l2) = OpenSessionCalls l1 ++ OpenSessionCalls l2.
Proof. apply flat_map_app. Qed.

Lemma OpenSessionCalls_attempts (tried : list (Z * Z * Z)) :
  OpenSessionCalls (OpenAttempts tried) = tried.
Proof.
  induction tried as [|[[t st] enc] tried IH]; [reflexivity|].
  cbn. f_equal. exact IH.
Qed.

Lemma OpenNegotiated_records codec dev h (m : Machine W) :
  fst (OpenNegotiated codec dev h m) = true ->
  exists (failed : list (Z * Z * Z)) (c enc : Z),
    OpenSessionCalls (Log (snd (OpenNegotiated codec dev h m)))
    = OpenSessionCalls (Log m) ++ failed ++ [(c, NV_ENC_SUCCESS, enc)]
    /\ map (fun a => fst (fst a)) failed ++ [c]
       = firstn (S (length failed)) (BuildCandidateTypes h)
    /\ Forall (fun a => snd (fst a) <> NV_ENC_SUCCESS) failed
    /\ DeviceType (This (snd (OpenNegotiated codec dev h m))) = c
    /\ Encoder (This (snd (OpenNegotiated codec dev h m))) = enc
    /\ enc <> nullptr
    /\ bIsOpen (This (snd (OpenNegotiated codec dev h m))) = true.
Proof.
  unfold OpenNegotiated.
  quiet_step. cbn [peek fst snd].
  destruct (negb (drvHasCreateInstance (Runtime m))); [discriminate|].
  do 3 quiet_step.
  step r1 m1 E1. destruct r1 as [st1 fl].
  calls_of_call E1 C1.
  quiet_step.
  destruct (negb (st1 =? NV_ENC_SUCCESS)); [discriminate|].
  quiet_step.
  destruct (negb (nvEncOpenEncodeSessionEx _)); [discriminate|].
  quiet_step.
  match goal with
  | |- context [bind (OpenCandidates ?p ?l ?st ?sel) _ ?mm] =>
      pose proof (OpenCandidates_run p l st sel mm) as Hrun;
      destruct (OpenCandidates p l st sel mm) as [[st2 sel2] m2] eqn:E2
  end.
  rewrite bind_eq, E2. session_cbn. quiet_step.
  destruct (Encoder (This m2) =? nullptr) eqn:Enull; [discriminate|].
  do 5 quiet_step.
  match goal with
  | |- context [bind (ValidatePresetConfiguration codec false) _ ?mm] =>
      pose proof (ValidatePresetConfiguration_calls codec false mm) as C3;
      pose proof (ValidatePresetConfiguration_keeps DeviceType codec false
                    (fun _ _ => eq_refl) mm) as K1;
      pose proof (ValidatePresetConfiguration_keeps Encoder codec false
                    (fun _ _ => eq_refl) mm) as K2;
      pose proof (ValidatePresetConfiguration_keeps bIsOpen codec false
                    (fun _ _ => eq_refl) mm) as K3;
      destruct (ValidatePresetConfiguration codec false mm) as [ok m3] eqn:E3
  end.
  rewrite bind_eq, E3. session_cbn.
  cbn [fst snd This Log DeviceType Encoder bIsOpen] in C3, K1, K2, K3.
  destruct ok; cbn [negb].
  2:{ rewrite bind_eq. cbn [ret fst snd]. discriminate. }
  intros _. cbn [ret fst snd].
  destruct Hrun as [(failed & c & enc & Hlog & Hpre & Hall & Hres & Hs)
                   |(failed & Hlog & Hpre & Hall & Hres & Hs)].
  - cbn [fst snd Log This] in Hlog, Hres, Hs.
    exists failed, c, enc.
    rewrite C3, K1, K2, K3, Hlog, OpenSessionCalls_app, OpenSessionCalls_attempts, C1.
    inversion Hres; subst st2 sel2.
    rewrite Hs in Enull. cbn [Encoder set_Encoder] in Enull.
    rewrite Hs.
    repeat split; auto.
    apply Z.eqb_neq. exact Enull.
  - cbn [fst snd Log This] in Hlog, Hres, Hs.
    rewrite Hs in Enull. cbn [Encoder set_Encoder] in Enull.
    rewrite Z.eqb_refl in Enull. discriminate.
Qed.

Lemma Destroy_calls :
  preserves (fun m : Machine W => OpenSessionCalls (Log m)) Destroy.
Proof. unfold Destroy. frame_calls. Qed.

(** The loop over the candidates and what follows it, for every outcome of
    the open-session calls. *)
Lemma OpenNegotiated_run codec dev h (m : Machine W) :
  drvHasCreateInstance (Runtime m) = true ->
  CreateInstanceStatus m = NV_ENC_SUCCESS ->
  nvEncOpenEncodeSessionEx (CreatedFunctions m) = true ->
  let r := OpenNegotiated codec dev h m in
  exists tried : list (Z * Z * Z),
    OpenSessionCalls (Log (snd r)) = OpenSessionCalls (Log m) ++ tried
    /\ ((exists (failed : list (Z * Z * Z)) (c enc : Z),
           tried = failed ++ [(c, NV_ENC_SUCCESS, enc)]
           /\ map (fun a => fst (fst a)) failed ++ [c]
              = firstn (S (length failed)) (BuildCandidateTypes h)
           /\ Forall (fun a => snd (fst a) <> NV_ENC_SUCCESS) failed
           /\ (enc = nullptr -> fst r = false)
           /\ (enc <> nullptr ->
               exists m3 : Machine W,
                 This m3 = OpenedSession codec dev c enc (CreatedFunctions m)
                             (This m)
                 /\ OpenSessionCalls (Log m3) = OpenSessionCalls (Log m) ++ tried
                 /\ fst r = fst (ValidatePresetConfiguration codec false m3)))
        \/ (map (fun a => fst (fst a)) tried = BuildCandidateTypes h
            /\ Forall (fun a => snd (fst a) <> NV_ENC_SUCCESS) tried
            /\ fst r = false
            /\ LastErrorMessage (This (snd r))
               = ("NvEncOpenEncodeSessionEx failed: "
                  ++ StatusToString
                       (List.last (map (fun a => snd (fst a)) tried)
                          NV_ENC_ERR_INVALID_PARAM))%string)).
Proof.
  intros Hci Hst Hfn r. subst r. unfold OpenNegotiated.
  quiet_step. cbn [peek fst snd]. rewrite Hci. cbn [negb].
  do 3 quiet_step.
  step r1 m1 E1. destruct r1 as [st1 fl].
  calls_of_call E1 C1.
  framed_call E1 (fun s : FNVENCSession => s) F1.
  assert (Hans : st1 = CreateInstanceStatus m /\ fl = CreatedFunctions m).
  { unfold call in E1. cbn [Runtime This FunctionList set_FunctionList] in E1.
    unfold CreateInstanceStatus, CreatedFunctions.
    destruct (drvCreateInstance _ (Runtime m)) as [[st' fl'] w'].
    injection E1 as <- <- _. split; reflexivity. }
  destruct Hans as (-> & ->).
  quiet_step. rewrite Hst, Z.eqb_refl. cbn [negb].
  quiet_step. rewrite Hfn. cbn [negb].
  quiet_step.
  match goal with
  | |- context [bind (OpenCandidates ?p ?l ?st ?sel) _ ?mm] =>
      pose proof (OpenCandidates_run p l st sel mm) as Hrun;
      destruct (OpenCandidates p l st sel mm) as [[st2 sel2] m2] eqn:E2
  end.
  rewrite bind_eq, E2. session_cbn. quiet_step.
  assert (Hcalls2 : forall tried,
            Log m2 = Log m1 ++ OpenAttempts tried ->
            OpenSessionCalls (Log m2) = OpenSessionCalls (Log m) ++ tried).
  { intros tried Hl. rewrite Hl, OpenSessionCalls_app,
      OpenSessionCalls_attempts, C1. reflexivity. }
  destruct Hrun as [(failed & c & enc & Hlog2 & Hpre & Hall & Hres & Hs)
                   |(failed & Hlog2 & Hpre & Hall & Hres & Hs)];
    cbn [fst snd Log This] in Hlog2, Hres, Hs.
  - exists (failed ++ [(c, NV_ENC_SUCCESS, enc)]).
    injection Hres as -> ->.
    rewrite Hs. cbn [Encoder set_Encoder].
    destruct (Z.eqb_spec enc nullptr) as [Hnull|Hnull].
    + cbn [fail update ret bind fst snd Log].
      split; [apply Hcalls2, Hlog2|].
      left. exists failed, c, enc.
      split; [reflexivity|]. split; [exact Hpre|]. split; [exact Hall|].
      split; [reflexivity|]. intros Hne. contradiction.
    + do 5 quiet_step.
      rewrite bind_eq.
      match goal with
      | |- context [ValidatePresetConfiguration codec false ?mm] =>
          pose proof (ValidatePresetConfiguration_calls codec false mm) as C3;
          set (m3 := mm) in *;
          destruct (ValidatePresetConfiguration codec false m3) as [ok m4] eqn:E3
      end.
      cbn [fst snd] in C3 |- *.
      assert (Hlog3 : OpenSessionCalls (Log m3)
                      = OpenSessionCalls (Log m) ++ failed ++ [(c, NV_ENC_SUCCESS, enc)]).
      { subst m3. cbn [Log]. apply Hcalls2, Hlog2. }
      assert (Hthis3 : This m3
                       = OpenedSession codec dev c enc (CreatedFunctions m) (This m)).
      { subst m3. cbn [This]. rewrite Hs. cbn [This]. rewrite F1.
        cbn [This]. destruct (This m). reflexivity. }
      assert (Hret : fst ((if negb ok then Destroy ;; ret false else ret true) m4)
                     = ok
                     /\ OpenSessionCalls
                          (Log (snd ((if negb ok then Destroy ;; ret false
                                      else ret true) m4)))
                        = OpenSessionCalls (Log m4)).
      { destruct ok; cbn [negb].
        - split; reflexivity.
        - rewrite bind_eq. cbn [ret fst snd]. split; [reflexivity|].
          apply Destroy_calls. }
      destruct Hret as (Hret & Hcalls4).
      split; [rewrite Hcalls4, C3; exact Hlog3|].
      left. exists failed, c, enc.
      split; [reflexivity|]. split; [exact Hpre|]. split; [exact Hall|].
      split; [intros Hne; contradiction|].
      intros _. exists m3. split; [exact Hthis3|]. split; [exact Hlog3|].
      rewrite E3. exact Hret.
  - exists failed. injection Hres as -> ->.
    rewrite Hs. cbn [Encoder set_Encoder]. rewrite Z.eqb_refl.
    cbn [fail update ret bind fst snd Log This LastErrorMessage
         set_LastErrorMessage].
    split; [apply Hcalls2, Hlog2|].
    right. split; [exact Hpre|]. split; [exact Hall|].
    split; reflexivity.
Qed.

(** C3, amended: the candidate list is de-duplicated and ordered, but the
    caller's hint is not always first: for the legacy DirectX tag and for the
    DirectX 11 tag alike it is the DirectX 11 tag followed by the legacy tag,
    and for any other hint it is the hint alone.  On a session that was not
    open, whenever [Open] gets as far as the candidates (a device, a loaded
    runtime, a version at or above the floor, an instance with the
    open-session entry point), it calls the open-session entry point for the
    candidates in list order, goes on after every failure and stops at the
    first success: either one call succeeded, after the failure of all
    candidates before it, or all candidates were tried and failed, and then
    [Open] returns false with the status of the last call in the error text.
    After a success with a non-null encoder [Open] returns what the preset
    validation returns on the session that records the device, the device
    type of that candidate and its encoder; and whenever [Open] returns
    true, the session records the device type and the (non-null) encoder of
    the candidate that succeeded. *)
Theorem Open_records_the_candidate_that_opened codec dev h (m : Machine W) :
  bIsOpen (This m) = false ->
  BuildCandidateTypes h
  = (if (h =? NV_ENC_DEVICE_TYPE_DIRECTX) || (h =? GetDirectX11DeviceType)
     then if NV_ENC_DEVICE_TYPE_DIRECTX =? GetDirectX11DeviceType
          then [GetDirectX11DeviceType]
          else [GetDirectX11DeviceType; NV_ENC_DEVICE_TYPE_DIRECTX]
     else [h])
  /\ (fst (Open codec dev h m) = true ->
      exists (failed : list (Z * Z * Z)) (c enc : Z),
        OpenSessionCalls (Log (snd (Open codec dev h m)))
        = OpenSessionCalls (Log m) ++ failed ++ [(c, NV_ENC_SUCCESS, enc)]
        /\ map (fun a => fst (fst a)) failed ++ [c]
           = firstn (S (length failed)) (BuildCandidateTypes h)
        /\ Forall (fun a => snd (fst a) <> NV_ENC_SUCCESS) failed
        /\ DeviceType (This (snd (Open codec dev h m))) = c
        /\ Encoder (This (snd (Open codec dev h m))) = enc
        /\ enc <> nullptr
        /\ bIsOpen (This (snd (Open codec dev h m))) = true)
  /\ (ReachesOpenSession dev m ->
      exists tried : list (Z * Z * Z),
        OpenSessionCalls (Log (snd (Open codec dev h m)))
        = OpenSessionCalls (Log m) ++ tried
        /\ ((exists (failed : list (Z * Z * Z)) (c enc : Z),
               tried = failed ++ [(c, NV_ENC_SUCCESS, enc)]
               /\ map (fun a => fst (fst a)) failed ++ [c]
                  = firstn (S (length failed)) (BuildCandidateTypes h)
               /\ Forall (fun a => snd (fst a) <> NV_ENC_SUCCESS) failed
               /\ (enc = nullptr -> fst (Open codec dev h m) = false)
               /\ (enc <> nullptr ->
                   exists m3 : Machine W,
                     This m3
                     = OpenedSession codec dev c enc
                         (CreatedFunctions (snd (Negotiated m)))
                         (This (snd (Negotiated m)))
                     /\ OpenSessionCalls (Log m3)
                        = OpenSessionCalls (Log m) ++ tried
                     /\ fst (Open codec dev h m)
                        = fst (ValidatePresetConfiguration codec false m3)))
            \/ (map (fun a => fst (fst a)) tried = BuildCandidateTypes h
                /\ Forall (fun a => snd (fst a) <> NV_ENC_SUCCESS) tried
                /\ fst (Open codec dev h m) = false
                /\ LastErrorMessage (This (snd (Open codec dev h m)))
                   = ("NvEncOpenEncodeSessionEx failed: "
                      ++ StatusToString
                           (List.last (map (fun a => snd (fst a)) tried)
                              NV_ENC_ERR_INVALID_PARAM))%string))).
Proof.
  intros Hclosed. split; [apply BuildCandidateTypes_shape|]. split.
  - unfold Open. quiet_step. quiet_step. rewrite Hclosed.
    destruct (dev =? nullptr); [discriminate|].
    step loaded m1 E1.
    calls_of_call E1 C1.
    destruct (negb loaded); [discriminate|].
    step v m2 E2.
    framed E2 NegotiateApiVersion_calls C2.
    destruct (IsVersionOlder v GetMinimumAPIVersion); [discriminate|].
    intros Hok.
    destruct (OpenNegotiated_records codec dev h m2 Hok)
      as (failed & c & enc & Hlog & Hrest).
    exists failed, c, enc. rewrite Hlog, C2, C1. exact (conj eq_refl Hrest).
  - unfold ReachesOpenSession, Negotiated, AtNegotiation. cbn [update snd].
    unfold Open. quiet_step. quiet_step. rewrite Hclosed.
    intros (Hdev & Hload & Hrest).
    apply Z.eqb_neq in Hdev. rewrite Hdev.
    match goal with
    | |- context [call ?s ?e ?mm] =>
        destruct (call_answer s e mm) as (Hans & _ & _)
    end.
    cbn [Runtime] in Hans. rewrite Hload in Hans.
    revert Hrest.
    step loaded m1 E1. cbn [fst] in Hans. subst loaded.
    calls_of_call E1 C1. cbn [negb].
    step v m2 E2.
    framed E2 NegotiateApiVersion_calls C2.
    cbn [fst snd]. intros (Hfloor & Hci & Hst & Hfn). rewrite Hfloor.
    destruct (OpenNegotiated_run codec dev h m2 Hci Hst Hfn)
      as (tried & Hlog & Hcases).
    exists tried. split; [rewrite Hlog, C2, C1; reflexivity|].
    destruct Hcases as [(failed & c & enc & Ht & Hpre & Hall & Hnull & Hval)
                       |Hfailed]; [left|right; exact Hfailed].
    exists failed, c, enc.
    split; [exact Ht|]. split; [exact Hpre|]. split; [exact Hall|].
    split; [exact Hnull|].
    intros Hne. destruct (Hval Hne) as (m3 & Hthis & Hlog3 & Hret).
    exists m3. split; [exact Hthis|]. split; [|exact Hret].
    rewrite Hlog3, C2, C1. reflexivity.
Qed.


(** *** The version floor *)

Lemma NegotiateApiVersion_yields (m : Machine W) :
  let r := NegotiateApiVersion m in
  (fst r = DecodeApiVersion NVENCAPI_VERSION
   /\ ApiVersion (This (snd r)) = NVENCAPI_VERSION)
  \/ (IsVersionOlder (fst r) (DecodeApiVersion NVENCAPI_VERSION) = true
      /\ (Major (fst r) <> 0 \/ Minor (fst r) <> 0)
      /\ ApiVersion (This (snd r)) = EncodeApiVersion (fst r)).
Proof.
  unfold NegotiateApiVersion. cbv zeta.
  quiet_step. quiet_step.
  destruct (negb (drvHasRuntimeHandle (Runtime m))); [left; split; reflexivity|].
  quiet_step.
  destruct (negb (drvHasMaxSupportedVersion (Runtime m)));
    [left; split; reflexivity|].
  step r1 m1 E1. destruct r1 as [st raw].
  framed_call E1 (fun s : FNVENCSession => s) F1.
  destruct ((st =? NV_ENC_SUCCESS) && negb (raw =? 0));
    [|left; split; [reflexivity|cbn; rewrite F1; reflexivity]].
  destruct (negb (Major (DecodeRuntimeVersion raw) =? 0)
            || negb (Minor (DecodeRuntimeVersion raw) =? 0)) eqn:Enz;
    [|left; split; [reflexivity|cbn; rewrite F1; reflexivity]].
  destruct (IsVersionOlder (DecodeRuntimeVersion raw)
              (DecodeApiVersion NVENCAPI_VERSION)) eqn:Eold;
    [|left; split; [reflexivity|cbn; rewrite F1; reflexivity]].
  right. quiet_step. split; [exact Eold|]. split; [|reflexivity].
  apply orb_true_iff in Enz. destruct Enz as [Hz|Hz];
    apply negb_true_iff, Z.eqb_neq in Hz; auto.
Qed.

(** C7: on a closed session, with a device and a loaded runtime, [Open]
    negotiates the version; when the negotiated version is older than the
    minimum, [Open] returns false and the session stays closed (not open, not
    initialised, no encoder), the only change being the last-error text;
    in every other outcome of the negotiation the floor check passes and
    [Open] goes on to create the instance. *)
Theorem Open_fails_closed_below_the_version_floor codec dev h (m : Machine W) :
  Closed (This m) ->
  dev <> nullptr ->
  fst (drvLoad (Runtime m)) = true ->
  let v := fst (Negotiated m) in
  let m2 := snd (Negotiated m) in
  (IsVersionOlder v GetMinimumAPIVersion = true ->
     fst (Open codec dev h m) = false
     /\ Closed (This (snd (Open codec dev h m)))
     /\ snd (Open codec dev h m) = WithLastError VersionTooOldMessage m2)
  /\ (IsVersionOlder v GetMinimumAPIVersion = false ->
      Open codec dev h m = OpenNegotiated codec dev h m2).
Proof.
  intros (Hopen & Hinit & Henc) Hdev Hload v m2.
  subst v m2. unfold Negotiated, AtNegotiation.
  unfold Open. quiet_step. quiet_step. rewrite Hopen.
  apply Z.eqb_neq in Hdev. rewrite Hdev.
  rewrite bind_eq.
  assert (Hloaded : fst (call drvLoad CallLoad
            (MkMachine (set_LastErrorMessage EmptyString (This m)) (Cache m) (Runtime m)
               (Log m))) = true).
  { unfold call. cbn [Runtime]. destruct (drvLoad (Runtime m)); exact Hload. }
  cbn [update snd]. rewrite Hloaded. cbn [negb].
  rewrite bind_eq.
  match goal with
  | |- context [NegotiateApiVersion ?mm] =>
      pose proof (NegotiateApiVersion_keeps bIsOpen (fun _ _ => eq_refl) mm) as K1;
      pose proof (NegotiateApiVersion_keeps bIsInitialised (fun _ _ => eq_refl) mm) as K2;
      pose proof (NegotiateApiVersion_keeps Encoder (fun _ _ => eq_refl) mm) as K3;
      pose proof (session_call (fun s : FNVENCSession => s) drvLoad CallLoad
                    (MkMachine (set_LastErrorMessage EmptyString (This m)) (Cache m)
                       (Runtime m) (Log m))) as K0;
      destruct (NegotiateApiVersion mm) as [v m2]
  end.
  cbn [fst snd This] in *.
  split; intros Hv; rewrite Hv; [|reflexivity].
  split; [reflexivity|]. split; [|reflexivity].
  unfold Closed. cbn. rewrite K1, K2, K3, K0. cbn.
  repeat split; assumption.
Qed.

(** *** Sequence parameters *)

Lemma length_WriteArray {A} (Buffer Written : list A) :
  length (WriteArray Buffer Written) = length Buffer.
Proof.
  unfold WriteArray. rewrite length_app, length_firstn, length_skipn. lia.
Qed.

Lemma length_SetNum {A} (Fill : A) (Buffer : list A) (n : nat) :
  length (SetNum Fill Buffer n) = n.
Proof.
  unfold SetNum. rewrite length_app, length_firstn, repeat_length. lia.
Qed.

(** C8, amended: [GetSequenceParams] calls the runtime with a buffer of 1024
    bytes.  If and only if that call returns success and reports a size above
    1024, it resizes the buffer to that size and calls once more, and never a
    third time.  It then succeeds exactly when the second call does, with as
    many bytes as the smaller of the two sizes reported.  Without a retry it
    succeeds exactly when the first call returned success with a size other
    than zero, with as many bytes as that size.  On failure the caller's
    array is left as it was.  The statuses and sizes are those the runtime
    answers; the sizes are taken to fit where the source puts them (the
    first one the array's signed 32-bit count). *)
Theorem GetSequenceParams_resizes_once (OutData : list Z) (m : Machine W) :
  bIsInitialised (This m) = true ->
  Encoder (This m) <> nullptr ->
  nvEncGetSequenceParams (FunctionList (This m)) = true ->
  ReportedSizesFit m ->
  let r := GetSequenceParams OutData m in
  let enc := Encoder (This m) in
  exists st1 sz1 : Z,
    (st1, sz1) = fst (fst (FirstSequenceCall m))
    /\ if (st1 =? NV_ENC_SUCCESS) && (1024 <? sz1)
       then exists st2 sz2 : Z,
              (st2, sz2) = fst (fst (RetrySequenceCall m))
              /\ Log (snd r) = Log m ++ [ CallGetSequenceParams enc 1024 st1 sz1;
                                          CallGetSequenceParams enc sz1 st2 sz2 ]
              /\ Runtime (snd r) = snd (RetrySequenceCall m)
              /\ fst (fst r) = (st2 =? NV_ENC_SUCCESS)
              /\ (if fst (fst r)
                  then Z.of_nat (length (snd (fst r))) = Z.min sz2 sz1
                  else snd (fst r) = OutData)
       else Log (snd r) = Log m ++ [CallGetSequenceParams enc 1024 st1 sz1]
            /\ Runtime (snd r) = snd (FirstSequenceCall m)
            /\ fst (fst r) = (st1 =? NV_ENC_SUCCESS) && negb (sz1 =? 0)
            /\ (if fst (fst r)
                then Z.of_nat (length (snd (fst r))) = sz1
                else snd (fst r) = OutData).
Proof.
  intros Hinit Henc Hfn (Hfit1 & Hfit2) r enc. subst r enc.
  unfold RetrySequenceCall in Hfit2 |- *. cbv zeta in Hfit2 |- *.
  unfold FirstSequenceCall in Hfit1, Hfit2 |- *.
  unfold GetSequenceParams. cbv zeta.
  quiet_step. rewrite Hinit, Hfn.
  apply Z.eqb_neq in Henc. rewrite Henc. cbn [negb orb].
  rewrite ?length_WriteArray, ?length_SetNum.
  change (Z.of_nat 1024) with 1024.
  rewrite bind_eq.
  match goal with
  | |- context [call ?s ?e m] =>
      pose proof (call_log s e m) as Hcall;
      destruct (call_answer s e m) as (Hans & Hrt & Hthis);
      destruct (call s e m) as [[[st1 sz1] wr1] m1]
  end.
  cbn [fst snd] in *.
  rewrite <- Hans in Hfit1, Hfit2 |- *. rewrite <- Hrt in Hfit2 |- *.
  cbn [fst snd] in Hfit1, Hfit2 |- *.
  exists st1, sz1. split; [reflexivity|].
  destruct (st1 =? NV_ENC_SUCCESS) eqn:E1; cbn [negb andb].
  2:{ cbn [ret fst snd]. rewrite Hcall.
      destruct (1024 <? sz1); repeat split; reflexivity. }
  destruct (Z.eqb_spec sz1 0) as [Hz|Hz]; cbn [negb].
  { subst sz1. cbn [ret fst snd]. rewrite Hcall. cbn. repeat split. }
  rewrite ?length_WriteArray, ?length_SetNum.
  change (Z.of_nat 1024) with 1024.
  destruct (Z.ltb_spec 1024 sz1) as [Hbig|Hsmall].
  - rewrite ?length_WriteArray, ?length_SetNum.
    rewrite Z2Nat.id by lia.
    rewrite bind_eq.
    match goal with
    | |- context [call ?s ?e m1] =>
        pose proof (call_log s e m1) as Hcall2;
        destruct (call_answer s e m1) as (Hans2 & Hrt2 & _);
        destruct (call s e m1) as [[[st2 sz2] wr2] m2]
    end.
    cbn [fst snd] in *.
    rewrite <- Hans2 in Hfit2 |- *. rewrite <- Hrt2.
    cbn [fst snd] in Hfit2 |- *.
    exists st2, sz2. split; [reflexivity|].
    rewrite ?length_WriteArray, ?length_SetNum.
    rewrite Z2Nat.id by lia.
    destruct (st2 =? NV_ENC_SUCCESS); cbn [negb ret fst snd];
      rewrite Hcall2, Hcall, <- app_assoc; repeat split.
    rewrite length_SetNum. apply Z2Nat.id. lia.
  - cbn [ret fst snd]. rewrite Hcall. repeat split.
    rewrite length_SetNum. apply Z2Nat.id. lia.
Qed.

(** *** Entry conditions *)

(** X11: [Open] on a session that is already open returns true and only
    clears the last-error text: the codec, the device and the device type it
    is given are ignored and the runtime is not called.  [Open] on a closed
    session with a null device returns false with the no-device text and does
    nothing else. *)
Theorem Open_needs_a_closed_session_and_a_device codec dev t (m : Machine W) :
  (bIsOpen (This m) = true ->
     Open codec dev t m = (true, WithLastError EmptyString m))
  /\ (bIsOpen (This m) = false -> dev = nullptr ->
      Open codec dev t m = (false, WithLastError NoDeviceMessage m)).
Proof.
  unfold Open. split.
  - intros Hopen. do 2 quiet_step. rewrite Hopen. reflexivity.
  - intros Hclosed ->. do 2 quiet_step. rewrite Hclosed. reflexivity.
Qed.

(** X12: [Flush] never changes the session.  When the session is
    initialised, the build has the flush entry point and the function table
    provides it, [Flush] calls it once with the session's encoder; otherwise
    it does nothing at all. *)
Theorem Flush_calls_the_runtime_at_most_once (m : Machine W) :
  let s := This m in
  if bIsInitialised s && UE_NVENC_HAS_FLUSH_FUNCTION
     && nvEncFlushEncoderQueue (FunctionList s)
  then This (snd (Flush m)) = s
       /\ Cache (snd (Flush m)) = Cache m
       /\ Runtime (snd (Flush m)) = snd (drvFlushEncoderQueue (Encoder s) (Runtime m))
       /\ Log (snd (Flush m))
          = Log m ++ [CallFlushEncoderQueue (Encoder s)
                        (fst (drvFlushEncoderQueue (Encoder s) (Runtime m)))]
  else Flush m = (tt, m).
Proof.
  intros s. subst s. unfold Flush. quiet_step.
  destruct (bIsInitialised (This m)); cbn [negb andb]; [|reflexivity].
  destruct UE_NVENC_HAS_FLUSH_FUNCTION; cbn [andb]; [|reflexivity].
  destruct (nvEncFlushEncoderQueue (FunctionList (This m))); [|reflexivity].
  rewrite bind_eq. unfold call.
  destruct (drvFlushEncoderQueue (Encoder (This m)) (Runtime m)) as [st w'].
  cbn. repeat split.
Qed.

(** X13: on a session that is not initialised, or has no encoder, or whose
    function table lacks the sequence-parameter entry, [GetSequenceParams]
    returns false, leaves the caller's array as it was and calls nothing. *)
Theorem GetSequenceParams_needs_an_initialised_encoder
    (OutData : list Z) (m : Machine W) :
  bIsInitialised (This m) = false \/ Encoder (This m) = nullptr
  \/ nvEncGetSequenceParams (FunctionList (This m)) = false ->
  GetSequenceParams OutData m = ((false, OutData), m).
Proof.
  intros Hpre. unfold GetSequenceParams. quiet_step.
  destruct (bIsInitialised (This m)) eqn:Hinit; cbn [negb orb]; [|reflexivity].
  destruct (Z.eqb_spec (Encoder (This m)) nullptr) as [Henc|Henc];
    [reflexivity|].
  destruct (nvEncGetSequenceParams (FunctionList (This m))) eqn:Hfn;
    cbn [negb]; [|reflexivity].
  destruct Hpre as [Hpre|[Hpre|Hpre]]; congruence.
Qed.

Lemma Destroy_call (m : Machine W) :
  bIsOpen (This m) = true ->
  let s := This m in
  if negb (Encoder s =? nullptr) && nvEncDestroyEncoder (FunctionList s)
  then Log (snd (Destroy m))
       = Log m ++ [CallDestroyEncoder (Encoder s)
                     (fst (drvDestroyEncoder (Encoder s) (Runtime m)))]
       /\ Runtime (snd (Destroy m)) = snd (drvDestroyEncoder (Encoder s) (Runtime m))
  else Log (snd (Destroy m)) = Log m /\ Runtime (snd (Destroy m)) = Runtime m.
Proof.
  intros Hopen s. subst s. unfold Destroy. run. rewrite Hopen. cbn [negb].
  destruct (negb (Encoder (This m) =? nullptr)
            && nvEncDestroyEncoder (FunctionList (This m))).
  - destruct (drvDestroyEncoder (Encoder (This m)) (Runtime m)). cbn. split; reflexivity.
  - cbn. split; reflexivity.
Qed.

(** X14: [Destroy] on an open session calls the runtime's destroy entry
    exactly once, with the session's encoder, when the encoder is not null
    and the function table provides the entry, and a second [Destroy] then
    does nothing; when the encoder is null or the entry is missing, [Destroy]
    makes no runtime call. *)
Theorem Destroy_releases_the_encoder_once (m : Machine W) :
  bIsOpen (This m) = true ->
  let s := This m in
  if negb (Encoder s =? nullptr) && nvEncDestroyEncoder (FunctionList s)
  then Log (snd (Destroy m))
       = Log m ++ [CallDestroyEncoder (Encoder s)
                     (fst (drvDestroyEncoder (Encoder s) (Runtime m)))]
       /\ Runtime (snd (Destroy m)) = snd (drvDestroyEncoder (Encoder s) (Runtime m))
       /\ Destroy (snd (Destroy m)) = (tt, snd (Destroy m))
  else Log (snd (Destroy m)) = Log m /\ Runtime (snd (Destroy m)) = Runtime m.
Proof.
  intros Hopen s. pose proof (Destroy_call m Hopen) as Hcall.
  cbv zeta in Hcall. subst s.
  destruct (negb (Encoder (This m) =? nullptr)
            && nvEncDestroyEncoder (FunctionList (This m))); [|exact Hcall].
  destruct Hcall as (Hlog & Hrt). split; [exact Hlog|]. split; [exact Hrt|].
  apply Destroy_not_open. rewrite (Destroy_open m Hopen). reflexivity.
Qed.

(** *** Open: the outcome *)

Lemma OpenNegotiated_outcome codec dev t (m : Machine W) :
  bIsOpen (This m) = false ->
  let r := OpenNegotiated codec dev t m in
  bIsOpen (This (snd r)) = fst r
  /\ (fst r = false ->
      bIsInitialised (This m) = false -> Encoder (This m) = nullptr ->
      bIsInitialised (This (snd r)) = false /\ Encoder (This (snd r)) = nullptr)
  /\ (fst r = true ->
      Device (This (snd r)) = dev
      /\ CurrentParameters (This (snd r))
         = set_Codec codec (CurrentParameters (This m))
      /\ bIsInitialised (This (snd r)) = bIsInitialised (This m)).
Proof.
  intros Hclosed r. subst r. unfold OpenNegotiated.
  quiet_step. cbn [peek fst snd].
  destruct (negb (drvHasCreateInstance (Runtime m))).
  { cbn. repeat split; auto; discriminate. }
  do 3 quiet_step.
  step r1 m1 E1. destruct r1 as [st1 fl].
  framed_call E1 (fun s : FNVENCSession => s) F1.
  quiet_step.
  destruct (negb (st1 =? NV_ENC_SUCCESS)).
  { cbn. rewrite F1. cbn. repeat split; auto; discriminate. }
  quiet_step.
  destruct (negb (nvEncOpenEncodeSessionEx _)).
  { cbn. rewrite F1. cbn. repeat split; auto; discriminate. }
  quiet_step.
  match goal with
  | |- context [bind (OpenCandidates ?p ?l ?st ?sel) _ ?mm] =>
      pose proof (OpenCandidates_keeps bIsOpen p l st sel
                    (fun _ _ => eq_refl) mm) as K1;
      pose proof (OpenCandidates_keeps bIsInitialised p l st sel
                    (fun _ _ => eq_refl) mm) as K2;
      pose proof (OpenCandidates_keeps CurrentParameters p l st sel
                    (fun _ _ => eq_refl) mm) as K3;
      destruct (OpenCandidates p l st sel mm) as [[st2 sel2] m2] eqn:E2
  end.
  rewrite bind_eq, E2. session_cbn. quiet_step.
  cbn [fst snd This bIsOpen bIsInitialised CurrentParameters set_Encoder
       set_FunctionList] in K1, K2, K3.
  rewrite F1 in K1, K2, K3. session_cbn. 
  cbn [bIsOpen bIsInitialised CurrentParameters set_FunctionList] in K1, K2, K3.
  destruct (Z.eqb_spec (Encoder (This m2)) nullptr) as [Henc|Henc].
  { cbn. rewrite K1, K2. repeat split; auto; discriminate. }
  do 5 quiet_step.
  match goal with
  | |- context [bind (ValidatePresetConfiguration codec false) _ ?mm] =>
      pose proof (ValidatePresetConfiguration_keeps (fun s => set_LastErrorMessage EmptyString s)
                    codec false (fun _ _ => eq_refl) mm) as V;
      destruct (ValidatePresetConfiguration codec false mm) as [ok m3] eqn:E3
  end.
  rewrite bind_eq, E3. session_cbn.
  cbn [fst snd This] in V.
  assert (Vopen : bIsOpen (This m3) = true).
  { change (bIsOpen (set_LastErrorMessage EmptyString (This m3)) = true).
    rewrite V. reflexivity. }
  assert (Vdev : Device (This m3) = dev).
  { change (Device (set_LastErrorMessage EmptyString (This m3)) = dev).
    rewrite V. reflexivity. }
  assert (Vpar : CurrentParameters (This m3)
                 = set_Codec codec (CurrentParameters (This m2))).
  { change (CurrentParameters (set_LastErrorMessage EmptyString (This m3))
            = set_Codec codec (CurrentParameters (This m2))).
    rewrite V. reflexivity. }
  assert (Vinit : bIsInitialised (This m3) = bIsInitialised (This m2)).
  { change (bIsInitialised (set_LastErrorMessage EmptyString (This m3))
            = bIsInitialised (This m2)).
    rewrite V. reflexivity. }
  destruct ok; cbn [negb].
  - cbn [ret fst snd]. split; [exact Vopen|]. split; [discriminate|].
    intros _. rewrite Vdev, Vpar, Vinit, K2, K3. repeat split.
  - rewrite bind_eq. cbn [ret fst snd].
    rewrite (Destroy_open m3 Vopen). cbn. repeat split; discriminate.
Qed.


Lemma Open_outcome codec dev t (m : Machine W) :
  bIsOpen (This m) = false ->
  let r := Open codec dev t m in
  bIsOpen (This (snd r)) = fst r
  /\ (fst r = false ->
      bIsInitialised (This m) = false -> Encoder (This m) = nullptr ->
      bIsInitialised (This (snd r)) = false /\ Encoder (This (snd r)) = nullptr)
  /\ (fst r = true ->
      Device (This (snd r)) = dev
      /\ CurrentParameters (This (snd r))
         = set_Codec codec (CurrentParameters (This m))
      /\ bIsInitialised (This (snd r)) = bIsInitialised (This m)).
Proof.
  intros Hclosed r. subst r. unfold Open.
  do 2 quiet_step. rewrite Hclosed.
  destruct (dev =? nullptr).
  { cbn. repeat split; auto; discriminate. }
  step loaded m1 E1.
  framed_call E1 (fun s : FNVENCSession => s) F1.
  destruct (negb loaded).
  { cbn. rewrite F1. cbn. repeat split; auto; discriminate. }
  step v m2 E2.
  framed E2 (NegotiateApiVersion_keeps
               (fun s => (bIsOpen s, bIsInitialised s, Encoder s,
                          CurrentParameters s))
               (fun _ _ => eq_refl)) F2.
  rewrite F1 in F2. cbn in F2. injection F2 as G1 G2 G3 G4.
  destruct (IsVersionOlder v GetMinimumAPIVersion).
  { cbn. rewrite G1, G2, G3. repeat split; auto; discriminate. }
  pose proof (OpenNegotiated_outcome codec dev t m2) as Hout.
  cbv zeta in Hout. rewrite G1, G2, G3, G4 in Hout.
  apply Hout. exact Hclosed.
Qed.

(** X15: what [Open] returns is the open flag it leaves: the session is open
    after [Open] exactly when [Open] returned true. *)
Theorem Open_returns_whether_the_session_is_open codec dev t (m : Machine W) :
  bIsOpen (This (snd (Open codec dev t m))) = fst (Open codec dev t m).
Proof.
  destruct (bIsOpen (This m)) eqn:Hopen.
  - unfold Open. do 2 quiet_step. rewrite Hopen. cbn. exact Hopen.
  - apply (Open_outcome codec dev t m Hopen).
Qed.

(** X16: on every failure path, not only below the version floor, [Open]
    started on a closed session leaves it closed: not open, not initialised,
    no encoder handle kept. *)
Theorem Open_failure_leaves_the_session_closed codec dev t (m : Machine W) :
  Closed (This m) ->
  fst (Open codec dev t m) = false ->
  Closed (This (snd (Open codec dev t m))).
Proof.
  intros (Hopen & Hinit & Henc) Hfail.
  destruct (Open_outcome codec dev t m Hopen) as (Hret & Hclosed & _).
  destruct (Hclosed Hfail Hinit Henc) as (Hi & He).
  unfold Closed. rewrite Hret, Hfail. auto.
Qed.

(** X17: when [Open] succeeds on a session that was not open, the device it
    was given was not null and is recorded, the codec is recorded in the
    current parameters and nothing else of them changes, and the initialised
    flag is as before. *)
Theorem Open_records_the_device_and_the_codec codec dev t (m : Machine W) :
  bIsOpen (This m) = false ->
  fst (Open codec dev t m) = true ->
  let s := This (snd (Open codec dev t m)) in
  Device s = dev /\ dev <> nullptr
  /\ CurrentParameters s = set_Codec codec (CurrentParameters (This m))
  /\ bIsInitialised s = bIsInitialised (This m).
Proof.
  intros Hopen Hok s. subst s.
  destruct (Open_outcome codec dev t m Hopen) as (_ & _ & Hrec).
  destruct (Hrec Hok) as (Hd & Hp & Hi).
  split; [exact Hd|]. split; [|split; assumption].
  intros ->. revert Hok. unfold Open. do 2 quiet_step. rewrite Hopen.
  cbn. discriminate.
Qed.


(** *** The negotiated version *)

(** X18: when the runtime reports a 32-bit version word, the version the
    negotiation returns is the one it stores in the session (encoded), it is
    never newer than the version the plugin was built against, and it is
    either that build version or the decoded version of the runtime. *)
Theorem negotiated_version_is_recorded_and_no_newer_than_build_and_runtime
    (m : Machine W) :
  IsU32 (snd (fst (drvGetMaxSupportedVersion (Runtime m)))) ->
  let r := NegotiateApiVersion m in
  let raw := snd (fst (drvGetMaxSupportedVersion (Runtime m))) in
  DecodeApiVersion (ApiVersion (This (snd r))) = fst r
  /\ IsVersionOlder (DecodeApiVersion NVENCAPI_VERSION) (fst r) = false
  /\ (fst r = DecodeApiVersion NVENCAPI_VERSION
      \/ fst r = DecodeRuntimeVersion raw).
Proof.
  intros Hraw r raw. subst r raw.
  assert (Hbuild : IsVersionOlder (DecodeApiVersion NVENCAPI_VERSION)
                     (DecodeApiVersion NVENCAPI_VERSION) = false)
    by (apply DefsLaws.IsVersionOlder_false; lia).
  unfold NegotiateApiVersion. cbv zeta.
  do 2 quiet_step.
  destruct (negb (drvHasRuntimeHandle (Runtime m))); [cbn; auto|].
  quiet_step.
  destruct (negb (drvHasMaxSupportedVersion (Runtime m))); [cbn; auto|].
  step r1 m1 E1. destruct r1 as [st raw].
  framed_call E1 (fun s : FNVENCSession => s) F1.
  assert (Eraw : snd (fst (drvGetMaxSupportedVersion (Runtime m))) = raw).
  { unfold call in E1. cbn [Runtime] in E1.
    destruct (drvGetMaxSupportedVersion (Runtime m)) as [[st' raw'] w'].
    injection E1 as _ <- _. reflexivity. }
  rewrite Eraw in *. clear Eraw.
  destruct ((st =? NV_ENC_SUCCESS) && negb (raw =? 0));
    [|cbn; rewrite F1; auto].
  destruct (negb (Major (DecodeRuntimeVersion raw) =? 0)
            || negb (Minor (DecodeRuntimeVersion raw) =? 0));
    [|cbn; rewrite F1; auto].
  destruct (IsVersionOlder (DecodeRuntimeVersion raw)
              (DecodeApiVersion NVENCAPI_VERSION)) eqn:Eold;
    [|cbn; rewrite F1; auto].
  quiet_step. cbn [ret fst snd].
  destruct (DefsLaws.DecodeRuntimeVersion_range raw Hraw) as (HM & Hm).
  split; [apply DefsLaws.DecodeApiVersion_EncodeApiVersion; assumption|].
  split; [|right; reflexivity].
  apply DefsLaws.IsVersionOlder_true in Eold. apply DefsLaws.IsVersionOlder_false. lia.
Qed.


(** *** The preset candidates of Initialize *)

Lemma GUID_eqb_eq (a b : GUID) : GUID_eqb a b = true <-> a = b.
Proof.
  destruct a as [a1 a2 a3 a4], b as [b1 b2 b3 b4]. unfold GUID_eqb.
  cbn [Data1 Data2 Data3 Data4].
  rewrite !andb_true_iff, !Z.eqb_eq, bool_decide_eq_true.
  split.
  - intros (((-> & ->) & ->) & ->). reflexivity.
  - intros Heq. injection Heq as -> -> -> ->. auto.
Qed.

Lemma existsb_cand_Guid (l : list FPresetCandidate) (g : GUID) :
  existsb (fun Existing => GUID_eqb (cand_Guid Existing) g) l = true
  <-> In g (map cand_Guid l).
Proof.
  rewrite existsb_exists, in_map_iff. split.
  - intros (c & Hc & Heq). apply GUID_eqb_eq in Heq. eauto.
  - intros (c & Heq & Hc). exists c. split; [exact Hc|].
    apply GUID_eqb_eq, Heq.
Qed.

Lemma AddCandidate_NoDup l g t d :
  NoDup (map cand_Guid l) ->
  NoDup (map cand_Guid (AddCandidate l g t d)).
Proof.
  intros Hnd. unfold AddCandidate.
  destruct (existsb _ l) eqn:Hex; [exact Hnd|].
  rewrite map_app. cbn [map cand_Guid].
  apply NoDup_app. split; [exact Hnd|]. split.
  - intros x Hx Hx'. apply list_elem_of_In in Hx.
    apply list_elem_of_singleton in Hx'. subst x.
    apply existsb_cand_Guid in Hx. congruence.
  - apply NoDup_singleton.
Qed.

Lemma FindCandidate_None l g i :
  FindCandidate l g i = None -> ~ In g (map cand_Guid l).
Proof.
  revert i. induction l as [|c l IH]; intros i; cbn [FindCandidate map].
  - intros _ [].
  - destruct (GUID_eqb (cand_Guid c) g) eqn:Heq; [discriminate|].
    intros Hnone [Hin|Hin].
    + apply GUID_eqb_eq in Hin. congruence.
    + exact (IH _ Hnone Hin).
Qed.

Lemma FindCandidate_Some l g i j :
  FindCandidate l g i = Some j ->
  (i <= j)%nat /\ exists c, l !! (j - i)%nat = Some c /\ cand_Guid c = g.
Proof.
  revert i. induction l as [|c l IH]; intros i; cbn [FindCandidate].
  - discriminate.
  - destruct (GUID_eqb (cand_Guid c) g) eqn:Heq.
    + intros Hj. injection Hj as <-. split; [lia|].
      exists c. rewrite Nat.sub_diag. split; [reflexivity|].
      apply GUID_eqb_eq, Heq.
    + intros Hj. destruct (IH _ Hj) as (Hle & c' & Hc' & Hg).
      split; [lia|]. exists c'. split; [|exact Hg].
      replace (j - i)%nat with (S (j - S i)) by lia. exact Hc'.
Qed.

Lemma map_alter_set_Tuning t i (l : list FPresetCandidate) :
  map cand_Guid (alter (set_Tuning t) i l) = map cand_Guid l.
Proof.
  revert i. induction l as [|c l IH]; intros [|i]; cbn; f_equal; auto.
Qed.

Lemma insert_swap_Permutation {A} (l : list A) (k : nat) (a b : A) :
  l !! k = Some b -> b :: <[k := a]> l ≡ₚ a :: l.
Proof.
  revert k. induction l as [|x l IH]; intros [|k] Hk; try discriminate.
  - injection Hk as ->. cbn. apply perm_swap.
  - cbn in Hk. cbn [list_insert insert]. 
    change (<[S k := a]> (x :: l)) with (x :: <[k := a]> l).
    etransitivity; [apply perm_swap|].
    etransitivity; [apply perm_skip, (IH k Hk)|]. apply perm_swap.
Qed.

Lemma Swap_head {A} (a : A) (l : list A) (k : nat) (b : A) :
  l !! k = Some b ->
  Swap (a :: l) 0 (S k) = b :: <[k := a]> l.
Proof.
  intros Hk. unfold Swap.
  change ((a :: l) !! 0%nat) with (Some a).
  change ((a :: l) !! S k) with (l !! k).
  rewrite Hk. reflexivity.
Qed.


Lemma PromoteRequestedPreset_spec
    (Parameters : FNVENCParameters) (l : list FPresetCandidate) (m : Machine W) :
  let req := PresetEnumToGuid (RequestedPreset Parameters) ZeroGUID m in
  let r := PromoteRequestedPreset Parameters l m in
  (fst (fst req) = true ->
   exists c rest,
     fst r = c :: rest
     /\ cand_Guid c = snd (fst req)
     /\ (ToNVTuning (RequestedTuning Parameters) <> NV_ENC_TUNING_INFO_UNDEFINED ->
         cand_Tuning c = ToNVTuning (RequestedTuning Parameters)))
  /\ (map cand_Guid (fst r) ≡ₚ map cand_Guid l
      \/ (map cand_Guid (fst r) = snd (fst req) :: map cand_Guid l
          /\ ~ In (snd (fst req)) (map cand_Guid l))).
Proof.
  intros req r. subst req r. unfold PromoteRequestedPreset.
  rewrite bind_eq.
  destruct (PresetEnumToGuid (RequestedPreset Parameters) ZeroGUID m)
    as [[has g] m1].
  cbn [fst snd].
  set (t := ToNVTuning (RequestedTuning Parameters)) in *.
  destruct has.
  2:{ split; [discriminate|]. left.
      destruct (negb _ && _); cbn [ret fst];
        [rewrite map_alter_set_Tuning|]; reflexivity. }
  destruct (FindCandidate l g 0) as [j|] eqn:Hfind.
  - destruct (FindCandidate_Some l g 0 j Hfind) as (_ & c0 & Hc0 & Hg).
    rewrite Nat.sub_0_r in Hc0.
    set (l' := if negb (bool_decide (t = NV_ENC_TUNING_INFO_UNDEFINED))
               then alter (set_Tuning t) j l else l).
    assert (Hmap : map cand_Guid l' = map cand_Guid l).
    { subst l'. destruct (negb _); [apply map_alter_set_Tuning|reflexivity]. }
    assert (Hl' : exists c1, l' !! j = Some c1 /\ cand_Guid c1 = g
                             /\ (t <> NV_ENC_TUNING_INFO_UNDEFINED ->
                                 cand_Tuning c1 = t)).
    { subst l'. destruct (bool_decide_reflect (t = NV_ENC_TUNING_INFO_UNDEFINED))
        as [Ht|Ht]; cbn [negb].
      - exists c0. split; [exact Hc0|]. split; [exact Hg|].
        intros Hn. contradiction.
      - exists (set_Tuning t c0). rewrite list_lookup_alter_eq, Hc0.
        split; [reflexivity|]. split; [exact Hg|]. reflexivity. }
    destruct Hl' as (c1 & Hc1 & Hg1 & Ht1).
    cbn [ret fst snd].
    destruct j as [|k]; cbn [Nat.eqb negb].
    + destruct l' as [|x rest]; [discriminate|]. injection Hc1 as ->.
      split; [intros _; exists c1, rest; auto|].
      left. rewrite <- Hmap. reflexivity.
    + destruct l' as [|a rest]; [discriminate|].
      change ((a :: rest) !! S k) with (rest !! k) in Hc1.
      rewrite (Swap_head a rest k c1 Hc1).
      split; [intros _; exists c1, (<[k := a]> rest); auto|].
      left. rewrite <- Hmap. cbn [map].
      apply (Permutation_map cand_Guid (l := c1 :: <[k:=a]> rest) (l' := a :: rest)).
      apply insert_swap_Permutation, Hc1.
  - rewrite bind_eq. cbn [ret fst snd].
    split.
    + intros _. eexists _, l. split; [reflexivity|].
      cbn [cand_Guid cand_Tuning]. auto.
    + right. cbn [map cand_Guid]. split; [reflexivity|].
      apply (FindCandidate_None l g 0 Hfind).
Qed.

(** X19: when the requested preset maps to a preset identifier,
    [Initialize]'s promotion step puts a candidate with that identifier at
    the head of the list, with the requested tuning unless that is automatic;
    the list is otherwise a rearrangement of the one before, or the one
    before with the new candidate in front. *)
Theorem requested_preset_is_tried_first
    (Parameters : FNVENCParameters) (l : list FPresetCandidate) (m : Machine W) :
  let req := PresetEnumToGuid (RequestedPreset Parameters) ZeroGUID m in
  let r := PromoteRequestedPreset Parameters l m in
  fst (fst req) = true ->
  exists c rest,
    fst r = c :: rest
    /\ cand_Guid c = snd (fst req)
    /\ (ToNVTuning (RequestedTuning Parameters) <> NV_ENC_TUNING_INFO_UNDEFINED ->
        cand_Tuning c = ToNVTuning (RequestedTuning Parameters))
    /\ (map cand_Guid (fst r) ≡ₚ map cand_Guid l
        \/ map cand_Guid (fst r) = snd (fst req) :: map cand_Guid l).
Proof.
  intros req r Hreq.
  destruct (PromoteRequestedPreset_spec Parameters l m) as (Hhead & Hguids).
  destruct (Hhead Hreq) as (c & rest & Hr & Hg & Ht).
  exists c, rest. split; [exact Hr|]. split; [exact Hg|]. split; [exact Ht|].
  destruct Hguids as [Hp|(Hc & _)]; [left; exact Hp|right; exact Hc].
Qed.

Lemma BuildPresetCandidates_NoDup (m : Machine W) :
  NoDup (map cand_Guid (fst (BuildPresetCandidates m))).
Proof.
  unfold BuildPresetCandidates. cbv zeta.
  rewrite !bind_eq. cbn [ret fst].
  repeat apply AddCandidate_NoDup. apply NoDup_nil_2.
Qed.

Lemma PromoteRequestedPreset_NoDup Parameters l (m : Machine W) :
  NoDup (map cand_Guid l) ->
  NoDup (map cand_Guid (fst (PromoteRequestedPreset Parameters l m))).
Proof.
  intros Hnd.
  destruct (PromoteRequestedPreset_spec Parameters l m) as (_ & [Hp|(Hc & Hin)]).
  - rewrite Hp. exact Hnd.
  - rewrite Hc. apply NoDup_cons_2; [|exact Hnd].
    rewrite list_elem_of_In. exact Hin.
Qed.

Lemma AddRuntimePresets_NoDup gs l (m : Machine W) :
  NoDup (map cand_Guid l) ->
  NoDup (map cand_Guid (fst (AddRuntimePresets gs l m))).
Proof.
  revert l m. induction gs as [|g gs IH]; intros l m Hnd;
    cbn [AddRuntimePresets].
  - exact Hnd.
  - rewrite bind_eq. apply IH, AddCandidate_NoDup, Hnd.
Qed.

Lemma AppendRuntimePresets_NoDup codec l (m : Machine W) :
  NoDup (map cand_Guid l) ->
  NoDup (map cand_Guid (fst (AppendRuntimePresets codec l m))).
Proof.
  intros Hnd. unfold AppendRuntimePresets. quiet_step.
  destruct (nvEncGetEncodePresetGUIDs _); [|exact Hnd].
  step r1 m1 E1. destruct r1 as [[st1 wr1] n1].
  destruct ((st1 =? NV_ENC_SUCCESS) && (0 <? n1)); [|exact Hnd].
  step r2 m2 E2. destruct r2 as [[st2 wr2] n2].
  destruct (st2 =? NV_ENC_SUCCESS); [|exact Hnd].
  apply AddRuntimePresets_NoDup, Hnd.
Qed.

Lemma AddCandidate_length l g t d :
  (1 <= length (AddCandidate l g t d))%nat
  /\ (length l <= length (AddCandidate l g t d))%nat.
Proof.
  unfold AddCandidate. destruct (existsb _ l) eqn:Hex.
  - split; [|lia]. destruct l; [discriminate|cbn; lia].
  - rewrite length_app. cbn. lia.
Qed.

Lemma BuildPresetCandidates_length (m : Machine W) :
  (1 <= length (fst (BuildPresetCandidates m)))%nat.
Proof.
  unfold BuildPresetCandidates. cbv zeta.
  rewrite !bind_eq. cbn [ret fst]. apply AddCandidate_length.
Qed.

Lemma PromoteRequestedPreset_length Parameters l (m : Machine W) :
  (length l <= length (fst (PromoteRequestedPreset Parameters l m)))%nat.
Proof.
  destruct (PromoteRequestedPreset_spec Parameters l m) as (_ & [Hp|(Hc & _)]).
  - apply Permutation_length in Hp. rewrite !length_map in Hp. lia.
  - apply (f_equal (@length GUID)) in Hc. cbn in Hc.
    rewrite !length_map in Hc. lia.
Qed.

Lemma AddRuntimePresets_length gs l (m : Machine W) :
  (length l <= length (fst (AddRuntimePresets gs l m)))%nat.
Proof.
  revert l m. induction gs as [|g gs IH]; intros l m;
    cbn [AddRuntimePresets].
  - cbn. lia.
  - rewrite bind_eq.
    match goal with
    | |- context [AddRuntimePresets gs ?l' ?m'] =>
        pose proof (IH l' m') as Hrec;
        pose proof (AddCandidate_length l g NV_ENC_TUNING_INFO_HIGH_QUALITY
                      (fst (intern (PresetGuidToString (FromWindowsGuid g)) m)))
          as (_ & Hadd)
    end.
    lia.
Qed.

Lemma AppendRuntimePresets_length codec l (m : Machine W) :
  (length l <= length (fst (AppendRuntimePresets codec l m)))%nat.
Proof.
  unfold AppendRuntimePresets. quiet_step.
  destruct (nvEncGetEncodePresetGUIDs _); [|cbn; lia].
  step r1 m1 E1. destruct r1 as [[st1 wr1] n1].
  destruct ((st1 =? NV_ENC_SUCCESS) && (0 <? n1)); [|cbn; lia].
  step r2 m2 E2. destruct r2 as [[st2 wr2] n2].
  destruct (st2 =? NV_ENC_SUCCESS); [|cbn; lia].
  apply AddRuntimePresets_length.
Qed.



(** *** Initialize: what it leaves *)

Lemma Initialize_outcome (p : FNVENCParameters) (m : Machine W) :
  let r := Initialize p m in
  (fst r = true ->
   bIsOpen (This m) = true /\ Encoder (This m) <> nullptr
   /\ exists (CodecGuid : GUID) (sel : FPresetCandidate) (cfg : NV_ENC_CONFIG),
     This (snd r)
     = set_bIsInitialised true
         (set_CurrentParameters
            (RealizedParameters p (snd (EffectiveFormat p))
               (FromWindowsGuid (cand_Guid sel))
               (FromNVTuning (cand_Tuning sel)))
            (set_InitializeParams
               (MkInitializeParams
                  (PatchStructVersion NV_ENC_INITIALIZE_PARAMS_VER
                     (ApiVersion (This m)))
                  CodecGuid (cand_Guid sel) (cand_Tuning sel)
                  (Width p) (Height p) (Width p) (Height p)
                  (if Framerate p =? 0 then 60 else Framerate p)
                  1 1 ToSessionEncodeConfig
                  (Width p) (Height p) (fst (EffectiveFormat p)) 0 0)
               (set_NvBufferFormat (fst (EffectiveFormat p))
                  (set_EncodeConfig
                     (DeriveEncodeConfig (ApiVersion (This m)) p cfg)
                     (set_LastErrorMessage EmptyString (This m)))))))
  /\ (fst r = false ->
      bIsInitialised (This (snd r)) = bIsInitialised (This m)
      /\ CurrentParameters (This (snd r)) = CurrentParameters (This m)).
Proof.
  intros r. subst r. unfold Initialize. quiet_step. quiet_step.
  destruct (bIsOpen (This m)) eqn:Hopen; cbn [negb orb];
    [|split; [discriminate|intros _; split; reflexivity]].
  destruct (Z.eqb_spec (Encoder (This m)) nullptr) as [Henc|Henc];
    [split; [discriminate|intros _; split; reflexivity]|].
  destruct (negb (nvEncGetEncodePresetConfig _));
    [split; [discriminate|intros _; split; reflexivity]|].
  destruct (negb (nvEncInitializeEncoder _));
    [split; [discriminate|intros _; split; reflexivity]|].
  step g m1 E1.
  framed E1 (session_intern (fun s : FNVENCSession => s)
               (CodecGuid (Codec p))) F1.
  step l2 m2 E2.
  framed E2 (BuildPresetCandidates_session (fun s : FNVENCSession => s)) F2.
  step l3 m3 E3.
  framed E3 (PromoteRequestedPreset_session (fun s : FNVENCSession => s) p l2) F3.
  step l4 m4 E4.
  framed E4 (AppendRuntimePresets_session (fun s : FNVENCSession => s)
               (ToWindowsGuid g) l3) F4.
  step r5 m5 E5. destruct r5 as [[idx cfg] st].
  framed E5 (SelectPreset_session (fun s : FNVENCSession => s)
               (ToWindowsGuid g) l4 0 ZeroPresetConfig NV_ENC_SUCCESS) F5.
  assert (G5 : This m5 = set_LastErrorMessage EmptyString (This m))
    by (rewrite F5, F4, F3, F2, F1; reflexivity).
  destruct (idx =? INDEX_NONE).
  { split; [destruct (st =? _); discriminate|]. intros _.
    destruct (st =? NV_ENC_ERR_INVALID_ENCODERDEVICE); cbn; rewrite G5;
      split; reflexivity. }
  step name m6 E6.
  framed E6 (CandidateName_session (fun s : FNVENCSession => s)
               (nth (Z.to_nat idx) l4
                  (MkPresetCandidate ZeroGUID NV_ENC_TUNING_INFO_HIGH_QUALITY
                     EmptyString))) F6.
  quiet_step. quiet_step.
  destruct (EffectiveFormat p) as [NvFormat Effective].
  quiet_step. quiet_step. quiet_step.
  step st7 m7 E7.
  framed_call E7 (fun s : FNVENCSession => s) F7.
  rewrite F6, G5 in F7. cbn in F7.
  destruct (negb (st7 =? NV_ENC_SUCCESS)).
  { split; [discriminate|]. intros _. cbn. rewrite F7. split; reflexivity. }
  split; [|discriminate]. intros _.
  split; [reflexivity|]. split; [exact Henc|].
  exists (ToWindowsGuid g),
    (nth (Z.to_nat idx) l4
       (MkPresetCandidate ZeroGUID NV_ENC_TUNING_INFO_HIGH_QUALITY EmptyString)),
    (presetCfg cfg).
  repeat quiet_step. cbn [ret fst snd This]. rewrite F7. reflexivity.
Qed.


Lemma Initialize_keeps {X} (f : FNVENCSession -> X) (p : FNVENCParameters) :
  (forall e s, f (set_LastErrorMessage e s) = f s) ->
  (forall v s, f (set_EncodeConfig v s) = f s) ->
  (forall v s, f (set_NvBufferFormat v s) = f s) ->
  (forall v s, f (set_InitializeParams v s) = f s) ->
  (forall v s, f (set_CurrentParameters v s) = f s) ->
  (forall v s, f (set_bIsInitialised v s) = f s) ->
  preserves (fun m : Machine W => f (This m)) (Initialize p).
Proof.
  intros K1 K2 K3 K4 K5 K6. unfold Initialize, fail.
  repeat first
    [ progress intros
    | apply preserves_ret | apply preserves_this
    | apply session_intern | apply session_call
    | apply BuildPresetCandidates_session
    | apply PromoteRequestedPreset_session
    | apply AppendRuntimePresets_session
    | apply SelectPreset_session
    | apply CandidateName_session
    | apply session_update; intros;
      first [apply K1 | apply K2 | apply K3 | apply K4 | apply K5 | apply K6]
    | apply preserves_bind
    | match goal with
      | |- preserves _ (if ?b then _ else _) => destruct b
      | |- preserves _ (let (_, _) := ?x in _) => destruct x
      end ].
Qed.


Lemma ToNVTuning_FromNVTuning (t : NV_ENC_TUNING_INFO) :
  ToNVTuning (FromNVTuning t) = t.
Proof. destruct t; reflexivity. Qed.



(** *** Reconfigure: what it changes *)

(** X24: [Reconfigure], whether it succeeds or fails, leaves the encoder,
    device, function table, version, flags, native buffer format and log
    context as they were, and never changes the codec, preset, tuning and
    frame rate of the initialisation parameters nor the profile and the
    codec-specific configuration (so not the IDR period).  When it succeeds
    it made exactly one runtime call, stored the new rate-control
    configuration and size, and took the caller's parameters, keeping the
    previous preset identifier when the caller's is invalid and the previous
    tuning when the caller's is automatic. *)
Theorem Reconfigure_keeps_preset_tuning_and_format
    (p : FNVENCParameters) (m : Machine W) :
  let r := Reconfigure p m in
  let s := This m in
  let s' := This (snd r) in
  (Encoder s' = Encoder s /\ Device s' = Device s
   /\ DeviceType s' = DeviceType s /\ FunctionList s' = FunctionList s
   /\ ApiVersion s' = ApiVersion s /\ bIsOpen s' = bIsOpen s
   /\ bIsInitialised s' = bIsInitialised s
   /\ NvBufferFormat s' = NvBufferFormat s /\ LogContext s' = LogContext s)
  /\ (encodeGUID (InitializeParams s') = encodeGUID (InitializeParams s)
      /\ presetGUID (InitializeParams s') = presetGUID (InitializeParams s)
      /\ tuningInfo (InitializeParams s') = tuningInfo (InitializeParams s)
      /\ frameRateNum (InitializeParams s') = frameRateNum (InitializeParams s)
      /\ frameRateDen (InitializeParams s') = frameRateDen (InitializeParams s)
      /\ profileGUID (EncodeConfig s') = profileGUID (EncodeConfig s)
      /\ h264Config (EncodeConfig s') = h264Config (EncodeConfig s)
      /\ hevcConfig (EncodeConfig s') = hevcConfig (EncodeConfig s))
  /\ (fst r = true ->
      bIsInitialised s = true
      /\ Log (snd r) = Log m ++ [CallReconfigureEncoder (Encoder s) NV_ENC_SUCCESS]
      /\ EncodeConfig s' = ReconfiguredConfig (EncodeConfig s) p
      /\ encodeWidth (InitializeParams s') = Width p
      /\ encodeHeight (InitializeParams s') = Height p
      /\ bufferFormat (InitializeParams s') = NvBufferFormat s
      /\ CurrentParameters s' = ReconfiguredParameters (CurrentParameters s) p
      /\ ActivePresetGuid (CurrentParameters s')
         = (if FGuid_IsValid (ActivePresetGuid p) then ActivePresetGuid p
            else ActivePresetGuid (CurrentParameters s))
      /\ ActiveTuning (CurrentParameters s')
         = match ActiveTuning p with
           | Tuning_Automatic => ActiveTuning (CurrentParameters s)
           | t => t
           end).
Proof.
  intros r s s'. subst r s s'. unfold Reconfigure. do 2 quiet_step.
  destruct (bIsInitialised (This m)) eqn:Hinit; cbn [negb].
  2:{ cbn. rewrite Hinit. repeat split; discriminate. }
  destruct (nvEncReconfigureEncoder (FunctionList (This m))); cbn [negb].
  2:{ cbn. rewrite Hinit. repeat split; discriminate. }
  rewrite bind_eq.
  match goal with
  | |- context [call ?stp ?e ?mm] =>
      pose proof (call_log stp e mm) as Hlog;
      pose proof (session_call (fun x : FNVENCSession => x) stp e mm) as Hs;
      destruct (call stp e mm) as [st m1]
  end.
  cbn [fst snd This Log] in Hlog, Hs. cbn [fst snd].
  destruct (Z.eqb_spec st NV_ENC_SUCCESS) as [->|Hst]; cbn [negb].
  - repeat quiet_step. cbn [ret fst snd This Log]. rewrite Hs, Hlog.
    session_cbn. rewrite Hinit.
    unfold ReconfiguredParameters, RealizedParameters.
    cbn. destruct (FGuid_IsValid (ActivePresetGuid p)); repeat split.
  - cbn. rewrite Hs. cbn. rewrite Hinit. repeat split; discriminate.
Qed.

(** *** The two scans and the other failure statuses *)

(** X25: for the statuses other than invalid-encoder-device the two scans
    behave as follows.  The validation scan goes on to the next candidate
    after invalid-parameter and unsupported-parameter (and
    invalid-encoder-device) and stops at the first candidate that fails with
    any other status; the selection scan of [Initialize] goes on to the next
    candidate after every failure other than invalid-encoder-device. *)
Theorem validation_stops_at_other_failures_and_selection_goes_on
    (codec : GUID) (m : Machine W) :
  (forall b vp rest st0,
     let one := ValidatePresets codec b [vp] st0 m in
     fst (fst one) = false ->
     if SoftValidation (snd (fst one))
     then ValidatePresets codec b (vp :: rest) st0 m
          = ValidatePresets codec b rest (snd (fst one)) (snd one)
     else ValidatePresets codec b (vp :: rest) st0 m = one)
  /\ (forall c rest idx cfg st0,
       let one := SelectPreset codec [c] idx cfg st0 m in
       let st := snd (fst one) in
       st <> NV_ENC_SUCCESS -> st <> NV_ENC_ERR_INVALID_ENCODERDEVICE ->
       SelectPreset codec (c :: rest) idx cfg st0 m
       = SelectPreset codec rest (idx + 1) (snd (fst (fst one))) st (snd one)).
Proof.
  split.
  - intros b vp rest st0 one Hno.
    rewrite ValidatePresets_cons. fold one. cbv zeta. rewrite Hno.
    destruct (SoftValidation (snd (fst one))); reflexivity.
  - intros c rest idx cfg st0 one st Hs Hd.
    rewrite SelectPreset_cons. fold one. cbv zeta. fold st.
    apply Z.eqb_neq in Hs, Hd. rewrite Hs, Hd. reflexivity.
Qed.

(** *** The log context *)

(** X26: the log context label is never empty: an empty stored or given
    context reads as the default label, any other context reads as itself,
    and [SetLogContext] changes nothing but the stored context. *)
Theorem log_context_label_is_never_empty (c : string) (s : FNVENCSession) :
  GetLogContextLabel s <> EmptyString
  /\ LogContext (SetLogContext c s) <> EmptyString
  /\ GetLogContextLabel (SetLogContext c s)
     = (if IsEmpty c then "NVENC session"%string else c)
  /\ SetLogContext c s = set_LogContext (LogContext (SetLogContext c s)) s.
Proof.
  unfold GetLogContextLabel, SetLogContext.
  split; [destruct (LogContext s); cbn; discriminate|].
  destruct c; cbn; repeat split; discriminate.
Qed.

(** *** The device-type candidate array *)

(** X27: [TryAddCandidate] only ever appends: it keeps a duplicate-free
    array duplicate-free, the candidate is in the array afterwards whenever
    fewer than four entries were in use, and an array with four entries in
    use is left as it is, so the four-entry array is never overrun. *)
Theorem TryAddCandidate_is_a_bounded_insertion (l : list Z) (c : Z) :
  (NoDup l -> NoDup (TryAddCandidate l c))
  /\ (exists tail, TryAddCandidate l c = l ++ tail)
  /\ (length l < 4 -> In c (TryAddCandidate l c))%nat
  /\ (4 <= length l -> TryAddCandidate l c = l)%nat
  /\ (length (TryAddCandidate l c) <= Nat.max 4 (length l))%nat.
Proof.
  unfold TryAddCandidate.
  destruct (existsb (fun x => x =? c) l) eqn:Hex.
  - apply existsb_exists in Hex. destruct Hex as (x & Hx & Heq).
    apply Z.eqb_eq in Heq. subst x.
    split; [auto|]. split; [exists []; symmetry; apply app_nil_r|].
    split; [auto|]. split; [auto|]. lia.
  - destruct (Z.ltb_spec (Z.of_nat (length l)) 4) as [Hlt|Hge].
    + split.
      { intros Hnd. apply NoDup_app. split; [exact Hnd|].
        split; [|apply NoDup_singleton].
        intros x Hx Hx'. apply list_elem_of_singleton in Hx'. subst x.
        apply list_elem_of_In in Hx.
        assert (Htrue : existsb (fun x => x =? c) l = true)
          by (apply existsb_exists; exists c; split;
              [exact Hx|apply Z.eqb_refl]).
        congruence. }
      split; [exists [c]; reflexivity|].
      split; [intros _; apply in_or_app; right; left; reflexivity|].
      split; [lia|]. rewrite length_app. cbn. lia.
    + split; [auto|]. split; [exists []; symmetry; apply app_nil_r|].
      split; [lia|]. split; [auto|]. lia.
Qed.

(** *** Validation: what it calls *)

Lemma log_intern {A} (c : State (gmap Z FGuid) A) :
  preserves (fun m : Machine W => Log m) (intern c).
Proof. intros m. unfold intern. destruct (c (Cache m)). reflexivity. Qed.

Lemma log_update (g : FNVENCSession -> FNVENCSession) :
  preserves (fun m : Machine W => Log m) (update g).
Proof. intros m. reflexivity. Qed.

Lemma BuildValidationPresets_log :
  preserves (fun m : Machine W => Log m) BuildValidationPresets.
Proof.
  unfold BuildValidationPresets.
  repeat first [ progress intros | apply preserves_ret | apply log_intern
               | apply preserves_bind ].
Qed.

Lemma QueryPreset_queries enc codec preset t out (m : Machine W) :
  exists new,
    Log (snd (QueryPreset enc codec preset t out m)) = Log m ++ new
    /\ Forall (PresetQueryWith [enc]) new.
Proof.
  destruct (QueryWithLadder_run (ValidationTuningAttempts t) enc codec preset
              out m) as (st0 & tried & Hlog & _).
  unfold QueryPreset. rewrite Hlog. eexists. split; [reflexivity|].
  constructor; [left; reflexivity|].
  unfold ExtendedQueries. apply Forall_map, Forall_forall.
  intros x _. left. reflexivity.
Qed.

Lemma PresetQueryWith_mono (hs hs' : list Z) (c : Call) :
  incl hs hs' -> PresetQueryWith hs c -> PresetQueryWith hs' c.
Proof. intros Hincl. destruct c; cbn; auto. Qed.

Lemma ValidatePresets_queries codec b presets st (m : Machine W) :
  exists new,
    Log (snd (ValidatePresets codec b presets st m)) = Log m ++ new
    /\ Forall (PresetQueryWith
                 (if b then [Encoder (This m); nullptr] else [Encoder (This m)]))
         new.
Proof.
  revert st m. induction presets as [|vp rest IH]; intros st m;
    cbn [ValidatePresets].
  - exists []. cbn. rewrite app_nil_r. split; [reflexivity|constructor].
  - step name m1 E1.
    assert (F1 : This m1 = This m /\ Log m1 = Log m).
    { destruct (negb (IsEmpty (vp_FriendlyName vp))).
      - inversion E1; split; reflexivity.
      - split.
        + framed E1 (session_intern (fun s : FNVENCSession => s)
                       (PresetGuidToString (FromWindowsGuid (vp_Guid vp)))) F.
          exact F.
        + framed E1 (log_intern
                       (PresetGuidToString (FromWindowsGuid (vp_Guid vp)))) F.
          exact F. }
    destruct F1 as (F1 & L1).
    quiet_step.
    match goal with
    | |- context [bind (QueryPreset ?e ?c ?g ?t ?o) _ ?mm] =>
        destruct (QueryPreset_queries e c g t o mm) as (new2 & L2 & Q2);
        pose proof (QueryPreset_session (fun s : FNVENCSession => s)
                      e c g t o mm) as F2;
        destruct (QueryPreset e c g t o mm) as [[st1 cfg1] m2] eqn:E2
    end.
    rewrite bind_eq, E2. session_cbn. cbn [fst snd This Log] in L2, F2.
    step r3 m3 E3. destruct r3 as [st2 cfg2].
    assert (F3 : This m3 = This m2
                 /\ exists new3, Log m3 = Log m2 ++ new3
                    /\ Forall (PresetQueryWith (if b then [nullptr] else [])) new3).
    { destruct b; cbn [andb] in E3.
      - destruct (negb (st1 =? NV_ENC_SUCCESS) && true && _).
        + match type of E3 with
          | QueryPreset ?e ?c ?g ?t ?o ?mm = _ =>
              destruct (QueryPreset_queries e c g t o mm) as (new3 & L3 & Q3);
              pose proof (QueryPreset_session (fun s : FNVENCSession => s)
                            e c g t o mm) as F3
          end.
          rewrite E3 in L3, F3. cbn [fst snd This Log] in L3, F3.
          split; [exact F3|]. exists new3. split; assumption.
        + inversion E3. split; [reflexivity|]. exists [].
          rewrite app_nil_r. split; [reflexivity|constructor].
      - rewrite andb_false_r in E3. cbn [andb] in E3.
        inversion E3. split; [reflexivity|]. exists [].
        rewrite app_nil_r. split; [reflexivity|constructor]. }
    destruct F3 as (F3 & new3 & L3 & Q3).
    assert (Henc : Encoder (This m3) = Encoder (This m))
      by (rewrite F3, F2, F1; reflexivity).
    assert (Hhere : Log m3 = Log m ++ (new2 ++ new3)
                    /\ Forall (PresetQueryWith
                                 (if b then [Encoder (This m); nullptr]
                                  else [Encoder (This m)])) (new2 ++ new3)).
    { split; [rewrite L3, L2, L1, <- !app_assoc; reflexivity|].
      apply Forall_app. split.
      - eapply Forall_impl; [exact Q2|]. intros c. apply PresetQueryWith_mono.
        rewrite F1. destruct b; intros x [<-|[]]; cbn; auto.
      - eapply Forall_impl; [exact Q3|]. intros c. apply PresetQueryWith_mono.
        destruct b; intros x Hx; cbn in *; tauto. }
    destruct Hhere as (Lhere & Qhere).
    assert (Hrec : forall mm stt, This mm = set_LastErrorMessage EmptyString (This m3) ->
              Log mm = Log m3 ->
              exists new,
                Log (snd (ValidatePresets codec b rest stt mm)) = Log m ++ new
                /\ Forall (PresetQueryWith
                             (if b then [Encoder (This m); nullptr]
                              else [Encoder (This m)])) new).
    { intros mm stt Hthis Hlog.
      destruct (IH stt mm) as (new4 & L4 & Q4).
      exists ((new2 ++ new3) ++ new4).
      rewrite L4, Hlog, Lhere. split; [rewrite <- !app_assoc; reflexivity|].
      apply Forall_app. split; [exact Qhere|].
      rewrite Hthis in Q4. cbn [Encoder set_LastErrorMessage] in Q4.
      rewrite Henc in Q4. exact Q4. }
    destruct (st2 =? NV_ENC_SUCCESS).
    { cbn [ret fst snd]. eauto. }
    destruct ((st2 =? NV_ENC_ERR_INVALID_PARAM)
              || (st2 =? NV_ENC_ERR_UNSUPPORTED_PARAM)).
    { quiet_step. apply Hrec; reflexivity. }
    destruct (st2 =? NV_ENC_ERR_INVALID_ENCODERDEVICE).
    { quiet_step. apply Hrec; reflexivity. }
    cbn [ret fst snd]. eauto.
Qed.

Lemma session_up_to_the_error_text (s s' : FNVENCSession) :
  set_LastErrorMessage EmptyString s' = set_LastErrorMessage EmptyString s ->
  s' = set_LastErrorMessage (LastErrorMessage s') s.
Proof.
  destruct s, s'. unfold set_LastErrorMessage. cbn.
  intros Heq. injection Heq as -> -> -> -> -> -> -> -> -> -> -> ->.
  reflexivity.
Qed.

(** X28: [ValidatePresetConfiguration] changes nothing of the session but
    the last-error text, and the only runtime calls it makes are
    preset-configuration queries with the session's encoder handle (or, when
    the null-encoder fallback is allowed, with a null handle).  On a session
    that is not open, has no encoder or lacks the query entry it fails
    without any call. *)
Theorem validation_only_queries_presets_with_the_session_encoder
    (codec : ENVENCCodec) (b : bool) (m : Machine W) :
  let r := ValidatePresetConfiguration codec b m in
  This (snd r) = set_LastErrorMessage (LastErrorMessage (This (snd r))) (This m)
  /\ (exists new,
        Log (snd r) = Log m ++ new
        /\ Forall (PresetQueryWith
                     (if b then [Encoder (This m); nullptr]
                      else [Encoder (This m)])) new)
  /\ (bIsOpen (This m) = false \/ Encoder (This m) = nullptr
      \/ nvEncGetEncodePresetConfig (FunctionList (This m)) = false ->
      fst r = false /\ Log (snd r) = Log m /\ Runtime (snd r) = Runtime m
      /\ Cache (snd r) = Cache m).
Proof.
  intros r. subst r. split.
  { apply session_up_to_the_error_text.
    apply (ValidatePresetConfiguration_keeps
             (fun s => set_LastErrorMessage EmptyString s) codec b
             (fun _ _ => eq_refl) m). }
  unfold ValidatePresetConfiguration. do 2 quiet_step.
  assert (Hnone : exists new : list Call,
            Log m = Log m ++ new
            /\ Forall (PresetQueryWith
                         (if b then [Encoder (This m); nullptr]
                          else [Encoder (This m)])) new).
  { exists []. rewrite app_nil_r. split; [reflexivity|constructor]. }
  destruct (bIsOpen (This m)) eqn:Hopen; cbn [negb orb];
    [|split; [exact Hnone|intros _; repeat split]].
  destruct (Z.eqb_spec (Encoder (This m)) nullptr) as [Henc|Henc];
    [split; [exact Hnone|intros _; repeat split]|].
  destruct (nvEncGetEncodePresetConfig (FunctionList (This m))) eqn:Hfn;
    cbn [negb]; [|split; [exact Hnone|intros _; repeat split]].
  split; [|intros [Hp|[Hp|Hp]]; congruence].
  step g m1 E1.
  framed E1 (session_intern (fun s : FNVENCSession => s) (CodecGuid codec)) F1.
  framed E1 (log_intern (CodecGuid codec)) L1.
  step vps m2 E2.
  framed E2 (BuildValidationPresets_session (fun s : FNVENCSession => s)) F2.
  framed E2 BuildValidationPresets_log L2.
  match goal with
  | |- context [bind (ValidatePresets ?c ?bb ?l ?st) _ ?mm] =>
      destruct (ValidatePresets_queries c bb l st mm) as (new & L3 & Q3);
      destruct (ValidatePresets c bb l st mm) as [[ok st3] m3] eqn:E3
  end.
  rewrite bind_eq, E3. cbn [fst snd] in L3 |- *.
  rewrite F2, F1 in Q3. cbn [Encoder set_LastErrorMessage] in Q3.
  rewrite L2, L1 in L3. cbn [Log] in L3.
  exists new. split; [|exact Q3].
  destruct ok; cbn [negb]; [exact L3|].
  destruct (st3 =? NV_ENC_ERR_INVALID_ENCODERDEVICE); exact L3.
Qed.

(** *** The selection scan: the index it returns *)

Lemma SelectPreset_one codec c idx cfg st0 (m : Machine W) :
  let one := SelectPreset codec [c] idx cfg st0 m in
  if snd (fst one) =? NV_ENC_SUCCESS
  then fst (fst (fst one)) = idx
  else fst (fst (fst one)) = INDEX_NONE.
Proof.
  cbn [SelectPreset]. cbv zeta.
  run_at m r1 m1. destruct r1 as [st1 cfg1]. session_cbn.
  run_at m1 r2 m2. destruct r2 as [st2 cfg2]. session_cbn.
  destruct (st2 =? NV_ENC_SUCCESS) eqn:E0.
  { session_cbn. rewrite E0. reflexivity. }
  run_at m2 name m3.
  destruct (st2 =? NV_ENC_ERR_INVALID_ENCODERDEVICE); session_cbn;
    rewrite E0; reflexivity.
Qed.

(** X29: the selection scan of [Initialize] over a non-empty candidate list
    either ends with a success status and the index of a candidate of the
    list, or with a failure status and no index. *)
Theorem SelectPreset_selects_a_valid_index_or_none
    (codec : GUID) (l : list FPresetCandidate) (idx0 : Z)
    (cfg : NV_ENC_PRESET_CONFIG) (st0 : Z) (m : Machine W) :
  0 <= idx0 -> l <> [] ->
  let r := fst (SelectPreset codec l idx0 cfg st0 m) in
  let idx := fst (fst r) in
  let st := snd r in
  (idx = INDEX_NONE /\ st <> NV_ENC_SUCCESS)
  \/ (idx0 <= idx < idx0 + Z.of_nat (length l) /\ st = NV_ENC_SUCCESS).
Proof.
  intros Hidx Hne. revert idx0 cfg st0 m Hidx.
  induction l as [|c rest IH]; [contradiction|].
  intros idx0 cfg st0 m Hidx. cbv zeta.
  rewrite SelectPreset_cons. cbv zeta.
  pose proof (SelectPreset_one codec c idx0 cfg st0 m) as Hone.
  cbv zeta in Hone.
  destruct (SelectPreset codec [c] idx0 cfg st0 m) as [[[i1 cfg1] st1] m1].
  cbn [fst snd] in *.
  destruct (Z.eqb_spec st1 NV_ENC_SUCCESS) as [Hs|Hs]; cbn [orb].
  - right. cbn [fst snd]. split; [|exact Hs].
    rewrite Hone. cbn [length]. lia.
  - destruct (Z.eqb_spec st1 NV_ENC_ERR_INVALID_ENCODERDEVICE) as [Hd|Hd].
    + left. cbn [fst snd]. split; assumption.
    + destruct rest as [|c' rest'].
      * left. cbn [SelectPreset ret fst snd]. split; [reflexivity|exact Hs].
      * destruct (IH ltac:(discriminate) (idx0 + 1) cfg1 st1 m1 ltac:(lia))
          as [(Hi & Hst)|(Hi & Hst)].
        -- left. split; assumption.
        -- right. split; [|exact Hst].
           change (length (c :: c' :: rest')) with (S (length (c' :: rest'))).
           lia.
Qed.

(** *** Open: the encoder it opened and could not validate *)

Lemma app_more_absurd {A} (l k : list A) (x : A) : l = l ++ k ++ [x] -> False.
Proof.
  intros Heq. apply (f_equal (@length A)) in Heq.
  rewrite !length_app in Heq. cbn in Heq. lia.
Qed.

Lemma OpenNegotiated_releases codec dev h (m : Machine W) :
  nvEncDestroyEncoder (CreatedFunctions m) = true ->
  fst (OpenNegotiated codec dev h m) = false ->
  forall failed c enc,
    OpenSessionCalls (Log (snd (OpenNegotiated codec dev h m)))
    = OpenSessionCalls (Log m) ++ failed ++ [(c, NV_ENC_SUCCESS, enc)] ->
    enc <> nullptr ->
    exists before st,
      Log (snd (OpenNegotiated codec dev h m))
      = before ++ [CallDestroyEncoder enc st].
Proof.
  intros Hdestroy. unfold OpenNegotiated.
  quiet_step. cbn [peek fst snd].
  destruct (negb (drvHasCreateInstance (Runtime m))).
  { intros _ failed c enc Hlog _. cbn in Hlog.
    destruct (app_more_absurd _ _ _ Hlog). }
  do 3 quiet_step.
  step r1 m1 E1. destruct r1 as [st1 fl].
  calls_of_call E1 C1.
  assert (Hfl : fl = CreatedFunctions m).
  { unfold call in E1. cbn [Runtime This FunctionList set_FunctionList] in E1.
    unfold CreatedFunctions.
    destruct (drvCreateInstance _ (Runtime m)) as [[st' fl'] w'].
    injection E1 as _ <- _. reflexivity. }
  quiet_step.
  destruct (negb (st1 =? NV_ENC_SUCCESS)).
  { intros _ failed c enc Hlog _.
    cbn [fail update ret bind fst snd Log] in Hlog. rewrite C1 in Hlog.
    destruct (app_more_absurd _ _ _ Hlog). }
  quiet_step.
  destruct (negb (nvEncOpenEncodeSessionEx _)).
  { intros _ failed c enc Hlog _.
    cbn [fail update ret bind fst snd Log] in Hlog. rewrite C1 in Hlog.
    destruct (app_more_absurd _ _ _ Hlog). }
  quiet_step.
  match goal with
  | |- context [bind (OpenCandidates ?p ?l ?st ?sel) _ ?mm] =>
      pose proof (OpenCandidates_run p l st sel mm) as Hrun;
      destruct (OpenCandidates p l st sel mm) as [[st2 sel2] m2] eqn:E2
  end.
  rewrite bind_eq, E2. session_cbn. quiet_step.
  assert (Hcalls2 : forall tried,
            Log m2 = Log m1 ++ OpenAttempts tried ->
            OpenSessionCalls (Log m2) = OpenSessionCalls (Log m) ++ tried).
  { intros tried Hl. rewrite Hl, OpenSessionCalls_app,
      OpenSessionCalls_attempts, C1. reflexivity. }
  destruct Hrun as [(failed' & c' & enc' & Hlog2 & _ & _ & _ & Hs)
                   |(failed' & Hlog2 & _ & Hall & _ & Hs)];
    cbn [fst snd Log This] in Hlog2, Hs.
  2:{ rewrite Hs. cbn [Encoder set_Encoder]. rewrite Z.eqb_refl.
      intros _ failed c enc Hlog _. cbn [fail update ret bind fst snd Log] in Hlog.
      rewrite (Hcalls2 _ Hlog2) in Hlog. apply app_inv_head in Hlog.
      subst failed'. apply Forall_app in Hall. destruct Hall as (_ & Hlast).
      apply Forall_inv in Hlast. cbn in Hlast. congruence. }
  rewrite Hs. cbn [Encoder set_Encoder].
  destruct (Z.eqb_spec enc' nullptr) as [Hnull|Hnull].
  { intros _ failed c enc Hlog Henc. cbn [fail update ret bind fst snd Log] in Hlog.
    rewrite (Hcalls2 _ Hlog2) in Hlog. apply app_inv_head in Hlog.
    apply app_inj_tail in Hlog. destruct Hlog as (_ & Heq).
    injection Heq as _ <-. contradiction. }
  do 5 quiet_step.
  match goal with
  | |- context [bind (ValidatePresetConfiguration codec false) _ ?mm] =>
      pose proof (ValidatePresetConfiguration_calls codec false mm) as C3;
      pose proof (ValidatePresetConfiguration_keeps
                    (fun s => (bIsOpen s, Encoder s, FunctionList s))
                    codec false (fun _ _ => eq_refl) mm) as K;
      destruct (ValidatePresetConfiguration codec false mm) as [ok m3] eqn:E3
  end.
  rewrite bind_eq, E3. session_cbn.
  cbn [fst snd This Log bIsOpen Encoder FunctionList set_LastErrorMessage
       set_bIsOpen set_CurrentParameters set_DeviceType set_Device set_Encoder
       set_FunctionList] in C3, K.
  injection K as K1 K2 K3.
  destruct ok; cbn [negb]; [discriminate|].
  intros _ failed c enc Hlog Henc.
  rewrite bind_eq in Hlog |- *. cbn [ret fst snd] in Hlog |- *.
  pose proof (Destroy_call m3 K1) as Hd. cbv zeta in Hd.
  rewrite Hs in K2, K3.
  cbn [Encoder FunctionList set_Encoder set_FunctionList] in K2, K3.
  rewrite K2, K3, Hfl, Hdestroy in Hd.
  apply Z.eqb_neq in Hnull. rewrite Hnull in Hd. cbn [negb andb] in Hd.
  destruct Hd as (Hd & _).
  rewrite Hd in Hlog |- *.
  rewrite OpenSessionCalls_app, C3, (Hcalls2 _ Hlog2) in Hlog.
  cbn [OpenSessionCalls flat_map app] in Hlog. rewrite app_nil_r in Hlog.
  apply app_inv_head, app_inj_tail in Hlog. destruct Hlog as (_ & Heq).
  injection Heq as _ ->. eauto.
Qed.

(** X30: when [Open] returns false after one of its open-session calls had
    succeeded with a non-null encoder handle (the preset validation that
    follows failed), and the function table the runtime filled in provides
    the destroy entry, the last runtime call of [Open] is the destruction of
    that encoder: the handle is released, not leaked. *)
Theorem Open_releases_the_encoder_it_cannot_validate codec dev h (m : Machine W) :
  nvEncDestroyEncoder (CreatedFunctions (snd (Negotiated m))) = true ->
  fst (Open codec dev h m) = false ->
  forall failed c enc,
    OpenSessionCalls (Log (snd (Open codec dev h m)))
    = OpenSessionCalls (Log m) ++ failed ++ [(c, NV_ENC_SUCCESS, enc)] ->
    enc <> nullptr ->
    exists before st,
      Log (snd (Open codec dev h m)) = before ++ [CallDestroyEncoder enc st].
Proof.
  unfold Negotiated, AtNegotiation. cbn [update snd].
  unfold Open. do 2 quiet_step.
  destruct (bIsOpen (This m)); [intros _; discriminate|].
  destruct (dev =? nullptr).
  { intros _ _ failed c enc Hlog _.
    cbn [fail update ret bind fst snd Log] in Hlog.
    destruct (app_more_absurd _ _ _ Hlog). }
  step loaded m1 E1.
  calls_of_call E1 C1.
  destruct (negb loaded).
  { intros _ _ failed c enc Hlog _.
    cbn [fail update ret bind fst snd Log] in Hlog. rewrite C1 in Hlog.
    destruct (app_more_absurd _ _ _ Hlog). }
  step v m2 E2.
  framed E2 NegotiateApiVersion_calls C2.
  destruct (IsVersionOlder v GetMinimumAPIVersion).
  { intros _ _ failed c enc Hlog _.
    cbn [fail update ret bind fst snd Log] in Hlog. rewrite C2, C1 in Hlog.
    destruct (app_more_absurd _ _ _ Hlog). }
  intros Hdestroy Hfail failed c enc Hlog Henc.
  apply (OpenNegotiated_releases codec dev h m2 Hdestroy Hfail failed c enc);
    [|exact Henc].
  rewrite Hlog, C2, C1. reflexivity.
Qed.


End Facts.
End SessionFacts.

(** ** The theorems at work on the scripted runtime *)

Module Runs.
Import Defs Session Spec Example SessionFacts.

(** *** Destroy (C9) *)

Lemma Destroy_idempotent_resets_witness :
  Destroy (Boot Accepting) = (tt, Boot Accepting)
  /\ (let s := This (snd (Destroy (Opened (WithDestroy NV_ENC_ERR_INVALID_PARAM)))) in
      Encoder s = nullptr /\ Device s = nullptr
      /\ bIsOpen s = false /\ bIsInitialised s = false
      /\ FunctionList s = ZeroFunctionList
      /\ CurrentParameters s = DefaultParameters
      /\ ApiVersion s = NVENCAPI_VERSION
      /\ s = Destroyed (This (Opened (WithDestroy NV_ENC_ERR_INVALID_PARAM)))).
Proof.
  split.
  - apply (proj1 (Destroy_idempotent_resets (Boot Accepting))). reflexivity.
  - apply (proj2 (proj2 (Destroy_idempotent_resets
                           (Opened (WithDestroy NV_ENC_ERR_INVALID_PARAM))))).
    reflexivity.
Defined.

(** *** Reconfigure (C6) *)

Lemma Reconfigure_failure_leaves_state_witness :
  (fst (Reconfigure ExampleParameters (Boot Accepting)) = false
   /\ snd (Reconfigure ExampleParameters (Boot Accepting))
      = WithLastError NotInitialisedMessage (Boot Accepting))
  /\ (let m := Initialized (WithReconfigure NV_ENC_ERR_INVALID_PARAM) in
      let r := Reconfigure ExampleParameters m in
      EncodeConfig (This (snd r)) = EncodeConfig (This m)
      /\ InitializeParams (This (snd r)) = InitializeParams (This m)
      /\ CurrentParameters (This (snd r)) = CurrentParameters (This m)
      /\ NvBufferFormat (This (snd r)) = NvBufferFormat (This m))
  /\ (let m := Initialized (WithReconfigure NV_ENC_ERR_INVALID_PARAM) in
      let r := Reconfigure HevcTenBit m in
      fst r = false
      /\ This (snd r)
         = set_LastErrorMessage
             "NvEncReconfigureEncoder failed: NV_ENC_ERR_INVALID_PARAM" (This m)
      /\ EncodeConfig (This (snd r)) = EncodeConfig (This m)
      /\ InitializeParams (This (snd r)) = InitializeParams (This m)
      /\ CurrentParameters (This (snd r)) = CurrentParameters (This m)
      /\ NvBufferFormat (This (snd r)) = NvBufferFormat (This m)).
Proof.
  split; [|split].
  - apply (proj1 (Reconfigure_failure_leaves_state ExampleParameters
                    (Boot Accepting))).
    reflexivity.
  - apply (proj1 (proj2 (Reconfigure_failure_leaves_state ExampleParameters
                    (Initialized (WithReconfigure NV_ENC_ERR_INVALID_PARAM))))).
    vm_compute. reflexivity.
  - intros m r.
    assert (Hinit : bIsInitialised (This m) = true) by (vm_compute; reflexivity).
    assert (Hfn : nvEncReconfigureEncoder (FunctionList (This m)) = true)
      by (vm_compute; reflexivity).
    destruct (proj2 (proj2 (Reconfigure_failure_leaves_state HevcTenBit m))
                Hinit Hfn) as (_ & _ & _ & Failing).
    apply Failing. discriminate.
Defined.

(** *** The two preset scans (C1) *)



(** *** The tuning ladders (C4) *)

(** C4, as stated, fails in both paths.  With every query failing, the
    initialization path tries, for a candidate that prefers lossless,
    high-quality before low-latency; the validation path tries undefined
    last, and a second time when undefined was the preferred tuning. *)
Lemma tuning_ladders_differ_from_the_stated_order :
  let m := Opened RejectsEveryPreset in
  ExtendedQueryTunings
    (Log (snd (QueryPresetConfig 7 NV_ENC_CODEC_H264_GUID
                 (MkPresetCandidate NV_ENC_PRESET_P7_GUID
                    NV_ENC_TUNING_INFO_LOSSLESS "NV_ENC_PRESET_P7")
                 ZeroPresetConfig m)))
  = [ NV_ENC_TUNING_INFO_LOSSLESS; NV_ENC_TUNING_INFO_UNDEFINED;
      NV_ENC_TUNING_INFO_HIGH_QUALITY; NV_ENC_TUNING_INFO_LOW_LATENCY;
      NV_ENC_TUNING_INFO_ULTRA_LOW_LATENCY ]
  /\ SpecTuningLadder NV_ENC_TUNING_INFO_LOSSLESS
     = [ NV_ENC_TUNING_INFO_LOSSLESS; NV_ENC_TUNING_INFO_UNDEFINED;
         NV_ENC_TUNING_INFO_LOW_LATENCY; NV_ENC_TUNING_INFO_HIGH_QUALITY;
         NV_ENC_TUNING_INFO_ULTRA_LOW_LATENCY ]
  /\ InitializeTuningAttempts NV_ENC_TUNING_INFO_LOSSLESS
     <> SpecTuningLadder NV_ENC_TUNING_INFO_LOSSLESS
  /\ ExtendedQueryTunings
       (Log (snd (QueryPreset 7 NV_ENC_CODEC_H264_GUID NV_ENC_PRESET_DEFAULT_GUID
                    NV_ENC_TUNING_INFO_UNDEFINED ZeroPresetConfig m)))
     = [ NV_ENC_TUNING_INFO_UNDEFINED; NV_ENC_TUNING_INFO_LOW_LATENCY;
         NV_ENC_TUNING_INFO_HIGH_QUALITY; NV_ENC_TUNING_INFO_ULTRA_LOW_LATENCY;
         NV_ENC_TUNING_INFO_LOSSLESS; NV_ENC_TUNING_INFO_UNDEFINED ]
  /\ ValidationTuningAttempts NV_ENC_TUNING_INFO_UNDEFINED
     <> SpecTuningLadder NV_ENC_TUNING_INFO_UNDEFINED.
Proof. vm_compute. repeat split; discriminate. Qed.

(** *** The device-type candidates (C3) *)

Lemma Open_records_the_candidate_that_opened_witness :
  (ReachesOpenSession 1 (Boot OnlyLegacyDirectX)
   /\ fst (Open H264 1 GetDirectX11DeviceType (Boot OnlyLegacyDirectX)) = true
   /\ (exists (failed : list (Z * Z * Z)) (c enc : Z),
        OpenSessionCalls (Log (snd (Open H264 1 GetDirectX11DeviceType (Boot OnlyLegacyDirectX))))
        = OpenSessionCalls (Log (Boot OnlyLegacyDirectX)) ++ failed ++ [(c, NV_ENC_SUCCESS, enc)]
        /\ map (fun a => fst (fst a)) failed ++ [c]
           = firstn (S (length failed)) (BuildCandidateTypes GetDirectX11DeviceType)
        /\ Forall (fun a => snd (fst a) <> NV_ENC_SUCCESS) failed
        /\ DeviceType (This (snd (Open H264 1 GetDirectX11DeviceType (Boot OnlyLegacyDirectX)))) = c
        /\ Encoder (This (snd (Open H264 1 GetDirectX11DeviceType (Boot OnlyLegacyDirectX)))) = enc
        /\ enc <> nullptr
        /\ bIsOpen (This (snd (Open H264 1 GetDirectX11DeviceType (Boot OnlyLegacyDirectX)))) = true)
   /\ (exists tried : list (Z * Z * Z),
        OpenSessionCalls (Log (snd (Open H264 1 GetDirectX11DeviceType (Boot OnlyLegacyDirectX))))
        = OpenSessionCalls (Log (Boot OnlyLegacyDirectX)) ++ tried
        /\ ((exists (failed : list (Z * Z * Z)) (c enc : Z),
               tried = failed ++ [(c, NV_ENC_SUCCESS, enc)]
               /\ map (fun a => fst (fst a)) failed ++ [c]
                  = firstn (S (length failed)) (BuildCandidateTypes GetDirectX11DeviceType)
               /\ Forall (fun a => snd (fst a) <> NV_ENC_SUCCESS) failed
               /\ (enc = nullptr -> fst (Open H264 1 GetDirectX11DeviceType (Boot OnlyLegacyDirectX)) = false)
               /\ (enc <> nullptr ->
                   exists m3 : Machine Script,
                     This m3
                     = OpenedSession H264 1 c enc
                         (CreatedFunctions (snd (Negotiated (Boot OnlyLegacyDirectX))))
                         (This (snd (Negotiated (Boot OnlyLegacyDirectX))))
                     /\ OpenSessionCalls (Log m3)
                        = OpenSessionCalls (Log (Boot OnlyLegacyDirectX)) ++ tried
                     /\ fst (Open H264 1 GetDirectX11DeviceType (Boot OnlyLegacyDirectX))
                        = fst (ValidatePresetConfiguration H264 false m3)))
            \/ (map (fun a => fst (fst a)) tried = BuildCandidateTypes GetDirectX11DeviceType
                /\ Forall (fun a => snd (fst a) <> NV_ENC_SUCCESS) tried
                /\ fst (Open H264 1 GetDirectX11DeviceType (Boot OnlyLegacyDirectX)) = false
                /\ LastErrorMessage (This (snd (Open H264 1 GetDirectX11DeviceType (Boot OnlyLegacyDirectX))))
                   = ("NvEncOpenEncodeSessionEx failed: "
                      ++ StatusToString
                           (List.last (map (fun a => snd (fst a)) tried)
                              NV_ENC_ERR_INVALID_PARAM))%string))))
  /\ (ReachesOpenSession 1 (Boot RefusesEveryDeviceType)
      /\ (exists tried : list (Z * Z * Z),
        OpenSessionCalls (Log (snd (Open H264 1 GetDirectX11DeviceType (Boot RefusesEveryDeviceType))))
        = OpenSessionCalls (Log (Boot RefusesEveryDeviceType)) ++ tried
        /\ ((exists (failed : list (Z * Z * Z)) (c enc : Z),
               tried = failed ++ [(c, NV_ENC_SUCCESS, enc)]
               /\ map (fun a => fst (fst a)) failed ++ [c]
                  = firstn (S (length failed)) (BuildCandidateTypes GetDirectX11DeviceType)
               /\ Forall (fun a => snd (fst a) <> NV_ENC_SUCCESS) failed
               /\ (enc = nullptr -> fst (Open H264 1 GetDirectX11DeviceType (Boot RefusesEveryDeviceType)) = false)
               /\ (enc <> nullptr ->
                   exists m3 : Machine Script,
                     This m3
                     = OpenedSession H264 1 c enc
                         (CreatedFunctions (snd (Negotiated (Boot RefusesEveryDeviceType))))
                         (This (snd (Negotiated (Boot RefusesEveryDeviceType))))
                     /\ OpenSessionCalls (Log m3)
                        = OpenSessionCalls (Log (Boot RefusesEveryDeviceType)) ++ tried
                     /\ fst (Open H264 1 GetDirectX11DeviceType (Boot RefusesEveryDeviceType))
                        = fst (ValidatePresetConfiguration H264 false m3)))
            \/ (map (fun a => fst (fst a)) tried = BuildCandidateTypes GetDirectX11DeviceType
                /\ Forall (fun a => snd (fst a) <> NV_ENC_SUCCESS) tried
                /\ fst (Open H264 1 GetDirectX11DeviceType (Boot RefusesEveryDeviceType)) = false
                /\ LastErrorMessage (This (snd (Open H264 1 GetDirectX11DeviceType (Boot RefusesEveryDeviceType))))
                   = ("NvEncOpenEncodeSessionEx failed: "
                      ++ StatusToString
                           (List.last (map (fun a => snd (fst a)) tried)
                              NV_ENC_ERR_INVALID_PARAM))%string)))).
Proof.
  assert (Reaches : forall w : Script,
            sc_Load w = true -> sc_MaxSupportedVersion w = None ->
            nvEncOpenEncodeSessionEx (sc_Functions w) = true ->
            ReachesOpenSession 1 (Boot w)).
  { intros w Hload Hmax Hfn.
    unfold ReachesOpenSession, Negotiated, AtNegotiation, NegotiateApiVersion,
      CreateInstanceStatus, CreatedFunctions.
    cbn. rewrite Hload, Hmax. cbn. rewrite Hfn.
    repeat split. discriminate. }
  split.
  - pose proof (Reaches OnlyLegacyDirectX eq_refl eq_refl eq_refl) as Hreach.
    assert (Hok : fst (Open H264 1 GetDirectX11DeviceType (Boot OnlyLegacyDirectX))
                  = true) by (vm_compute; reflexivity).
    split; [exact Hreach|]. split; [exact Hok|].
    destruct (Open_records_the_candidate_that_opened H264 1
                GetDirectX11DeviceType (Boot OnlyLegacyDirectX) eq_refl)
      as (_ & Recorded & Run).
    split; [exact (Recorded Hok) | exact (Run Hreach)].
  - pose proof (Reaches RefusesEveryDeviceType eq_refl eq_refl eq_refl) as Hreach.
    split; [exact Hreach|].
    exact (proj2 (proj2 (Open_records_the_candidate_that_opened H264 1
                           GetDirectX11DeviceType (Boot RefusesEveryDeviceType)
                           eq_refl)) Hreach).
Defined.

(** The scenario of the specification: the hint is the DirectX 11 tag, the
    runtime opens a session for the legacy tag only; [Open] succeeds on the
    second attempt and records the legacy tag. *)
Example Open_with_the_alternate_tag :
  let r := Open H264 1 GetDirectX11DeviceType (Boot OnlyLegacyDirectX) in
  fst r = true
  /\ OpenSessionCalls (Log (snd r))
     = [ (GetDirectX11DeviceType, 4, nullptr);
         (NV_ENC_DEVICE_TYPE_DIRECTX, NV_ENC_SUCCESS, 7) ]
  /\ DeviceType (This (snd r)) = NV_ENC_DEVICE_TYPE_DIRECTX.
Proof. vm_compute. repeat split. Qed.

(** When no candidate opens a session, both candidates are tried, in order,
    before [Open] gives up with the status of the last attempt. *)
Example Open_tries_every_candidate_before_giving_up :
  let r := Open H264 1 GetDirectX11DeviceType (Boot RefusesEveryDeviceType) in
  fst r = false
  /\ OpenSessionCalls (Log (snd r))
     = [ (GetDirectX11DeviceType, 4, nullptr);
         (NV_ENC_DEVICE_TYPE_DIRECTX, 4, nullptr) ]
  /\ LastErrorMessage (This (snd r))
     = "NvEncOpenEncodeSessionEx failed: NV_ENC_ERR_INVALID_DEVICE"%string.
Proof. vm_compute. repeat split. Qed.

(** C3, as stated, fails: with the legacy DirectX tag as the hint, on a
    runtime that accepts every device type, the first candidate is the
    DirectX 11 tag, not the hint; [Open] opens with it, never tries the hint,
    and records the DirectX 11 tag. *)
Lemma the_hint_is_not_always_the_first_candidate :
  let r := Open H264 1 NV_ENC_DEVICE_TYPE_DIRECTX (Boot Accepting) in
  BuildCandidateTypes NV_ENC_DEVICE_TYPE_DIRECTX
  = [GetDirectX11DeviceType; NV_ENC_DEVICE_TYPE_DIRECTX]
  /\ hd_error (BuildCandidateTypes NV_ENC_DEVICE_TYPE_DIRECTX)
     <> Some NV_ENC_DEVICE_TYPE_DIRECTX
  /\ fst r = true
  /\ OpenSessionCalls (Log (snd r)) = [(GetDirectX11DeviceType, NV_ENC_SUCCESS, 7)]
  /\ DeviceType (This (snd r)) = GetDirectX11DeviceType
  /\ DeviceType (This (snd r)) <> NV_ENC_DEVICE_TYPE_DIRECTX.
Proof. vm_compute. repeat split; discriminate. Qed.

(** *** The version floor (C7) *)

Lemma Open_fails_closed_below_the_version_floor_witness :
  (let m := Boot VersionZeroFive in
   fst (Open H264 1 1 m) = false
   /\ Closed (This (snd (Open H264 1 1 m)))
   /\ snd (Open H264 1 1 m)
      = WithLastError VersionTooOldMessage (snd (Negotiated m)))
  /\ (let m := Boot Accepting in
      Open H264 1 1 m = OpenNegotiated H264 1 1 (snd (Negotiated m))).
Proof.
  split.
  - apply (proj1 (Open_fails_closed_below_the_version_floor H264 1 1
                    (Boot VersionZeroFive)
                    (conj eq_refl (conj eq_refl eq_refl))
                    ltac:(discriminate) eq_refl)).
    vm_compute. reflexivity.
  - apply (proj2 (Open_fails_closed_below_the_version_floor H264 1 1
                    (Boot Accepting)
                    (conj eq_refl (conj eq_refl eq_refl))
                    ltac:(discriminate) eq_refl)).
    vm_compute. reflexivity.
Defined.

Example version_zero_five_is_negotiated_and_refused :
  let m := Boot VersionZeroFive in
  fst (Negotiated m) = MkVersion 0 5
  /\ IsVersionOlder (fst (Negotiated m)) GetMinimumAPIVersion = true
  /\ fst (Open H264 1 1 m) = false
  /\ LastErrorMessage (This (snd (Open H264 1 1 m))) = VersionTooOldMessage.
Proof. vm_compute. repeat split. Qed.

(** *** Sequence parameters (C8) *)

Lemma GetSequenceParams_resizes_once_witness :
  let m := Initialized (SequenceAnswers (NV_ENC_SUCCESS, 2000)
                                        (NV_ENC_SUCCESS, 1500)) in
  let r := GetSequenceParams [] m in
  ReportedSizesFit m
  /\ Log (snd r) = Log m ++ [ CallGetSequenceParams 7 1024 NV_ENC_SUCCESS 2000;
                              CallGetSequenceParams 7 2000 NV_ENC_SUCCESS 1500 ]
  /\ fst (fst r) = true
  /\ Z.of_nat (length (snd (fst r))) = 1500.
Proof.
  intros m r.
  assert (Hinit : bIsInitialised (This m) = true) by (vm_compute; reflexivity).
  assert (Henc : Encoder (This m) <> nullptr) by (vm_compute; discriminate).
  assert (Hfn : nvEncGetSequenceParams (FunctionList (This m)) = true)
    by (vm_compute; reflexivity).
  assert (Hfit : ReportedSizesFit m)
    by (vm_compute; repeat split; discriminate).
  split; [exact Hfit|].
  destruct (GetSequenceParams_resizes_once [] m Hinit Henc Hfn Hfit)
    as (st1 & sz1 & First & Run).
  vm_compute in First. injection First as -> ->.
  cbn [Z.eqb Z.ltb Z.compare Pos.compare Pos.compare_cont andb] in Run.
  destruct Run as (st2 & sz2 & Retry & Calls & _ & Ok & Bytes).
  vm_compute in Retry. injection Retry as -> ->.
  change (Encoder (This m)) with 7 in Calls.
  fold r in Calls, Ok, Bytes.
  change (NV_ENC_SUCCESS =? NV_ENC_SUCCESS) with true in Ok.
  rewrite Ok in Bytes.
  split; [exact Calls|]. split; [exact Ok | exact Bytes].
Defined.

(** C8, as stated, fails.  When the runtime reports 2000 bytes together with
    the status not-enough-buffer, there is no resize and no retry.  When it
    reports 2000 bytes with success and, on the retry, 1500, the result has
    1500 bytes, not the 2000 the buffer was resized to; when the retry
    reports 3000, the result has 2000 bytes, not the 3000 reported last. *)
Lemma GetSequenceParams_retries_only_after_success_and_returns_the_smaller_size :
  (let r := GetSequenceParams []
              (Initialized (SequenceAnswers (NV_ENC_ERR_NOT_ENOUGH_BUFFER, 2000)
                                            (NV_ENC_SUCCESS, 2000))) in
   fst (fst r) = false
   /\ Log (snd r) = [CallGetSequenceParams 7 1024 NV_ENC_ERR_NOT_ENOUGH_BUFFER 2000])
  /\ (let r := GetSequenceParams []
                 (Initialized (SequenceAnswers (NV_ENC_SUCCESS, 2000)
                                               (NV_ENC_SUCCESS, 1500))) in
      fst (fst r) = true
      /\ Log (snd r) = [ CallGetSequenceParams 7 1024 NV_ENC_SUCCESS 2000;
                         CallGetSequenceParams 7 2000 NV_ENC_SUCCESS 1500 ]
      /\ length (snd (fst r)) = 1500%nat)
  /\ (let r := GetSequenceParams []
                 (Initialized (SequenceAnswers (NV_ENC_SUCCESS, 2000)
                                               (NV_ENC_SUCCESS, 3000))) in
      fst (fst r) = true
      /\ Log (snd r) = [ CallGetSequenceParams 7 1024 NV_ENC_SUCCESS 2000;
                         CallGetSequenceParams 7 2000 NV_ENC_SUCCESS 3000 ]
      /\ length (snd (fst r)) = 2000%nat).
Proof. vm_compute. repeat split. Qed.

(** *** The last-error text (C5) *)


(** *** Entry conditions of the operations *)

Lemma Open_needs_a_closed_session_and_a_device_witness :
  Open HEVC 9 9 (Opened Accepting)
  = (true, WithLastError EmptyString (Opened Accepting))
  /\ Open H264 nullptr 1 (Boot Accepting)
     = (false, WithLastError NoDeviceMessage (Boot Accepting)).
Proof.
  split.
  - apply (proj1 (Open_needs_a_closed_session_and_a_device HEVC 9 9
                    (Opened Accepting))).
    vm_compute. reflexivity.
  - apply (proj2 (Open_needs_a_closed_session_and_a_device H264 nullptr 1
                    (Boot Accepting)));
      reflexivity.
Defined.

Lemma GetSequenceParams_needs_an_initialised_encoder_witness :
  GetSequenceParams [1; 2] (Opened Accepting) = ((false, [1; 2]), Opened Accepting).
Proof.
  apply GetSequenceParams_needs_an_initialised_encoder.
  left. vm_compute. reflexivity.
Defined.

Lemma Destroy_releases_the_encoder_once_witness :
  let m := Opened (WithDestroy NV_ENC_ERR_INVALID_PARAM) in
  Log (snd (Destroy m)) = [CallDestroyEncoder 7 NV_ENC_ERR_INVALID_PARAM]
  /\ Runtime (snd (Destroy m)) = WithDestroy NV_ENC_ERR_INVALID_PARAM
  /\ Destroy (snd (Destroy m)) = (tt, snd (Destroy m)).
Proof.
  intros m.
  assert (Hopen : bIsOpen (This m) = true) by (vm_compute; reflexivity).
  exact (Destroy_releases_the_encoder_once m Hopen).
Defined.

(** *** What [Open] leaves behind *)

Lemma Open_failure_leaves_the_session_closed_witness :
  Closed (This (snd (Open H264 1 1 (Boot RejectsEveryPreset)))).
Proof.
  apply Open_failure_leaves_the_session_closed.
  - vm_compute. repeat split.
  - vm_compute. reflexivity.
Defined.

Lemma Open_records_the_device_and_the_codec_witness :
  let m := Boot Accepting in
  let s := This (snd (Open HEVC 5 1 m)) in
  Device s = 5 /\ 5 <> nullptr
  /\ CurrentParameters s = set_Codec HEVC (CurrentParameters (This m))
  /\ bIsInitialised s = bIsInitialised (This m).
Proof.
  apply (Open_records_the_device_and_the_codec HEVC 5 1 (Boot Accepting)).
  - reflexivity.
  - vm_compute. reflexivity.
Defined.

Lemma Open_releases_the_encoder_it_cannot_validate_witness :
  exists before st,
    Log (snd (Open H264 1 1 (Boot RejectsEveryPreset)))
    = before ++ [CallDestroyEncoder 7 st].
Proof.
  apply (Open_releases_the_encoder_it_cannot_validate H264 1 1
           (Boot RejectsEveryPreset)) with (failed := []) (c := 1).
  - vm_compute. reflexivity.
  - vm_compute. reflexivity.
  - vm_compute. reflexivity.
  - discriminate.
Defined.

(** *** The negotiated version *)

Lemma negotiated_version_witness :
  let m := Boot (WithMaxSupportedVersion (NV_ENC_SUCCESS, 0xB2)) in
  let r := NegotiateApiVersion m in
  DecodeApiVersion (ApiVersion (This (snd r))) = fst r
  /\ IsVersionOlder (DecodeApiVersion NVENCAPI_VERSION) (fst r) = false
  /\ (fst r = DecodeApiVersion NVENCAPI_VERSION
      \/ fst r = DecodeRuntimeVersion 0xB2).
Proof.
  refine (negotiated_version_is_recorded_and_no_newer_than_build_and_runtime
            (Boot (WithMaxSupportedVersion (NV_ENC_SUCCESS, 0xB2))) _).
  vm_compute. split; discriminate.
Defined.

(** *** The candidates of [Initialize] *)

Lemma requested_preset_is_tried_first_witness :
  let m := Opened Accepting in
  let l := fst (BuildPresetCandidates m) in
  let r := PromoteRequestedPreset RequestsP5 l (snd (BuildPresetCandidates m)) in
  exists c rest,
    fst r = c :: rest
    /\ cand_Guid c = NV_ENC_PRESET_P5_GUID
    /\ (NV_ENC_TUNING_INFO_LOW_LATENCY <> NV_ENC_TUNING_INFO_UNDEFINED ->
        cand_Tuning c = NV_ENC_TUNING_INFO_LOW_LATENCY)
    /\ (map cand_Guid (fst r) ≡ₚ map cand_Guid l
        \/ map cand_Guid (fst r) = NV_ENC_PRESET_P5_GUID :: map cand_Guid l).
Proof.
  intros m l r.
  refine (requested_preset_is_tried_first RequestsP5 l
            (snd (BuildPresetCandidates m)) _).
  vm_compute. reflexivity.
Defined.

Lemma SelectPreset_selects_a_valid_index_or_none_witness :
  let l := [ MkPresetCandidate NV_ENC_PRESET_DEFAULT_GUID
               NV_ENC_TUNING_INFO_UNDEFINED "NV_ENC_PRESET_DEFAULT";
             MkPresetCandidate NV_ENC_PRESET_P1_GUID
               NV_ENC_TUNING_INFO_LOW_LATENCY "NV_ENC_PRESET_P1" ] in
  let r := fst (SelectPreset NV_ENC_CODEC_H264_GUID l 0 ZeroPresetConfig
                  NV_ENC_SUCCESS (Opened Accepting)) in
  (fst (fst r) = INDEX_NONE /\ snd r <> NV_ENC_SUCCESS)
  \/ (0 <= fst (fst r) < 0 + Z.of_nat 2 /\ snd r = NV_ENC_SUCCESS).
Proof.
  intros l r.
  refine (SelectPreset_selects_a_valid_index_or_none NV_ENC_CODEC_H264_GUID l 0
            ZeroPresetConfig NV_ENC_SUCCESS (Opened Accepting) _ _).
  - lia.
  - discriminate.
Defined.

(** *** What [Initialize] and [Reconfigure] leave behind *)




Lemma Reconfigure_keeps_preset_tuning_and_format_witness :
  let m := Initialized Accepting in
  let r := Reconfigure HevcTenBit m in
  fst r = true
  /\ Log (snd r)
     = Log m ++ [CallReconfigureEncoder (Encoder (This m)) NV_ENC_SUCCESS]
  /\ encodeWidth (InitializeParams (This (snd r))) = 3840
  /\ frameRateNum (InitializeParams (This (snd r)))
     = frameRateNum (InitializeParams (This m))
  /\ presetGUID (InitializeParams (This (snd r)))
     = presetGUID (InitializeParams (This m))
  /\ NvBufferFormat (This (snd r)) = NvBufferFormat (This m).
Proof.
  intros m r. subst r.
  assert (Hok : fst (Reconfigure HevcTenBit m) = true)
    by (vm_compute; reflexivity).
  destruct (Reconfigure_keeps_preset_tuning_and_format HevcTenBit m)
    as ((_ & _ & _ & _ & _ & _ & _ & Format & _)
        & (_ & Preset & _ & Rate & _) & Success).
  destruct (Success Hok) as (_ & Calls & _ & Width & _).
  split; [exact Hok|]. split; [exact Calls|]. split; [exact Width|].
  split; [exact Rate|]. split; [exact Preset | exact Format].
Defined.

(** *** The scans *)

Lemma validation_stops_at_other_failures_and_selection_goes_on_witness :
  let stops := WithPresets (fun _ _ => NV_ENC_ERR_NOT_ENOUGH_BUFFER)
                 (fun _ _ _ => NV_ENC_ERR_NOT_ENOUGH_BUFFER) in
  ValidatePresets NV_ENC_CODEC_H264_GUID false [DefaultCandidate; P1Candidate]
    NV_ENC_SUCCESS (Opened stops)
  = ValidatePresets NV_ENC_CODEC_H264_GUID false [DefaultCandidate]
      NV_ENC_SUCCESS (Opened stops).
Proof.
  intros stops.
  assert (Hfail : fst (fst (ValidatePresets NV_ENC_CODEC_H264_GUID false
                              [DefaultCandidate] NV_ENC_SUCCESS (Opened stops)))
                  = false) by (vm_compute; reflexivity).
  pose proof (proj1 (validation_stops_at_other_failures_and_selection_goes_on
                       NV_ENC_CODEC_H264_GUID (Opened stops))
                false DefaultCandidate [P1Candidate] NV_ENC_SUCCESS Hfail)
    as Stops.
  match type of Stops with
  | (if ?c then _ else _) =>
      replace c with false in Stops by (vm_compute; reflexivity)
  end.
  exact Stops.
Defined.

Lemma validation_only_queries_presets_with_the_session_encoder_witness :
  let r := ValidatePresetConfiguration H264 false (Boot Accepting) in
  fst r = false /\ Log (snd r) = Log (Boot Accepting)
  /\ Runtime (snd r) = Runtime (Boot Accepting)
  /\ Cache (snd r) = Cache (Boot Accepting).
Proof.
  apply (proj2 (proj2 (validation_only_queries_presets_with_the_session_encoder
                         H264 false (Boot Accepting)))).
  left. reflexivity.
Defined.

(** *** The device-type candidate array *)

Lemma TryAddCandidate_is_a_bounded_insertion_witness :
  NoDup (TryAddCandidate [3] 0)
  /\ In 0 (TryAddCandidate [3] 0)
  /\ TryAddCandidate [1; 2; 3; 4] 9 = [1; 2; 3; 4].
Proof.
  destruct (TryAddCandidate_is_a_bounded_insertion [3] 0)
    as (Distinct & _ & Added & _).
  destruct (TryAddCandidate_is_a_bounded_insertion [1; 2; 3; 4] 9)
    as (_ & _ & _ & Full & _).
  split; [apply Distinct, NoDup_singleton|].
  split; [apply Added; cbn; lia | apply Full; cbn; lia].
Defined.


End Runs.
